(** * Extraction result formatter ([json_formatter.py])

    A shallow embedding of [JSONFormatter]: the value normaliser
    ([_format_value]), the summary builder ([_create_summary]), the
    consistency validator ([_validate_data_consistency]) and the comparison
    builder ([create_comparison_report]), together with the fragment of
    Python they rely on: [str.replace], [str.strip], [float(str)], float
    comparison and arithmetic on binary64, the format specifications
    [,.2f] and [.1f], [list.sort] and insertion-ordered dictionaries. *)

From Stdlib Require Import ZArith Lia List String Ascii Bool.
From Stdlib Require Import DecimalString DecimalPos DecimalN.
From Stdlib Require Import Sorting.Sorted Sorting.Permutation.
Import ListNotations.

Local Open Scope string_scope.
Local Open Scope Z_scope.

(** ** Exceptions

    Python exceptions are values of [exn]; a computation that may raise
    returns a [result].  Each exception carries the text that [str(e)]
    gives. *)

Inductive exn : Type :=
| ValueError (msg : string)
| ZeroDivisionError (msg : string)
| OverflowError (msg : string)
| TypeError (msg : string)
| AttributeError (msg : string).

Definition exn_str (e : exn) : string :=
  match e with
  | ValueError m | ZeroDivisionError m | OverflowError m | TypeError m
  | AttributeError m => m
  end.

Inductive result (A : Type) : Type :=
| Ok (a : A)
| Raise (e : exn).

Arguments Ok {A} a.
Arguments Raise {A} e.

Definition bind {A B : Type} (r : result A) (k : A -> result B) : result B :=
  match r with
  | Ok a => k a
  | Raise e => Raise e
  end.

Notation "x <- r ;; k" := (bind r (fun x => k))
  (at level 61, r at next level, right associativity).

(** ** Python strings

    A [str] is modelled by a [string] whose characters are the code points
    0..255. *)

Module Py.

Definition code (c : ascii) : Z := Z.of_N (N_of_ascii c).

Definition is_digit (c : ascii) : bool := (48 <=? code c) && (code c <=? 57).

Definition digit_val (c : ascii) : Z := code c - 48.

Definition digit_char (d : Z) : ascii := ascii_of_N (Z.to_N (48 + d)).

(** [str.isspace] on one character: the code points below 256 that Unicode
    classifies as white space. *)
Definition is_space (c : ascii) : bool :=
  let n := code c in
  ((9 <=? n) && (n <=? 13)) || ((28 <=? n) && (n <=? 32))
  || (n =? 133) || (n =? 160).

Definition lower (c : ascii) : ascii :=
  let n := code c in
  if (65 <=? n) && (n <=? 90) then ascii_of_N (Z.to_N (n + 32)) else c.

Fixpoint lstrip_by (space : ascii -> bool) (s : string) : string :=
  match s with
  | String c s' => if space c then lstrip_by space s' else s
  | EmptyString => EmptyString
  end.

Fixpoint rstrip_by (space : ascii -> bool) (s : string) : string :=
  match s with
  | String c s' =>
      match rstrip_by space s' with
      | EmptyString => if space c then EmptyString else String c EmptyString
      | t => String c t
      end
  | EmptyString => EmptyString
  end.

(** [s.strip()] *)
Definition strip (s : string) : string :=
  rstrip_by is_space (lstrip_by is_space s).

(** [s.replace(old, new)] for a non-empty [old]: occurrences are found from
    left to right and do not overlap.  [skip] counts the characters of a
    match that are still to be dropped. *)
Fixpoint replace_from (skip : nat) (old new s : string) : string :=
  match s with
  | EmptyString => EmptyString
  | String c s' =>
      match skip with
      | S k => replace_from k old new s'
      | O =>
          if prefix old s
          then new ++ replace_from (Nat.pred (String.length old)) old new s'
          else String c (replace_from O old new s')
      end
  end.

Definition replace (s old new : string) : string := replace_from O old new s.

(** Decimal text of a natural number, as [str(n)] gives it. *)
Definition str_of_N (n : N) : string := NilEmpty.string_of_uint (N.to_uint n).

Definition str_of_nat (n : nat) : string := str_of_N (N.of_nat n).

Fixpoint contains_char (c : ascii) (s : string) : bool :=
  match s with
  | EmptyString => false
  | String d s' => Ascii.eqb c d || contains_char c s'
  end.

Definition hex_digit (d : Z) : ascii :=
  if d <? 10 then ascii_of_N (Z.to_N (48 + d)) else ascii_of_N (Z.to_N (87 + d)).

Definition printable (c : ascii) : bool :=
  let n := code c in
  ((32 <=? n) && (n <? 127)) || ((161 <=? n) && negb (n =? 173)).

Definition repr_char (quote c : ascii) : string :=
  if Ascii.eqb c quote || Ascii.eqb c "\"
  then String "\" (String c EmptyString)
  else if code c =? 9 then "\t"
  else if code c =? 10 then "\n"
  else if code c =? 13 then "\r"
  else if printable c then String c EmptyString
  else String "\" (String "x"
         (String (hex_digit (code c / 16))
            (String (hex_digit (code c mod 16)) EmptyString))).

Fixpoint repr_body (quote : ascii) (s : string) : string :=
  match s with
  | EmptyString => EmptyString
  | String c s' => repr_char quote c ++ repr_body quote s'
  end.

(** [repr(s)] *)
Definition repr (s : string) : string :=
  let dquote := ascii_of_N 34 in
  let quote :=
    if contains_char "'" s && negb (contains_char dquote s)
    then dquote else "'"%char in
  String quote (repr_body quote s ++ String quote EmptyString).

End Py.

(** ** Binary64 floating point

    A Python [float] is an IEEE 754 binary64 number.  A finite non-zero
    value is [(-1)^neg * m * 2^e]; the operations below produce the canonical
    representation ([2^52 <= m < 2^53], or [m < 2^52] with [e = -1074] for
    subnormal numbers).  All rounding is to nearest, ties to even, as the
    hardware and CPython's correctly rounded string conversions do it. *)

Module Float.

Inductive float : Type :=
| Zero (neg : bool)
| Inf (neg : bool)
| NaN
| Fin (neg : bool) (m : positive) (e : Z).

Definition emin : Z := -1074.

(** Largest exponent of a finite number with a 53-bit mantissa. *)
Definition emax : Z := 971.

(** Quotient of [a] by [b > 0] rounded to the nearest integer, ties to
    even. *)
Definition div_rne (a b : Z) : Z :=
  let q := a / b in
  match (2 * (a mod b)) ?= b with
  | Lt => q
  | Gt => q + 1
  | Eq => if Z.even q then q else q + 1
  end.

(** [floor (log2 (p / q))] for positive [p] and [q]. *)
Definition ilog2_ratio (p q : Z) : Z :=
  let d := Z.log2 p - Z.log2 q in
  let below := if 0 <=? d then p <? q * 2 ^ d else p * 2 ^ (- d) <? q in
  if below then d - 1 else d.

(** The binary64 number nearest to [(-1)^neg * p / q], for [0 <= p] and
    [0 < q]: overflow gives an infinity, underflow a subnormal number or a
    signed zero. *)
Definition round_ratio (neg : bool) (p q : Z) : float :=
  if p <=? 0 then Zero neg
  else
    let e := Z.max (ilog2_ratio p q - 52) emin in
    let m := if 0 <=? e then div_rne p (q * 2 ^ e)
             else div_rne (p * 2 ^ (- e)) q in
    if m =? 0 then Zero neg
    else
      let '(m', e') := if m =? 2 ^ 53 then (2 ^ 52, e + 1) else (m, e) in
      if emax <? e' then Inf neg else Fin neg (Z.to_pos m') e'.

(** Conversion of an [int]. *)
Definition of_int (z : Z) : float := round_ratio (z <? 0) (Z.abs z) 1.

(** [abs(x)] *)
Definition abs (x : float) : float :=
  match x with
  | Zero _ => Zero false
  | Inf _ => Inf false
  | NaN => NaN
  | Fin _ m e => Fin false m e
  end.

(** Comparison of the magnitudes [m1 * 2^e1] and [m2 * 2^e2]. *)
Definition mag_compare (m1 : positive) (e1 : Z) (m2 : positive) (e2 : Z)
  : comparison :=
  let e := Z.min e1 e2 in
  (Zpos m1 * 2 ^ (e1 - e)) ?= (Zpos m2 * 2 ^ (e2 - e)).

(** IEEE comparison: [None] when an operand is a NaN. *)
Definition compare (x y : float) : option comparison :=
  match x, y with
  | NaN, _ | _, NaN => None
  | Inf s1, Inf s2 =>
      Some (match s1, s2 with
            | true, false => Lt | false, true => Gt | _, _ => Eq end)
  | Inf s, _ => Some (if s then Lt else Gt)
  | _, Inf s => Some (if s then Gt else Lt)
  | Zero _, Zero _ => Some Eq
  | Zero _, Fin s _ _ => Some (if s then Gt else Lt)
  | Fin s _ _, Zero _ => Some (if s then Lt else Gt)
  | Fin s1 m1 e1, Fin s2 m2 e2 =>
      Some (match s1, s2 with
            | true, false => Lt
            | false, true => Gt
            | false, false => mag_compare m1 e1 m2 e2
            | true, true => mag_compare m2 e2 m1 e1
            end)
  end.

(** [x == y], [x < y], [x > y], [x >= y] *)
Definition eqb (x y : float) : bool :=
  match compare x y with Some Eq => true | _ => false end.

Definition ltb (x y : float) : bool :=
  match compare x y with Some Lt => true | _ => false end.

Definition gtb (x y : float) : bool := ltb y x.

Definition geb (x y : float) : bool :=
  match compare x y with Some Gt | Some Eq => true | _ => false end.

Definition is_nan (x : float) : bool :=
  match x with NaN => true | _ => false end.

Definition is_finite (x : float) : bool :=
  match x with Zero _ | Fin _ _ _ => true | _ => false end.

Definition sign_bit (x : float) : bool :=
  match x with
  | Zero s | Inf s | Fin s _ _ => s
  | NaN => false
  end.

(** [x * y] *)
Definition mul (x y : float) : float :=
  match x, y with
  | NaN, _ | _, NaN => NaN
  | Inf _, Zero _ | Zero _, Inf _ => NaN
  | Inf s1, (Inf s2 | Fin s2 _ _) | Fin s1 _ _, Inf s2 => Inf (xorb s1 s2)
  | Zero s1, (Zero s2 | Fin s2 _ _) | Fin s1 _ _, Zero s2 => Zero (xorb s1 s2)
  | Fin s1 m1 e1, Fin s2 m2 e2 =>
      let e := e1 + e2 in
      if 0 <=? e then round_ratio (xorb s1 s2) (Zpos m1 * Zpos m2 * 2 ^ e) 1
      else round_ratio (xorb s1 s2) (Zpos m1 * Zpos m2) (2 ^ (- e))
  end.

(** [a / b] on two [int]s: the correctly rounded quotient. *)
Definition truediv (a b : Z) : result float :=
  if b =? 0 then Raise (ZeroDivisionError "division by zero")
  else
    match round_ratio (xorb (a <? 0) (b <? 0)) (Z.abs a) (Z.abs b) with
    | Inf _ =>
        Raise (OverflowError "integer division result too large for a float")
    | x => Ok x
    end.

(** [m * 2^e * 10^p] rounded to an integer: the digits of the number in
    fixed notation with [p] decimals. *)
Definition to_fixed (p : nat) (m : positive) (e : Z) : Z :=
  if 0 <=? e then Zpos m * 2 ^ e * 10 ^ Z.of_nat p
  else div_rne (Zpos m * 10 ^ Z.of_nat p) (2 ^ (- e)).

(** [round(x, ndigits)] for [0 <= ndigits]: the decimal rounding of [x]
    converted back to binary64. *)
Definition round (x : float) (ndigits : nat) : float :=
  match x with
  | Fin s m e => round_ratio s (to_fixed ndigits m e) (10 ^ Z.of_nat ndigits)
  | _ => x
  end.

(** Exactly [p] decimal digits of [n], most significant first. *)
Fixpoint fixed_digits (p : nat) (n : Z) : string :=
  match p with
  | O => EmptyString
  | S p' => fixed_digits p' (n / 10) ++ String (Py.digit_char (n mod 10)) EmptyString
  end.

(** Thousands separators in a string of digits. *)
Fixpoint group3 (s : string) : string :=
  match s with
  | EmptyString => EmptyString
  | String c s' =>
      let r := String.length s' in
      String c
        (if (Nat.ltb 0 r) && (Nat.eqb (Nat.modulo r 3) 0)
         then String "," (group3 s')
         else group3 s')
  end.

Definition fixed_text (grouping : bool) (p : nat) (n : Z) : string :=
  let i := Py.str_of_N (Z.to_N (n / 10 ^ Z.of_nat p)) in
  (if grouping then group3 i else i)
  ++ match p with
     | O => EmptyString
     | _ => "." ++ fixed_digits p (n mod 10 ^ Z.of_nat p)
     end.

Definition sign_text (neg : bool) : string := if neg then "-" else "".

(** [format(x, ",.<p>f")] when [grouping] is set, [format(x, ".<p>f")]
    otherwise. *)
Definition format_f (grouping : bool) (p : nat) (x : float) : string :=
  match x with
  | NaN => "nan"
  | Inf s => sign_text s ++ "inf"
  | Zero s => sign_text s ++ fixed_text grouping p 0
  | Fin s m e => sign_text s ++ fixed_text grouping p (to_fixed p m e)
  end.

End Float.

(** ** [float(s)] for a string [s] *)

Module Parse.

Import Float.

(** Underscores may only separate two digits; [prev] is the character
    before [s]. *)
Fixpoint del_underscores (prev : ascii) (s : string) : option string :=
  match s with
  | EmptyString => if Ascii.eqb prev "_" then None else Some EmptyString
  | String c s' =>
      if Ascii.eqb c "_"
      then if Py.is_digit prev then del_underscores c s' else None
      else if Ascii.eqb prev "_" && negb (Py.is_digit c) then None
      else option_map (String c) (del_underscores c s')
  end.

Definition sign (s : string) : bool * string :=
  match s with
  | String "-" s' => (true, s')
  | String "+" s' => (false, s')
  | _ => (false, s)
  end.

Fixpoint lower (s : string) : string :=
  match s with
  | EmptyString => EmptyString
  | String c s' => String (Py.lower c) (lower s')
  end.

(** The leading digits of [s], accumulated in [acc], their number, and
    what follows them. *)
Fixpoint digits (acc : Z) (n : Z) (s : string) : Z * Z * string :=
  match s with
  | String c s' =>
      if Py.is_digit c then digits (10 * acc + Py.digit_val c) (n + 1) s'
      else (acc, n, s)
  | EmptyString => (acc, n, s)
  end.

(** An exponent part [e], [e+] or [e-] followed by at least one digit and
    the end of the string; an empty string is exponent 0. *)
Definition exponent (s : string) : option Z :=
  match s with
  | EmptyString => Some 0
  | String c s' =>
      if Ascii.eqb (Py.lower c) "e" then
        let '(neg, t) := sign s' in
        let '(v, n, rest) := digits 0 0 t in
        match rest with
        | EmptyString => if n =? 0 then None else Some (if neg then - v else v)
        | _ => None
        end
      else None
  end.

(** A decimal number: digits with an optional point, at least one digit in
    all, and an optional exponent.  The result is the mantissa and the power
    of ten. *)
Definition decimal (s : string) : option (Z * Z) :=
  let '(i, ni, r1) := digits 0 0 s in
  let '(m, nf, r2) :=
    match r1 with
    | String "." t => digits i 0 t
    | _ => (i, 0, r1)
    end in
  if ni + nf =? 0 then None
  else match exponent r2 with
       | Some x => Some (m, x - nf)
       | None => None
       end.

Definition of_decimal (neg : bool) (m x : Z) : float :=
  if 0 <=? x then round_ratio neg (m * 10 ^ x) 1
  else round_ratio neg m (10 ^ (- x)).

Definition number (s : string) : option float :=
  let '(neg, t) := sign s in
  let l := lower t in
  if String.eqb l "inf" || String.eqb l "infinity" then Some (Inf neg)
  else if String.eqb l "nan" then Some NaN
  else match decimal t with
       | Some (m, x) => Some (of_decimal neg m x)
       | None => None
       end.

(** The white space that [float] ignores around a number: the ASCII blanks
    and the two other spaces below 256, but not the separators 28..31. *)
Definition is_float_space (c : ascii) : bool :=
  let n := Py.code c in
  ((9 <=? n) && (n <=? 13)) || (n =? 32) || (n =? 133) || (n =? 160).

(** [float(s)]: white space around the number is ignored; anything that is
    not a number raises [ValueError]. *)
Definition float_of_str (s : string) : result float :=
  match
    del_underscores zero
      (Py.rstrip_by is_float_space (Py.lstrip_by is_float_space s))
  with
  | Some t =>
      match number t with
      | Some x => Ok x
      | None =>
          Raise (ValueError ("could not convert string to float: " ++ Py.repr s))
      end
  | None =>
      Raise (ValueError ("could not convert string to float: " ++ Py.repr s))
  end.

End Parse.

(** ** Dictionaries and lists

    A [dict] keeps its items in insertion order; assigning to a key that is
    present replaces the value in place. *)

Definition dict (V : Type) : Type := list (string * V).

Fixpoint dict_get {V : Type} (d : dict V) (k : string) : option V :=
  match d with
  | [] => None
  | (k', v) :: d' => if String.eqb k' k then Some v else dict_get d' k
  end.

Fixpoint dict_set {V : Type} (d : dict V) (k : string) (v : V) : dict V :=
  match d with
  | [] => [(k, v)]
  | (k', v') :: d' =>
      if String.eqb k' k then (k', v) :: d' else (k', v') :: dict_set d' k v
  end.

Definition dict_mem {V : Type} (d : dict V) (k : string) : bool :=
  match dict_get d k with Some _ => true | None => false end.

Definition dict_keys {V : Type} (d : dict V) : list string := map fst d.

(** The keys of a dictionary are pairwise distinct. *)
Definition dict_wf {V : Type} (d : dict V) : Prop := NoDup (dict_keys d).

(** [set.add] and [set.update] on a set of strings kept as a list without
    repetition.  Python leaves the iteration order of a set unspecified; the
    order of first insertion stands for it here. *)
Definition set_add (s : list string) (k : string) : list string :=
  if existsb (String.eqb k) s then s else s ++ [k].

Definition set_update (s : list string) (ks : list string) : list string :=
  fold_left set_add ks s.

(** [enumerate(l)] *)
Definition enumerate {A : Type} (l : list A) : list (nat * A) :=
  combine (seq 0 (List.length l)) l.

(** [l.sort(key=..., reverse=...)] compares with [<] only and is stable.
    When [<] orders the keys consistently the stable arrangement is unique,
    and insertion computes it.  With [reverse] the list is reversed, sorted
    and reversed again, which keeps equal elements in their original
    order.

    With a NaN among the keys [<] does not order them consistently, and
    what CPython returns then depends on the runs and merges of its
    algorithm, which insertion does not follow: [list_sort] stands for
    [list.sort] on keys without a NaN, and what is proved of the order or
    of the choice of a sorted list is proved for such keys only. *)
Section Sort.
Context {A : Type} (lt : A -> A -> bool).

Fixpoint insert (x : A) (l : list A) : list A :=
  match l with
  | [] => [x]
  | y :: l' => if lt y x then y :: insert x l' else x :: l
  end.

Fixpoint stable_sort (l : list A) : list A :=
  match l with
  | [] => []
  | x :: l' => insert x (stable_sort l')
  end.

Definition list_sort (reverse : bool) (l : list A) : list A :=
  if reverse then rev (stable_sort (rev l)) else stable_sort l.
End Sort.

(** ** Data model *)

(** A raw extracted value: [None] or a string. *)
Inductive Raw : Type :=
| RNone
| RStr (s : string).

Inductive Status : Type :=
| not_found
| extracted
| extracted_non_numeric
| format_error.

Definition status_text (s : Status) : string :=
  match s with
  | not_found => "not_found"
  | extracted => "extracted"
  | extracted_non_numeric => "extracted_non_numeric"
  | format_error => "format_error"
  end.

Definition status_eqb (a b : Status) : bool :=
  String.eqb (status_text a) (status_text b).

Record NormalizedValue : Type := mkNormalizedValue {
  raw_value : Raw;
  formatted_value : option string;
  numeric_value : option Float.float;
  currency : option string;
  status : Status
}.

Record TopValue : Type := mkTopValue {
  attribute : string;
  value : Float.float
}.

Record Metric : Type := mkMetric {
  metric_value : option Float.float;
  metric_formatted : option string
}.

Record Summary : Type := mkSummary {
  total_attributes_processed : nat;
  successful_extractions : nat;
  extraction_rate : string;
  top_values : list TopValue;
  key_insurance_metrics : dict Metric
}.

(** [_create_summary] returns a summary, or [{"error": ...}]. *)
Inductive SummaryResult : Type :=
| SummaryOk (s : Summary)
| SummaryError (error : string).

Inductive ValidationStatus : Type :=
| st_passed
| st_warnings
| st_failed
| st_error.

Definition validation_status_text (s : ValidationStatus) : string :=
  match s with
  | st_passed => "passed"
  | st_warnings => "warnings"
  | st_failed => "failed"
  | st_error => "error"
  end.

Record ConsistencyCheck : Type := mkCheck {
  check : string;
  check_status : string;
  message : string
}.

Record Validation : Type := mkValidation {
  validation_status : ValidationStatus;
  warnings : list string;
  errors : list string;
  consistency_checks : list ConsistencyCheck
}.

(** The result of [format_extraction_results]. *)
Inductive FormattedReport : Type :=
| ReportSuccess (extraction_timestamp : string)
    (pdf_filename excel_filename : string)
    (extracted_data : dict NormalizedValue)
    (summary : SummaryResult) (validation : Validation)
| ReportFailure (error : string) (extraction_timestamp : string).

(** What [create_comparison_report] reads of an extraction: the
    [extracted_data] entry when the key is present, and
    [source_files.pdf_filename] when both keys are. *)
Record Extraction : Type := mkExtraction {
  extraction_data : option (dict NormalizedValue);
  extraction_pdf_filename : option string
}.

Record ComparisonEntry : Type := mkEntry {
  document_index : nat;
  document_name : string;
  entry_value : option Float.float;
  entry_formatted : option string;
  entry_status : Status
}.

Record ComparisonReport : Type := mkComparison {
  comparison_timestamp : string;
  total_documents : nat;
  attribute_comparison : dict (list ComparisonEntry);
  summary_statistics : dict string
}.

Inductive ComparisonResult : Type :=
| ComparisonOk (c : ComparisonReport)
| ComparisonError (error : string).

(** ** The value normaliser: [_format_value] *)

(** [not value] *)
Definition falsy (value : Raw) : bool :=
  match value with
  | RNone => true
  | RStr s => String.eqb s ""
  end.

(** [value in ["NOT_FOUND", "ERROR", None]] *)
Definition is_sentinel (value : Raw) : bool :=
  match value with
  | RNone => true
  | RStr s => String.eqb s "NOT_FOUND" || String.eqb s "ERROR"
  end.

(** [str(value)] *)
Definition str (value : Raw) : string :=
  match value with
  | RNone => "None"
  | RStr s => s
  end.

Definition clean (value : Raw) : string :=
  Py.strip
    (Py.replace
       (Py.replace (Py.replace (Py.replace (str value) "$" "") "," "") "USD" "")
       "US" "").

Definition format_currency (numeric_value : Float.float) : string :=
  if Float.geb numeric_value (Float.of_int 0)
  then "$" ++ Float.format_f true 2 numeric_value
  else "-$" ++ Float.format_f true 2 (Float.abs numeric_value).

(** The body of the outer [try]: the inner handler turns the [ValueError]
    of [float] into a result, anything else is left to the outer handler. *)
Definition format_value_body (value : Raw) : result NormalizedValue :=
  let clean_value := clean value in
  match Parse.float_of_str clean_value with
  | Ok numeric_value =>
      Ok {| raw_value := value;
            formatted_value := Some (format_currency numeric_value);
            numeric_value := Some numeric_value;
            currency := Some "USD";
            status := extracted |}
  | Raise (ValueError _) =>
      Ok {| raw_value := value;
            formatted_value := Some clean_value;
            numeric_value := None;
            currency := None;
            status := extracted_non_numeric |}
  | Raise e => Raise e
  end.

Definition _format_value (value : Raw) : NormalizedValue :=
  if falsy value || is_sentinel value then
    {| raw_value := value;
       formatted_value := None;
       numeric_value := None;
       currency := None;
       status := not_found |}
  else
    match format_value_body value with
    | Ok r => r
    | Raise _ =>
        {| raw_value := value;
           formatted_value := None;
           numeric_value := None;
           currency := None;
           status := format_error |}
    end.

(** ** The summary builder: [_create_summary] *)

Definition key_mappings : list (string * string) :=
  [ ("Total Insured Value", "total_insured_value");
    ("Quoted Amount", "quoted_amount");
    ("Limit Amount", "limit_amount");
    ("Limit per occurrence", "limit_per_occurrence");
    ("Attachment Point", "attachment_point");
    ("Annual Premium", "annual_premium");
    ("100 % Annual Premium", "full_annual_premium");
    ("Premium due", "premium_due");
    ("100% layer premium w/o terrorism", "layer_premium_no_terrorism") ].

Definition _extract_key_metrics (formatted_data : dict NormalizedValue)
  : dict Metric :=
  fold_left
    (fun metrics '(original_key, standard_key) =>
       match dict_get formatted_data original_key with
       | Some data =>
           if status_eqb (status data) extracted
           then dict_set metrics standard_key
                  {| metric_value := numeric_value data;
                     metric_formatted := formatted_value data |}
           else metrics
       | None => metrics
       end)
    key_mappings [].

(** The loop over the items: the count of successful extractions and the
    list of numeric values, in encounter order. *)
Definition collect_numeric (formatted_data : dict NormalizedValue)
  : nat * list TopValue :=
  fold_left
    (fun '(total_extracted, numeric_values) '(attr, data) =>
       match status_eqb (status data) extracted, numeric_value data with
       | true, Some v =>
           (S total_extracted,
            (numeric_values ++ [{| attribute := attr; value := v |}])%list)
       | _, _ => (total_extracted, numeric_values)
       end)
    formatted_data (O, []).

(** The key function of the sort compared with [<]. *)
Definition value_lt (a b : TopValue) : bool := Float.ltb (value a) (value b).

(** [f"{(total_extracted/total_attributes*100):.1f}%"] *)
Definition percentage (total_extracted total_attributes : nat) : result string :=
  q <- Float.truediv (Z.of_nat total_extracted) (Z.of_nat total_attributes) ;;
  Ok (Float.format_f false 1 (Float.mul q (Float.of_int 100)) ++ "%").

Definition create_summary_body (formatted_data : dict NormalizedValue)
  : result Summary :=
  let total_attributes := List.length formatted_data in
  let '(total_extracted, numeric_values) := collect_numeric formatted_data in
  let numeric_values := list_sort value_lt true numeric_values in
  rate <- (if Nat.ltb 0 total_attributes
           then percentage total_extracted total_attributes
           else Ok "0%") ;;
  Ok {| total_attributes_processed := total_attributes;
        successful_extractions := total_extracted;
        extraction_rate := rate;
        top_values := firstn 5 numeric_values;
        key_insurance_metrics := _extract_key_metrics formatted_data |}.

Definition _create_summary (formatted_data : dict NormalizedValue)
  : SummaryResult :=
  match create_summary_body formatted_data with
  | Ok summary => SummaryOk summary
  | Raise e => SummaryError (exn_str e)
  end.

(** ** The consistency validator: [_validate_data_consistency]

    The body of the [try] updates the [validation] dictionary in place.  A
    [block] gives the dictionary as the block leaves it, and the exception
    that ended it, if any. *)

Definition block : Type := Validation -> Validation * option exn.

Definition skip : block := fun validation => (validation, None).

Definition raise (e : exn) : block := fun validation => (validation, Some e).

Definition seq_block (b1 b2 : block) : block :=
  fun validation =>
    match b1 validation with
    | (validation', None) => b2 validation'
    | stopped => stopped
    end.

Notation "b1 ;;; b2" := (seq_block b1 b2) (at level 62, right associativity).

Definition append_warning (w : string) : block :=
  fun validation =>
    ({| validation_status := validation_status validation;
        warnings := (warnings validation ++ [w])%list;
        errors := errors validation;
        consistency_checks := consistency_checks validation |}, None).

Definition append_error (msg : string) (validation : Validation) : Validation :=
  {| validation_status := validation_status validation;
     warnings := warnings validation;
     errors := (errors validation ++ [msg])%list;
     consistency_checks := consistency_checks validation |}.

Definition append_check (c : ConsistencyCheck) : block :=
  fun validation =>
    ({| validation_status := validation_status validation;
        warnings := warnings validation;
        errors := errors validation;
        consistency_checks := (consistency_checks validation ++ [c])%list |},
     None).

Definition set_status (s : ValidationStatus) (validation : Validation)
  : Validation :=
  {| validation_status := s;
     warnings := warnings validation;
     errors := errors validation;
     consistency_checks := consistency_checks validation |}.

(** [try: body except Exception as e: ...] *)
Definition try_block (body : block) (validation : Validation) : Validation :=
  match body validation with
  | (validation', None) => validation'
  | (validation', Some e) =>
      append_error ("Validation error: " ++ exn_str e)
        (set_status st_error validation')
  end.

(** The numeric values of the attributes that were extracted. *)
Definition numeric_values_of (formatted_data : dict NormalizedValue)
  : dict Float.float :=
  fold_left
    (fun values '(attr, data) =>
       match status_eqb (status data) extracted, numeric_value data with
       | true, Some v => dict_set values attr v
       | _, _ => values
       end)
    formatted_data [].

(** [f"${x:,.2f}"] *)
Definition dollars (x : Float.float) : string := "$" ++ Float.format_f true 2 x.

Definition check_quoted_limit (values : dict Float.float) : block :=
  match dict_get values "Quoted Amount", dict_get values "Limit Amount" with
  | Some quoted, Some limit =>
      if Float.eqb quoted limit then
        append_check
          {| check := "Quoted Amount vs Limit Amount";
             check_status := "consistent";
             message := "Quoted Amount equals Limit Amount as expected" |}
      else
        append_warning
          ("Quoted Amount (" ++ dollars quoted
           ++ ") differs from Limit Amount (" ++ dollars limit ++ ")")
  | _, _ => skip
  end.

Definition check_premium (values : dict Float.float) : block :=
  match dict_get values "Premium due", dict_get values "Annual Premium" with
  | Some due, Some annual =>
      if Float.eqb due annual then
        append_check
          {| check := "Premium due vs Annual Premium";
             check_status := "consistent";
             message := "Premium due equals Annual Premium" |}
      else
        append_warning
          ("Premium due (" ++ dollars due
           ++ ") differs from Annual Premium (" ++ dollars annual ++ ")")
  | _, _ => skip
  end.

Definition check_total_insured_value (values : dict Float.float) : block :=
  match dict_get values "Total Insured Value" with
  | Some tiv =>
      if Float.ltb tiv (Float.of_int 1000000) then
        append_warning ("Total Insured Value seems low: " ++ dollars tiv)
      else if Float.gtb tiv (Float.of_int 100000000000) then
        append_warning ("Total Insured Value seems very high: " ++ dollars tiv)
      else skip
  | None => skip
  end.

Definition set_overall_status : block :=
  fun validation =>
    match errors validation, warnings validation with
    | _ :: _, _ => (set_status st_failed validation, None)
    | [], _ :: _ => (set_status st_warnings validation, None)
    | [], [] => (validation, None)
    end.

Definition validation_body (formatted_data : dict NormalizedValue) : block :=
  let values := numeric_values_of formatted_data in
  check_quoted_limit values ;;;
  check_premium values ;;;
  check_total_insured_value values ;;;
  set_overall_status.

Definition _validate_data_consistency (formatted_data : dict NormalizedValue)
  : Validation :=
  try_block (validation_body formatted_data)
    {| validation_status := st_passed;
       warnings := [];
       errors := [];
       consistency_checks := [] |}.

(** ** The validator on maps that were not normalised

    [_validate_data_consistency] takes whatever dictionary it is handed.
    The maps of the data model hold normalised values only, and on them
    nothing in the body raises.  A map from elsewhere may hold an entry that
    is not a dictionary, or a numeric value that is a text.  The body below
    is the same body, each operation with the cases of such values: the
    method [get] of an object that has none, and [==], [<], [>] and the
    format [,.2f] of a text.  The messages are those of CPython 3.11. *)

Module Loose.

(** A [numeric_value] that is not [None]: a number or a text. *)
Inductive Value : Type :=
| VFloat (x : Float.float)
| VStr (s : string).

(** An item of the map: a dictionary, of which the validator reads the
    keys ["status"] and ["numeric_value"] ([None] when the key is missing or
    holds [None]), or an object of a type that has no method [get] ([None],
    a text, a number, a list), given by the name of its type. *)
Inductive Entry : Type :=
| Dict (status : option string) (numeric_value : option Value)
| NotDict (type_name : string).

(** A normalised value and a map of them, as the validator sees them. *)
Definition of_normalized (data : NormalizedValue) : Entry :=
  Dict (Some (status_text (status data)))
    (option_map VFloat (numeric_value data)).

Definition of_map (formatted_data : dict NormalizedValue) : dict Entry :=
  map (fun kv => (fst kv, of_normalized (snd kv))) formatted_data.

(** [data.get("status")] and [data.get("numeric_value")] *)
Definition get_fields (data : Entry)
  : result (option string * option Value) :=
  match data with
  | Dict status numeric_value => Ok (status, numeric_value)
  | NotDict type_name =>
      Raise (AttributeError
               ("'" ++ type_name ++ "' object has no attribute 'get'"))
  end.

Definition numeric_values_of (formatted_data : dict Entry)
  : result (dict Value) :=
  fold_left
    (fun collected '(attr, data) =>
       values <- collected ;;
       fields <- get_fields data ;;
       match fields with
       | (Some status, Some v) =>
           if String.eqb status "extracted"
           then Ok (dict_set values attr v) else Ok values
       | _ => Ok values
       end)
    formatted_data (Ok []).

(** [a == b] *)
Definition eqb (a b : Value) : bool :=
  match a, b with
  | VFloat x, VFloat y => Float.eqb x y
  | VStr s, VStr t => String.eqb s t
  | _, _ => false
  end.

(** [f"${v:,.2f}"] *)
Definition dollars (v : Value) : result string :=
  match v with
  | VFloat x => Ok ("$" ++ Float.format_f true 2 x)
  | VStr _ =>
      Raise (ValueError "Unknown format code 'f' for object of type 'str'")
  end.

(** [v < n] and [v > n] for an [int] [n] *)
Definition ltb_int (v : Value) (n : Z) : result bool :=
  match v with
  | VFloat x => Ok (Float.ltb x (Float.of_int n))
  | VStr _ =>
      Raise (TypeError
               "'<' not supported between instances of 'str' and 'int'")
  end.

Definition gtb_int (v : Value) (n : Z) : result bool :=
  match v with
  | VFloat x => Ok (Float.gtb x (Float.of_int n))
  | VStr _ =>
      Raise (TypeError
               "'>' not supported between instances of 'str' and 'int'")
  end.

(** A step of the body that may raise before it changes [validation]. *)
Definition attempt {T : Type} (r : result T) (k : T -> block) : block :=
  match r with
  | Ok t => k t
  | Raise e => raise e
  end.

Definition check_quoted_limit (values : dict Value) : block :=
  match dict_get values "Quoted Amount", dict_get values "Limit Amount" with
  | Some quoted, Some limit =>
      if eqb quoted limit then
        append_check
          {| check := "Quoted Amount vs Limit Amount";
             check_status := "consistent";
             message := "Quoted Amount equals Limit Amount as expected" |}
      else
        attempt (dollars quoted) (fun quoted_text =>
        attempt (dollars limit) (fun limit_text =>
        append_warning
          ("Quoted Amount (" ++ quoted_text
           ++ ") differs from Limit Amount (" ++ limit_text ++ ")")))
  | _, _ => skip
  end.

Definition check_premium (values : dict Value) : block :=
  match dict_get values "Premium due", dict_get values "Annual Premium" with
  | Some due, Some annual =>
      if eqb due annual then
        append_check
          {| check := "Premium due vs Annual Premium";
             check_status := "consistent";
             message := "Premium due equals Annual Premium" |}
      else
        attempt (dollars due) (fun due_text =>
        attempt (dollars annual) (fun annual_text =>
        append_warning
          ("Premium due (" ++ due_text
           ++ ") differs from Annual Premium (" ++ annual_text ++ ")")))
  | _, _ => skip
  end.

Definition check_total_insured_value (values : dict Value) : block :=
  match dict_get values "Total Insured Value" with
  | Some tiv =>
      attempt (ltb_int tiv 1000000) (fun low =>
      if low then
        attempt (dollars tiv) (fun tiv_text =>
        append_warning ("Total Insured Value seems low: " ++ tiv_text))
      else
        attempt (gtb_int tiv 100000000000) (fun high =>
        if high then
          attempt (dollars tiv) (fun tiv_text =>
          append_warning ("Total Insured Value seems very high: " ++ tiv_text))
        else skip))
  | None => skip
  end.

Definition validation_body (formatted_data : dict Entry) : block :=
  attempt (numeric_values_of formatted_data) (fun values =>
  check_quoted_limit values ;;;
  check_premium values ;;;
  check_total_insured_value values ;;;
  set_overall_status).

Definition _validate_data_consistency (formatted_data : dict Entry)
  : Validation :=
  try_block (validation_body formatted_data)
    {| validation_status := st_passed;
       warnings := [];
       errors := [];
       consistency_checks := [] |}.

End Loose.

(** ** The top-level entry point: [format_extraction_results]

    [now] is the text of [datetime.now().isoformat()]. *)

Definition format_all (extracted_data : dict Raw) : dict NormalizedValue :=
  fold_left
    (fun formatted_data '(attribute, value) =>
       dict_set formatted_data attribute (_format_value value))
    extracted_data [].

Definition format_extraction_results (now : string) (extracted_data : dict Raw)
  (pdf_filename excel_filename : string) : FormattedReport :=
  let body : result FormattedReport :=
    let formatted_data := format_all extracted_data in
    Ok (ReportSuccess now pdf_filename excel_filename formatted_data
          (_create_summary formatted_data)
          (_validate_data_consistency formatted_data)) in
  match body with
  | Ok r => r
  | Raise e => ReportFailure (exn_str e) now
  end.

(** ** The comparison builder: [create_comparison_report] *)

Definition has_attribute (extraction : Extraction) (attr : string) : bool :=
  match extraction_data extraction with
  | Some d => dict_mem d attr
  | None => false
  end.

Definition all_attributes_of (extractions : list Extraction) : list string :=
  fold_left
    (fun all_attributes extraction =>
       match extraction_data extraction with
       | Some d => set_update all_attributes (dict_keys d)
       | None => all_attributes
       end)
    extractions [].

Definition attr_data_of (extractions : list Extraction) (attr : string)
  : list ComparisonEntry :=
  fold_left
    (fun attr_data '(i, extraction) =>
       match extraction_data extraction with
       | Some d =>
           match dict_get d attr with
           | Some data =>
               (attr_data ++
                [{| document_index := i;
                    document_name :=
                      match extraction_pdf_filename extraction with
                      | Some name => name
                      | None => "document_" ++ Py.str_of_nat i
                      end;
                    entry_value := numeric_value data;
                    entry_formatted := formatted_value data;
                    entry_status := status data |}])%list
           | None => attr_data
           end
       | None => attr_data
       end)
    (enumerate extractions) [].

Definition comparison_body (now : string) (extractions : list Extraction)
  : result ComparisonReport :=
  let all_attributes := all_attributes_of extractions in
  Ok {| comparison_timestamp := now;
        total_documents := List.length extractions;
        attribute_comparison :=
          fold_left
            (fun comparison attr =>
               dict_set comparison attr (attr_data_of extractions attr))
            all_attributes [];
        summary_statistics := [] |}.

Definition create_comparison_report (now : string)
  (extractions : list Extraction) : ComparisonResult :=
  if Nat.ltb (List.length extractions) 2 then
    ComparisonError "Need at least 2 extractions for comparison"
  else
    match comparison_body now extractions with
    | Ok comparison => ComparisonOk comparison
    | Raise e => ComparisonError ("Comparison error: " ++ exn_str e)
    end.

(** ** The spreadsheet export: [export_to_excel]

    The rows handed to [pandas.DataFrame] and the name of the file they are
    written to; [timestamp] is the text of
    [datetime.now().strftime("%Y%m%d_%H%M%S")].  Writing the file itself is
    the library's work. *)

Module Excel.

Record Row : Type := mkRow {
  Attribute : string;
  Raw_Value : Raw;
  Formatted_Value : option string;
  Numeric_Value : option Float.float;
  Currency : option string;
  Status : string
}.

End Excel.

Definition export_rows (formatted_data : FormattedReport) : list Excel.Row :=
  match formatted_data with
  | ReportSuccess _ _ _ extracted_data _ _ =>
      fold_left
        (fun export_data '(attr, data) =>
           (export_data ++
            [{| Excel.Attribute := attr;
                Excel.Raw_Value := raw_value data;
                Excel.Formatted_Value := formatted_value data;
                Excel.Numeric_Value := numeric_value data;
                Excel.Currency := currency data;
                Excel.Status := status_text (status data) |}])%list)
        extracted_data []
  | ReportFailure _ _ => []
  end.

Definition export_to_excel (timestamp : string)
  (formatted_data : FormattedReport) (filename : option string)
  : string * list Excel.Row :=
  let filename :=
    match filename with
    | None | Some EmptyString => "insurance_extraction_" ++ timestamp ++ ".xlsx"
    | Some given => given
    end in
  (filename, export_rows formatted_data).

(** * Vocabulary of the properties *)

(** [a] may stand before [b] in ascending order of [lt]. *)
Definition ascending {A : Type} (lt : A -> A -> bool) (a b : A) : Prop :=
  lt b a = false.

(** [a] may stand before [b] in descending order of [lt]. *)
Definition descending {A : Type} (lt : A -> A -> bool) (a b : A) : Prop :=
  lt a b = false.

(** The invariant of a normalised value: a numeric value exactly when the
    status is [extracted], and the currency [USD] exactly then. *)
Definition numeric_iff_extracted (r : NormalizedValue) : Prop :=
  (numeric_value r <> None <-> status r = extracted)
  /\ (status r = extracted -> currency r = Some "USD")
  /\ (status r <> extracted -> currency r = None).

(** What the validator knows of an attribute: its numeric value when the
    entry is present with status [extracted]. *)
Definition numeric_of (formatted_data : dict NormalizedValue) (attr : string)
  : option Float.float :=
  match dict_get formatted_data attr with
  | Some data =>
      if status_eqb (status data) extracted then numeric_value data else None
  | None => None
  end.

(** The warnings and checks of each rule are told apart by how they
    begin. *)
Definition about_quoted_limit (w : string) : bool := prefix "Quoted Amount (" w.
Definition about_premium (w : string) : bool := prefix "Premium due (" w.
Definition about_total_insured_value (w : string) : bool :=
  prefix "Total Insured Value seems" w.
Definition is_check (name : string) (c : ConsistencyCheck) : bool :=
  String.eqb (check c) name.

(** The exponent of a finite number, to bring several numbers to a common
    exponent. *)
Definition exponent_of (x : Float.float) : Z :=
  match x with
  | Float.Fin _ _ e => e
  | _ => 0
  end.

(** The entry that document [i] contributes for [attr]: none when the
    document does not have the attribute. *)
Definition entry_of (attr : string) (i : nat) (extraction : Extraction)
  : list ComparisonEntry :=
  match extraction_data extraction with
  | Some d =>
      match dict_get d attr with
      | Some data =>
          [{| document_index := i;
              document_name :=
                match extraction_pdf_filename extraction with
                | Some name => name
                | None => "document_" ++ Py.str_of_nat i
                end;
              entry_value := numeric_value data;
              entry_formatted := formatted_value data;
              entry_status := status data |}]
      | None => []
      end
  | None => []
  end.

Fixpoint entries_from (attr : string) (start : nat) (l : list Extraction)
  : list ComparisonEntry :=
  match l with
  | [] => []
  | x :: l' => (entry_of attr start x ++ entries_from attr (S start) l')%list
  end.

(** An entry describes the attribute [attr] of document [i]. *)
Definition describes (extractions : list Extraction) (attr : string)
  (en : ComparisonEntry) : Prop :=
  exists extraction d data,
    nth_error extractions (document_index en) = Some extraction
    /\ extraction_data extraction = Some d
    /\ dict_get d attr = Some data
    /\ document_name en =
       match extraction_pdf_filename extraction with
       | Some name => name
       | None => "document_" ++ Py.str_of_nat (document_index en)
       end
    /\ entry_value en = numeric_value data
    /\ entry_formatted en = formatted_value data
    /\ entry_status en = status data.

Fixpoint all_chars (p : ascii -> bool) (s : string) : bool :=
  match s with
  | EmptyString => true
  | String c s' => p c && all_chars p s'
  end.

Fixpoint skip_while (p : ascii -> bool) (s : string) : string :=
  match s with
  | String c s' => if p c then skip_while p s' else s
  | EmptyString => EmptyString
  end.

Definition digit_or_comma (c : ascii) : bool :=
  Py.is_digit c || Ascii.eqb c ",".

(** The whole of [s] matches [-?\$[0-9,]+\.[0-9]{2}]. *)
Definition money_pattern (s : string) : bool :=
  let unsigned := match s with String "-" t => t | _ => s end in
  match unsigned with
  | String "$" (String c _ as body) =>
      digit_or_comma c
      && match skip_while digit_or_comma body with
         | String "." (String d1 (String d2 EmptyString)) =>
             Py.is_digit d1 && Py.is_digit d2
         | _ => false
         end
  | _ => false
  end.

(** A signed decimal number: an optional sign, then digits with an optional
    point, with at least one digit. *)
Definition unsigned_part (s : string) : string :=
  match s with
  | String "-" t | String "+" t => t
  | _ => s
  end.

Definition unsigned_decimal (u : string) : bool :=
  match skip_while Py.is_digit u with
  | EmptyString => negb (String.eqb u "")
  | String "." t => all_chars Py.is_digit t && negb (String.eqb u ".")
  | _ => false
  end.

Definition signed_decimal (s : string) : bool :=
  unsigned_decimal (unsigned_part s).

Definition digit_or_point (c : ascii) : bool :=
  Py.is_digit c || Ascii.eqb c ".".

(** A string of [n] zeros. *)
Fixpoint zeros (n : nat) : string :=
  match n with
  | O => EmptyString
  | S n' => String "0" (zeros n')
  end.

(** A float that is zero or positive and at most the integer [k]. *)
Definition bounded_by (k : Z) (x : Float.float) : Prop :=
  match x with
  | Float.Zero s => s = false
  | Float.Fin s m e => s = false /\ e <= 0 /\ Zpos m <= k * 2 ^ (- e)
  | _ => False
  end.

(** Rounding a percentage to one decimal and converting it back to binary64
    gives a number that prints as the rounded decimal: checked for each of
    the tenths from 0.0 to 100.0. *)
Definition tenth_prints_back (n : nat) : bool :=
  String.eqb
    (Float.format_f false 1 (Float.round_ratio false (Z.of_nat n) 10))
    (Float.fixed_text false 1 (Z.of_nat n)).

(** An entry counts as a successful extraction when its status is
    [extracted] and its numeric value is present. *)
Definition is_successful (data : NormalizedValue) : bool :=
  status_eqb (status data) extracted
  && match numeric_value data with Some _ => true | None => false end.

Definition count_successful (formatted_data : dict NormalizedValue) : nat :=
  List.length (filter (fun kv => is_successful (snd kv)) formatted_data).

(** The attribute and value of the successful extractions, in encounter
    order. *)
Definition numeric_entries (formatted_data : dict NormalizedValue)
  : list TopValue :=
  flat_map
    (fun kv =>
       match status_eqb (status (snd kv)) extracted, numeric_value (snd kv) with
       | true, Some v => [{| attribute := fst kv; value := v |}]
       | _, _ => []
       end)
    formatted_data.

(** No numeric value of the map is a NaN. *)
Definition no_nan (formatted_data : dict NormalizedValue) : Prop :=
  forall attr data,
    In (attr, data) formatted_data -> numeric_value data <> Some Float.NaN.

(** Sample inputs. *)
Definition sample_data : dict NormalizedValue :=
  format_all
    [ ("Quoted Amount", RStr "$5,000,000");
      ("Limit Amount", RStr "4900000 USD");
      ("Premium due", RStr "1200.50");
      ("Annual Premium", RStr "1,200.5");
      ("Total Insured Value", RStr "500000");
      ("Broker", RStr "Pending review");
      ("Deductible", RStr "NOT_FOUND") ].

Definition sample_extractions : list Extraction :=
  [ {| extraction_data := Some sample_data;
       extraction_pdf_filename := Some "quote.pdf" |};
    {| extraction_data := None; extraction_pdf_filename := None |};
    {| extraction_data :=
         Some (format_all [("Quoted Amount", RStr "7"); ("Broker", RNone)]);
       extraction_pdf_filename := None |} ].

(** The metric that [_extract_key_metrics] records for a canonical label:
    none when the label is missing or its status is not [extracted]. *)
Definition metric_of (formatted_data : dict NormalizedValue)
  (original_key : string) : option Metric :=
  match dict_get formatted_data original_key with
  | Some data =>
      if status_eqb (status data) extracted
      then Some {| metric_value := numeric_value data;
                   metric_formatted := formatted_value data |}
      else None
  | None => None
  end.

(** A character that may occur in the text of a number for [float]: a
    digit, a sign, the point, the exponent mark, an underscore or a letter
    of [inf], [infinity] and [nan], in either case. *)
Definition number_char (c : ascii) : bool :=
  Py.is_digit c || Py.contains_char (Py.lower c) "+-._einftya".

(** Further sample inputs: raw data as an extraction gives it, the sample
    map with one more attribute, a map with amounts missing, a map whose
    amounts are all NaN, and maps with no and with only numeric values. *)
Definition sample_raw : dict Raw :=
  [ ("Quoted Amount", RStr "$5,000,000");
    ("Limit Amount", RStr "4900000 USD");
    ("Broker", RStr "Pending review");
    ("Deductible", RNone) ].

Definition sample_data_annotated : dict NormalizedValue :=
  dict_set sample_data "Insured Name" (_format_value (RStr "Acme Ltd")).

Definition sample_partial : dict NormalizedValue :=
  format_all
    [ ("Quoted Amount", RStr "$5,000,000");
      ("Premium due", RStr "TBD");
      ("Annual Premium", RStr "1200") ].

Definition sample_nan : dict NormalizedValue :=
  format_all
    [ ("Quoted Amount", RStr "5");
      ("Limit Amount", RStr "NaN");
      ("Premium due", RStr "nan");
      ("Annual Premium", RStr "7");
      ("Total Insured Value", RStr "nan") ].

Definition sample_text_only : dict NormalizedValue :=
  format_all [ ("Broker", RStr "Pending review"); ("Deductible", RNone) ].

Definition sample_numbers_only : dict NormalizedValue :=
  format_all [ ("Quoted Amount", RStr "7"); ("Limit Amount", RStr "8");
               ("Premium due", RStr "9") ].

(** [s] without the characters [c]. *)
Fixpoint remove_char (c : ascii) (s : string) : string :=
  match s with
  | EmptyString => EmptyString
  | String d s' =>
      if Ascii.eqb c d then remove_char c s' else String d (remove_char c s')
  end.

(** A character of an amount as the normaliser writes it: a digit, a
    comma, the point, the dollar sign or the minus sign. *)
Definition money_char (c : ascii) : bool :=
  digit_or_comma c || Py.contains_char c "-$.".

(** Raw data in which one amount is written in two ways. *)
Definition sample_raw_same : dict Raw :=
  [ ("Quoted Amount", RStr "$5,000,000.00");
    ("Insured", RStr "Acme Ltd");
    ("Limit Amount", RStr " 5000000 USD") ].

(** A map that was not normalised: two amounts that differ, and a "Total
    Insured Value" whose numeric value is a text. *)
Definition sample_any_data : dict Loose.Entry :=
  [ ("Quoted Amount",
     Loose.Dict (Some "extracted")
       (Some (Loose.VFloat (Float.of_int 5000000))));
    ("Limit Amount",
     Loose.Dict (Some "extracted")
       (Some (Loose.VFloat (Float.of_int 4900000))));
    ("Total Insured Value",
     Loose.Dict (Some "extracted") (Some (Loose.VStr "n/a"))) ].

(** [sub in s] *)
Fixpoint contains_text (sub s : string) : bool :=
  prefix sub s
  || match s with
     | EmptyString => false
     | String _ s' => contains_text sub s'
     end.

(** * Properties *)

(** ** The model on known values *)

Example float_of_one_tenth :
  Parse.float_of_str "0.1" = Ok (Float.Fin false 7205759403792794 (-56)).
Proof. vm_compute. reflexivity. Qed.

Example float_of_exponent :
  Parse.float_of_str "1E-5" = Ok (Float.Fin false 5902958103587057 (-69)).
Proof. vm_compute. reflexivity. Qed.

Example float_of_underflow :
  Parse.float_of_str "2.4e-324" = Ok (Float.Zero false)
  /\ Parse.float_of_str "2.5e-324" = Ok (Float.Fin false 1 (-1074)).
Proof. vm_compute. split; reflexivity. Qed.

Example float_of_overflow :
  Parse.float_of_str "-1e400" = Ok (Float.Inf true).
Proof. vm_compute. reflexivity. Qed.

Example float_of_words :
  Parse.float_of_str " iNfInItY " = Ok (Float.Inf false)
  /\ Parse.float_of_str "-nan" = Ok Float.NaN
  /\ Parse.float_of_str "1_000" = Parse.float_of_str "1000"
  /\ Parse.float_of_str "1_000_"
     = Raise (ValueError "could not convert string to float: '1_000_'").
Proof. vm_compute. repeat split. Qed.

Example three_tenths :
  Float.mul (Float.round_ratio false 1 10) (Float.of_int 3)
  = Float.Fin false 5404319552844596 (-54).
Proof. vm_compute. reflexivity. Qed.

Example format_rounds_the_binary_value :
  Float.format_f true 2 (Float.round_ratio false 1005 1000) = "1.00"
  /\ Float.format_f true 2 (Float.round_ratio false 125 1000) = "0.12"
  /\ Float.format_f true 2 (Float.round_ratio false 135 1000) = "0.14"
  /\ Float.format_f true 2 (Float.round_ratio true 1 1000) = "-0.00"
  /\ Float.format_f true 2 (Float.round_ratio false 1234567891 1000)
     = "1,234,567.89".
Proof. vm_compute. repeat split. Qed.

Example percentages :
  percentage 1 3 = Ok "33.3%"
  /\ percentage 1 2000 = Ok "0.1%"
  /\ percentage 3 4 = Ok "75.0%"
  /\ percentage 0 0 = Raise (ZeroDivisionError "division by zero").
Proof. vm_compute. repeat split. Qed.

Example cleaning :
  clean (RStr " US$ 1,234.50 USD ") = "1234.50"
  /\ clean (RStr "USUSDD 7") = "D 7".
Proof. vm_compute. split; reflexivity. Qed.

Example format_value_negative :
  _format_value (RStr "-1234.567 USD") =
    {| raw_value := RStr "-1234.567 USD";
       formatted_value := Some "-$1,234.57";
       numeric_value := Some (Float.Fin true 5429683087074132 (-42));
       currency := Some "USD";
       status := extracted |}.
Proof. vm_compute. reflexivity. Qed.

Example format_value_text :
  _format_value (RStr "Pending review") =
    {| raw_value := RStr "Pending review";
       formatted_value := Some "Pending review";
       numeric_value := None;
       currency := None;
       status := extracted_non_numeric |}.
Proof. vm_compute. reflexivity. Qed.

Example sort_keeps_ties_in_order :
  map attribute
    (list_sort value_lt true
       (numeric_entries
          (format_all
             [ ("a", RStr "1"); ("b", RStr "3"); ("c", RStr "1.0");
               ("d", RStr "3"); ("e", RStr "2"); ("f", RStr "-0");
               ("g", RStr "0") ])))
  = ["b"; "d"; "e"; "a"; "c"; "f"; "g"].
Proof. vm_compute. reflexivity. Qed.

Example validation_of_sample :
  _validate_data_consistency sample_data =
    {| validation_status := st_warnings;
       warnings :=
         [ "Quoted Amount ($5,000,000.00) differs from Limit Amount ($4,900,000.00)";
           "Total Insured Value seems low: $500,000.00" ];
       errors := [];
       consistency_checks :=
         [ {| check := "Premium due vs Annual Premium";
              check_status := "consistent";
              message := "Premium due equals Annual Premium" |} ] |}.
Proof. vm_compute. reflexivity. Qed.

(** ** The value normaliser *)

Lemma float_of_str_raises_ValueError (s : string) (e : exn) :
  Parse.float_of_str s = Raise e -> exists msg, e = ValueError msg.
Proof.
  unfold Parse.float_of_str.
  destruct (Parse.del_underscores zero _) as [t|].
  - destruct (Parse.number t); intros H; inversion H; eauto.
  - intros H; inversion H; eauto.
Qed.

Lemma format_value_body_returns (value : Raw) :
  exists r, format_value_body value = Ok r.
Proof.
  unfold format_value_body.
  destruct (Parse.float_of_str (clean value)) as [x|e] eqn:E.
  - eauto.
  - destruct (float_of_str_raises_ValueError _ _ E) as [msg ->]. eauto.
Qed.

(** The three shapes of a normalised value. *)
Lemma format_value_cases (value : Raw) :
  (falsy value || is_sentinel value = true /\
   _format_value value =
     {| raw_value := value; formatted_value := None; numeric_value := None;
        currency := None; status := not_found |})
  \/ (falsy value || is_sentinel value = false /\
      exists x, Parse.float_of_str (clean value) = Ok x /\
        _format_value value =
          {| raw_value := value;
             formatted_value := Some (format_currency x);
             numeric_value := Some x;
             currency := Some "USD";
             status := extracted |})
  \/ (falsy value || is_sentinel value = false /\
      (exists msg, Parse.float_of_str (clean value) = Raise (ValueError msg)) /\
      _format_value value =
        {| raw_value := value;
           formatted_value := Some (clean value);
           numeric_value := None;
           currency := None;
           status := extracted_non_numeric |}).
Proof.
  unfold _format_value, format_value_body.
  destruct (falsy value || is_sentinel value) eqn:G; [left; auto|right].
  destruct (Parse.float_of_str (clean value)) as [x|e] eqn:E.
  - left. split; [reflexivity|]. exists x. auto.
  - right. destruct (float_of_str_raises_ValueError _ _ E) as [msg ->].
    split; [reflexivity|]. split; eauto.
Qed.

(** C2: the empty string, [None] and the sentinels [NOT_FOUND] and [ERROR]
    are normalised to status [not_found] with no formatted value, no numeric
    value and no currency, and the raw value is kept as it was given. *)
Theorem C2_not_found_for_empty_and_sentinels (value : Raw) :
  value = RNone \/ value = RStr "" \/ value = RStr "NOT_FOUND"
  \/ value = RStr "ERROR" ->
  _format_value value =
    {| raw_value := value;
       formatted_value := None;
       numeric_value := None;
       currency := None;
       status := not_found |}.
Proof.
  intros [-> | [-> | [-> | ->]]]; reflexivity.
Qed.

Lemma C2_not_found_witness :
  _format_value (RStr "NOT_FOUND") =
    {| raw_value := RStr "NOT_FOUND";
       formatted_value := None;
       numeric_value := None;
       currency := None;
       status := not_found |}.
Proof.
  apply C2_not_found_for_empty_and_sentinels.
  right; right; left; reflexivity.
Defined.

Lemma format_value_invariant (value : Raw) :
  numeric_iff_extracted (_format_value value).
Proof.
  unfold numeric_iff_extracted.
  destruct (format_value_cases value)
    as [[_ ->] | [[_ [x [_ ->]]] | [_ [_ ->]]]]; cbn;
    repeat split; intros; try congruence; try discriminate.
Qed.

Lemma In_dict_set {V : Type} (d : dict V) (k : string) (v : V) (kv : string * V) :
  In kv (dict_set d k v) -> In kv d \/ snd kv = v.
Proof.
  induction d as [|[k' v'] d IH]; cbn.
  - intros [<- | []]. right. reflexivity.
  - destruct (String.eqb k' k).
    + intros [<- | H]; [right; reflexivity | left; right; exact H].
    + intros [<- | H]; [left; left; reflexivity|].
      destruct (IH H); [left; right; assumption | right; assumption].
Qed.

Lemma format_all_values (extracted_data : dict Raw) (kv : string * NormalizedValue) :
  In kv (format_all extracted_data) ->
  exists value, snd kv = _format_value value.
Proof.
  unfold format_all.
  assert (G : forall l acc,
             (forall kv, In kv acc -> exists value, snd kv = _format_value value) ->
             forall kv,
               In kv (fold_left
                        (fun formatted_data '(attribute, value) =>
                           dict_set formatted_data attribute (_format_value value))
                        l acc) ->
               exists value, snd kv = _format_value value).
  { induction l as [|[a v] l IH]; cbn; intros acc Hacc kv' Hin.
    - apply Hacc, Hin.
    - apply (IH (dict_set acc a (_format_value v))); [|exact Hin].
      intros kv'' H. apply In_dict_set in H. destruct H as [H | H].
      + apply Hacc, H.
      + exists v. exact H. }
  apply G. intros ? [].
Qed.

(** C3: in every normalised value the numeric value is set if and only if
    the status is [extracted]; the currency is [USD] under that condition and
    empty otherwise.  The same holds of every entry of [extracted_data] in
    the report that [format_extraction_results] builds, which is always a
    successful one. *)
Theorem C3_numeric_iff_extracted :
  (forall value : Raw, numeric_iff_extracted (_format_value value))
  /\ (forall now extracted_data pdf_filename excel_filename,
        exists formatted_data summary validation,
          format_extraction_results now extracted_data pdf_filename excel_filename
          = ReportSuccess now pdf_filename excel_filename
              formatted_data summary validation
          /\ forall attr r, In (attr, r) formatted_data ->
                            numeric_iff_extracted r).
Proof.
  split.
  - exact format_value_invariant.
  - intros now extracted_data pdf excel.
    exists (format_all extracted_data),
      (_create_summary (format_all extracted_data)),
      (_validate_data_consistency (format_all extracted_data)).
    split; [reflexivity|].
    intros attr r Hin.
    destruct (format_all_values _ _ Hin) as [value Hv]. cbn in Hv. subst r.
    apply format_value_invariant.
Qed.

(** C10: on a string the normaliser never answers [format_error]: the status
    is [not_found], [extracted] or [extracted_non_numeric]. *)
Theorem C10_no_format_error_on_strings (s : string) :
  status (_format_value (RStr s)) <> format_error
  /\ (status (_format_value (RStr s)) = not_found
      \/ status (_format_value (RStr s)) = extracted
      \/ status (_format_value (RStr s)) = extracted_non_numeric).
Proof.
  destruct (format_value_cases (RStr s))
    as [[_ ->] | [[_ [x [_ ->]]] | [_ [_ ->]]]]; cbn;
    split; try discriminate; auto.
Qed.

(** ** Dictionaries *)

Lemma dict_get_set {V : Type} (d : dict V) (k k' : string) (v : V) :
  dict_get (dict_set d k v) k' =
  if String.eqb k k' then Some v else dict_get d k'.
Proof.
  induction d as [|[k0 v0] d IH]; cbn.
  - reflexivity.
  - destruct (String.eqb k0 k) eqn:E0; cbn.
    + apply String.eqb_eq in E0. subst k0.
      destruct (String.eqb k k'); reflexivity.
    + destruct (String.eqb k0 k') eqn:E1.
      * apply String.eqb_eq in E1. subst k0.
        rewrite String.eqb_sym, E0. reflexivity.
      * exact IH.
Qed.

Lemma dict_get_None {V : Type} (d : dict V) (k : string) :
  ~ In k (dict_keys d) -> dict_get d k = None.
Proof.
  induction d as [|[k0 v0] d IH]; cbn; intros H.
  - reflexivity.
  - destruct (String.eqb k0 k) eqn:E.
    + apply String.eqb_eq in E. tauto.
    + apply IH. tauto.
Qed.

Lemma dict_get_In {V : Type} (d : dict V) (k : string) (v : V) :
  dict_get d k = Some v -> In (k, v) d.
Proof.
  induction d as [|[k0 v0] d IH]; cbn; intros H.
  - discriminate.
  - destruct (String.eqb k0 k) eqn:E.
    + apply String.eqb_eq in E. left. congruence.
    + right. auto.
Qed.

Lemma dict_mem_In {V : Type} (d : dict V) (k : string) :
  dict_mem d k = true <-> In k (dict_keys d).
Proof.
  unfold dict_mem. split.
  - destruct (dict_get d k) as [v|] eqn:E; [|discriminate].
    intros _. apply dict_get_In in E. apply (in_map fst) in E. exact E.
  - intros H. destruct (dict_get d k) eqn:E; [reflexivity|].
    exfalso. revert E. induction d as [|[k0 v0] d IH]; cbn in *.
    + contradiction.
    + destruct (String.eqb k0 k) eqn:E0; [discriminate|].
      destruct H as [H|H]; [subst; rewrite String.eqb_refl in E0; discriminate|].
      auto.
Qed.

(** ** The consistency validator *)

Lemma numeric_values_of_get (formatted_data : dict NormalizedValue) (k : string) :
  dict_wf formatted_data ->
  dict_get (numeric_values_of formatted_data) k = numeric_of formatted_data k.
Proof.
  unfold numeric_values_of, numeric_of, dict_wf.
  set (f := fun (values : dict Float.float) '(attr, data) =>
              match status_eqb (status data) extracted, numeric_value data with
              | true, Some v => dict_set values attr v
              | _, _ => values
              end).
  assert (G : forall l acc,
             NoDup (dict_keys l) ->
             (forall a, In a (dict_keys l) -> dict_get acc a = None) ->
             dict_get (fold_left f l acc) k =
             match
               match dict_get l k with
               | Some data =>
                   if status_eqb (status data) extracted
                   then numeric_value data else None
               | None => None
               end
             with
             | Some v => Some v
             | None => dict_get acc k
             end).
  { induction l as [|[a d] l IH]; cbn; intros acc Hnd Hacc.
    - reflexivity.
    - inversion Hnd as [|? ? Hnotin Hnd']; subst.
      rewrite IH; [|exact Hnd'|].
      + destruct (String.eqb a k) eqn:E.
        * apply String.eqb_eq in E. subst a.
          rewrite (dict_get_None l k Hnotin).
          destruct (status_eqb (status d) extracted), (numeric_value d);
            try reflexivity.
          rewrite dict_get_set, String.eqb_refl. reflexivity.
        * destruct (dict_get l k) as [d'|]; cbn.
          -- destruct (if status_eqb (status d') extracted
                       then numeric_value d' else None); [reflexivity|].
             destruct (status_eqb (status d) extracted), (numeric_value d);
               try reflexivity.
             rewrite dict_get_set, E. reflexivity.
          -- destruct (status_eqb (status d) extracted), (numeric_value d);
               try reflexivity.
             rewrite dict_get_set, E. reflexivity.
      + intros a' Ha'.
        assert (Hne : String.eqb a a' = false).
        { apply String.eqb_neq. intros ->. contradiction. }
        destruct (status_eqb (status d) extracted), (numeric_value d);
          try (apply Hacc; right; exact Ha').
        rewrite dict_get_set, Hne. apply Hacc. right. exact Ha'. }
  intros Hnd. rewrite G; [|exact Hnd|reflexivity].
  destruct (dict_get formatted_data k) as [d|]; [|reflexivity].
  destruct (status_eqb (status d) extracted); [|reflexivity].
  destruct (numeric_value d); reflexivity.
Qed.

Lemma numeric_of_extracted (formatted_data : dict NormalizedValue)
  (attr : string) (data : NormalizedValue) (v : Float.float) :
  dict_get formatted_data attr = Some data ->
  status data = extracted ->
  numeric_value data = Some v ->
  numeric_of formatted_data attr = Some v.
Proof.
  unfold numeric_of. intros -> -> ->. reflexivity.
Qed.

(** The validator on the values it looks up: each rule either appends one
    entry or leaves [validation] alone, and no rule raises. *)
Ltac validator_cases formatted_data :=
  unfold _validate_data_consistency, validation_body, try_block, seq_block,
    check_quoted_limit, check_premium, check_total_insured_value;
  rewrite !numeric_values_of_get by assumption;
  repeat match goal with
         | H : numeric_of formatted_data _ = _ |- _ => rewrite !H
         end;
  repeat match goal with
         | |- context [numeric_of formatted_data ?k] =>
             destruct (numeric_of formatted_data k)
         end;
  repeat match goal with
         | H : Float.eqb _ _ = _ |- _ => rewrite !H
         | H : Float.ltb _ _ = _ |- _ => rewrite !H
         | H : Float.gtb _ _ = _ |- _ => rewrite !H
         end;
  repeat match goal with
         | |- context [Float.eqb ?a ?b] => destruct (Float.eqb a b)
         | |- context [Float.ltb ?a ?b] => destruct (Float.ltb a b)
         | |- context [Float.gtb ?a ?b] => destruct (Float.gtb a b)
         end.

(** For a number that is not negative, the amount in a warning is the
    formatted value of the normaliser. *)
Lemma dollars_is_formatted_value (x : Float.float) :
  Float.sign_bit x = false -> Float.is_nan x = false ->
  format_currency x = dollars x.
Proof.
  unfold format_currency, dollars, Float.geb.
  destruct x as [[]|[]| |[] m e]; cbn; try discriminate; reflexivity.
Qed.

(** For a number that is not negative the formatted value of a normalised
    value is the amount as a warning writes it. *)
Lemma formatted_value_of_amount (value : Raw) (v : Float.float) :
  numeric_value (_format_value value) = Some v ->
  Float.geb v (Float.of_int 0) = true ->
  formatted_value (_format_value value) = Some (dollars v).
Proof.
  intros Hn Hge.
  destruct (format_value_cases value)
    as [[_ E] | [[_ [x [_ E]]] | [_ [_ E]]]]; rewrite E in Hn |- *;
    cbn in Hn |- *; try discriminate.
  inversion Hn; subst x. unfold format_currency, dollars.
  rewrite Hge. reflexivity.
Qed.

(** C6, as the code has it: when "Quoted Amount" and "Limit Amount" are
    both extracted with numeric values, equal values give exactly one
    [consistent] check for the rule and no warning of the rule; different
    values give exactly one warning of the rule, which names both amounts,
    each written as [f"${v:,.2f}"], no check of the rule and no error, and
    the overall status is [warnings].  The same holds of "Premium due" and
    "Annual Premium".  The amount so written is the formatted value of the
    entry when the entry is a normalised value and the number is not
    negative ([v >= 0]). *)
Theorem C6_pair_rules (formatted_data : dict NormalizedValue)
  (d1 d2 : NormalizedValue) (v1 v2 : Float.float) :
  dict_wf formatted_data ->
  status d1 = extracted -> numeric_value d1 = Some v1 ->
  status d2 = extracted -> numeric_value d2 = Some v2 ->
  let validation := _validate_data_consistency formatted_data in
  (dict_get formatted_data "Quoted Amount" = Some d1 ->
   dict_get formatted_data "Limit Amount" = Some d2 ->
   (Float.eqb v1 v2 = true ->
    filter (is_check "Quoted Amount vs Limit Amount")
      (consistency_checks validation)
    = [{| check := "Quoted Amount vs Limit Amount";
          check_status := "consistent";
          message := "Quoted Amount equals Limit Amount as expected" |}]
    /\ filter about_quoted_limit (warnings validation) = [])
   /\ (Float.eqb v1 v2 = false ->
       filter about_quoted_limit (warnings validation)
       = ["Quoted Amount (" ++ dollars v1
          ++ ") differs from Limit Amount (" ++ dollars v2 ++ ")"]
       /\ filter (is_check "Quoted Amount vs Limit Amount")
            (consistency_checks validation) = []
       /\ errors validation = []
       /\ validation_status validation = st_warnings))
  /\ (dict_get formatted_data "Premium due" = Some d1 ->
      dict_get formatted_data "Annual Premium" = Some d2 ->
      (Float.eqb v1 v2 = true ->
       filter (is_check "Premium due vs Annual Premium")
         (consistency_checks validation)
       = [{| check := "Premium due vs Annual Premium";
             check_status := "consistent";
             message := "Premium due equals Annual Premium" |}]
       /\ filter about_premium (warnings validation) = [])
      /\ (Float.eqb v1 v2 = false ->
          filter about_premium (warnings validation)
          = ["Premium due (" ++ dollars v1
             ++ ") differs from Annual Premium (" ++ dollars v2 ++ ")"]
          /\ filter (is_check "Premium due vs Annual Premium")
               (consistency_checks validation) = []
          /\ errors validation = []
          /\ validation_status validation = st_warnings))
  /\ (forall value,
        d1 = _format_value value ->
        Float.geb v1 (Float.of_int 0) = true ->
        formatted_value d1 = Some (dollars v1))
  /\ (forall value,
        d2 = _format_value value ->
        Float.geb v2 (Float.of_int 0) = true ->
        formatted_value d2 = Some (dollars v2)).
Proof.
  intros Hwf Hs1 Hn1 Hs2 Hn2 validation. subst validation.
  split; [|split; [|split]].
  - intros Hg1 Hg2.
    pose proof (numeric_of_extracted _ _ _ _ Hg1 Hs1 Hn1) as H1.
    pose proof (numeric_of_extracted _ _ _ _ Hg2 Hs2 Hn2) as H2.
    split; intros Heq; validator_cases formatted_data; cbn; auto.
  - intros Hg1 Hg2.
    pose proof (numeric_of_extracted _ _ _ _ Hg1 Hs1 Hn1) as H1.
    pose proof (numeric_of_extracted _ _ _ _ Hg2 Hs2 Hn2) as H2.
    split; intros Heq; validator_cases formatted_data; cbn; auto.
  - intros value -> Hge. apply (formatted_value_of_amount value v1 Hn1 Hge).
  - intros value -> Hge. apply (formatted_value_of_amount value v2 Hn2 Hge).
Qed.

(** C6 fails as stated: the warning for a negative amount does not contain
    the formatted value of the entry, which has the sign before the
    dollar. *)
Lemma C6_counterexample_negative :
  let formatted_data :=
    format_all [("Quoted Amount", RStr "-5"); ("Limit Amount", RStr "5")] in
  exists quoted w,
    dict_get formatted_data "Quoted Amount" = Some quoted
    /\ status quoted = extracted
    /\ formatted_value quoted = Some "-$5.00"
    /\ warnings (_validate_data_consistency formatted_data) = [w]
    /\ w = "Quoted Amount ($-5.00) differs from Limit Amount ($5.00)"
    /\ contains_text "-$5.00" w = false.
Proof.
  cbv zeta. eexists. eexists.
  split; [vm_compute; reflexivity|].
  split; [reflexivity|]. split; [reflexivity|].
  split; [vm_compute; reflexivity|].
  split; reflexivity.
Qed.

(** ** Order on floats *)

Lemma mag_compare_scaled (E : Z) (m1 : positive) (e1 : Z) (m2 : positive) (e2 : Z) :
  E <= e1 -> E <= e2 ->
  Float.mag_compare m1 e1 m2 e2 =
  (Zpos m1 * 2 ^ (e1 - E) ?= Zpos m2 * 2 ^ (e2 - E)).
Proof.
  intros H1 H2. unfold Float.mag_compare.
  set (e := Z.min e1 e2).
  assert (He : E <= e) by (unfold e; lia).
  replace (e1 - E) with ((e1 - e) + (e - E)) by lia.
  replace (e2 - E) with ((e2 - e) + (e - E)) by lia.
  rewrite !Z.pow_add_r by (unfold e; lia).
  rewrite !Z.mul_assoc.
  apply Zmult_compare_compat_r.
  apply Z.lt_gt, Z.pow_pos_nonneg; lia.
Qed.

Ltac order_cases :=
  repeat match goal with
         | H : context [?a ?= ?b] |- _ => destruct (Z.compare_spec a b)
         | |- context [?a ?= ?b] => destruct (Z.compare_spec a b)
         end;
  try reflexivity; try discriminate; try lia.

Ltac float_finish E :=
  cbn in *; try congruence; try discriminate;
  rewrite ?(mag_compare_scaled E) by assumption;
  repeat match goal with
         | |- context [Zpos ?m * 2 ^ ?k] =>
             let a := fresh "a" in
             generalize (Zpos m * 2 ^ k); intros a
         end;
  intros; order_cases.

Ltac float_unfold :=
  unfold Float.gtb, Float.ltb, Float.eqb, Float.geb, Float.is_nan.

Ltac float_order1 x :=
  float_unfold;
  destruct x as [[]|[]| |[] ? ?];
  cbn in *; try congruence; try discriminate;
  rewrite ?Z.compare_refl; unfold Float.mag_compare;
  rewrite ?Z.compare_refl; try reflexivity; try discriminate.

Ltac float_order2 x y :=
  float_unfold;
  let E := fresh "E" in
  pose (E := Z.min (exponent_of x) (exponent_of y));
  assert (E <= exponent_of x) by (unfold E; lia);
  assert (E <= exponent_of y) by (unfold E; lia);
  clearbody E;
  destruct x as [[]|[]| |[] ? ?], y as [[]|[]| |[] ? ?];
  float_finish E.

Ltac float_order3 x y z :=
  float_unfold;
  let E := fresh "E" in
  pose (E := Z.min (exponent_of x) (Z.min (exponent_of y) (exponent_of z)));
  assert (E <= exponent_of x) by (unfold E; lia);
  assert (E <= exponent_of y) by (unfold E; lia);
  assert (E <= exponent_of z) by (unfold E; lia);
  clearbody E;
  destruct x as [[]|[]| |[] ? ?], y as [[]|[]| |[] ? ?],
           z as [[]|[]| |[] ? ?];
  float_finish E.

Lemma ltb_trans (x y z : Float.float) :
  Float.ltb x y = true -> Float.ltb y z = true -> Float.ltb x z = true.
Proof. float_order3 x y z. Qed.

Lemma ltb_irrefl (x : Float.float) : Float.ltb x x = false.
Proof. float_order1 x. Qed.

Lemma ltb_asym (x y : Float.float) :
  Float.ltb x y = true -> Float.ltb y x = false.
Proof. float_order2 x y. Qed.

(** Among numbers, [not (x < y)] is [y <= x], which is transitive. *)
Lemma not_ltb_trans (x y z : Float.float) :
  Float.is_nan x = false -> Float.is_nan y = false -> Float.is_nan z = false ->
  Float.ltb x y = false -> Float.ltb y z = false -> Float.ltb x z = false.
Proof. float_order3 x y z. Qed.

Lemma eqb_not_ltb (x y : Float.float) :
  Float.is_nan x = false -> Float.is_nan y = false ->
  Float.eqb x y = negb (Float.ltb x y) && negb (Float.ltb y x).
Proof. float_order2 x y. Qed.

Lemma eqb_sym (x y : Float.float) : Float.eqb x y = Float.eqb y x.
Proof. float_order2 x y. Qed.

Lemma eqb_ltb_l (x y z : Float.float) :
  Float.eqb x y = true -> Float.ltb x z = Float.ltb y z.
Proof. float_order3 x y z. Qed.

Lemma eqb_ltb_r (x y z : Float.float) :
  Float.eqb x y = true -> Float.ltb z x = Float.ltb z y.
Proof. float_order3 x y z. Qed.

Lemma geb_not_ltb (x y : Float.float) :
  Float.geb x y = true -> Float.ltb x y = false.
Proof. float_order2 x y. Qed.

(** C7: when "Total Insured Value" is extracted with numeric value [v], the
    validator gives exactly one "seems low" warning if [v < 1,000,000],
    exactly one "seems very high" warning if [v > 100,000,000,000], and no
    warning of this rule if [1,000,000 <= v <= 100,000,000,000]; in no case
    does the rule add a consistency check. *)
Theorem C7_total_insured_value_range (formatted_data : dict NormalizedValue)
  (d : NormalizedValue) (v : Float.float) :
  dict_wf formatted_data ->
  dict_get formatted_data "Total Insured Value" = Some d ->
  status d = extracted -> numeric_value d = Some v ->
  let validation := _validate_data_consistency formatted_data in
  (Float.ltb v (Float.of_int 1000000) = true ->
   filter about_total_insured_value (warnings validation)
   = ["Total Insured Value seems low: " ++ dollars v])
  /\ (Float.gtb v (Float.of_int 100000000000) = true ->
      filter about_total_insured_value (warnings validation)
      = ["Total Insured Value seems very high: " ++ dollars v])
  /\ (Float.geb v (Float.of_int 1000000) = true ->
      Float.geb (Float.of_int 100000000000) v = true ->
      filter about_total_insured_value (warnings validation) = [])
  /\ (forall c, In c (consistency_checks validation) ->
                check c = "Quoted Amount vs Limit Amount"
                \/ check c = "Premium due vs Annual Premium").
Proof.
  intros Hwf Hg Hs Hn validation. subst validation.
  pose proof (numeric_of_extracted _ _ _ _ Hg Hs Hn) as H1.
  repeat split.
  - intros Hlow. validator_cases formatted_data; cbn; auto.
  - intros Hhigh.
    assert (Hlow : Float.ltb v (Float.of_int 1000000) = false).
    { destruct (Float.ltb v (Float.of_int 1000000)) eqn:E; [|reflexivity].
      unfold Float.gtb in Hhigh.
      pose proof (ltb_trans _ _ _ Hhigh E) as F.
      vm_compute in F. discriminate. }
    validator_cases formatted_data; cbn; auto.
  - intros Hge1 Hge2.
    apply geb_not_ltb in Hge1. apply geb_not_ltb in Hge2.
    fold (Float.gtb v (Float.of_int 100000000000)) in Hge2.
    validator_cases formatted_data; cbn; auto.
  - validator_cases formatted_data; cbn; intuition (subst; auto).
Qed.

(** On a map of normalised values the validator for any map is the
    validator of the data model. *)
Lemma dict_set_map {V W : Type} (f : V -> W) (d : dict V) (k : string) (v : V) :
  dict_set (map (fun kv => (fst kv, f (snd kv))) d) k (f v)
  = map (fun kv => (fst kv, f (snd kv))) (dict_set d k v).
Proof.
  induction d as [|[k0 v0] d IH]; cbn; [reflexivity|].
  destruct (String.eqb k0 k); cbn; [reflexivity|]. rewrite IH. reflexivity.
Qed.

Lemma dict_get_map_values {V W : Type} (f : V -> W) (d : dict V) (k : string) :
  dict_get (map (fun kv => (fst kv, f (snd kv))) d) k
  = option_map f (dict_get d k).
Proof.
  induction d as [|[k0 v0] d IH]; cbn; [reflexivity|].
  destruct (String.eqb k0 k); [reflexivity | exact IH].
Qed.

Lemma loose_values_of_map (formatted_data : dict NormalizedValue) :
  Loose.numeric_values_of (Loose.of_map formatted_data)
  = Ok (map (fun kv => (fst kv, Loose.VFloat (snd kv)))
          (numeric_values_of formatted_data)).
Proof.
  unfold Loose.numeric_values_of, numeric_values_of, Loose.of_map.
  assert (G : forall l acc,
             fold_left
               (fun collected '(attr, data) =>
                  values <- collected ;;
                  fields <- Loose.get_fields data ;;
                  match fields with
                  | (Some status, Some v) =>
                      if String.eqb status "extracted"
                      then Ok (dict_set values attr v) else Ok values
                  | _ => Ok values
                  end)
               (map (fun kv => (fst kv, Loose.of_normalized (snd kv))) l)
               (Ok (map (fun kv => (fst kv, Loose.VFloat (snd kv))) acc))
             = Ok (map (fun kv => (fst kv, Loose.VFloat (snd kv)))
                     (fold_left
                        (fun values '(attr, data) =>
                           match status_eqb (status data) extracted,
                                 numeric_value data with
                           | true, Some v => dict_set values attr v
                           | _, _ => values
                           end) l acc))).
  { induction l as [|[a d] l IH]; intros acc; [reflexivity|].
    cbn [map fold_left fst snd bind Loose.get_fields Loose.of_normalized].
    unfold status_eqb. cbn [status_text].
    destruct (numeric_value d) as [v|]; cbn [option_map].
    - destruct (String.eqb (status_text (status d)) "extracted").
      + rewrite dict_set_map. apply IH.
      + apply IH.
    - destruct (String.eqb (status_text (status d)) "extracted"); apply IH. }
  apply (G formatted_data []).
Qed.

Lemma loose_body_of_map (formatted_data : dict NormalizedValue)
  (validation : Validation) :
  Loose.validation_body (Loose.of_map formatted_data) validation
  = validation_body formatted_data validation.
Proof.
  unfold Loose.validation_body, validation_body.
  rewrite loose_values_of_map. cbn [Loose.attempt].
  unfold seq_block, Loose.check_quoted_limit, Loose.check_premium,
    Loose.check_total_insured_value, check_quoted_limit, check_premium,
    check_total_insured_value, dollars.
  rewrite !dict_get_map_values.
  repeat match goal with
         | |- context [dict_get (numeric_values_of formatted_data) ?k] =>
             destruct (dict_get (numeric_values_of formatted_data) k)
         end;
    cbn [option_map Loose.eqb Loose.dollars Loose.ltb_int Loose.gtb_int
           Loose.attempt];
    repeat match goal with
           | |- context [Float.eqb ?a ?b] => destruct (Float.eqb a b)
           | |- context [Float.ltb ?a ?b] => destruct (Float.ltb a b)
           | |- context [Float.gtb ?a ?b] => destruct (Float.gtb a b)
           end; reflexivity.
Qed.

(** An item that is not a dictionary ends the collection of the values:
    [data.get] raises at the first such item. *)
Lemma loose_values_not_dict (formatted_data : dict Loose.Entry) :
  (exists attr type_name, In (attr, Loose.NotDict type_name) formatted_data) ->
  exists attr type_name,
    In (attr, Loose.NotDict type_name) formatted_data
    /\ Loose.numeric_values_of formatted_data
       = Raise (AttributeError
                  ("'" ++ type_name ++ "' object has no attribute 'get'")).
Proof.
  unfold Loose.numeric_values_of.
  set (step := fun (collected : result (dict Loose.Value))
                   '((attr, data) : string * Loose.Entry) =>
                 values <- collected ;;
                 fields <- Loose.get_fields data ;;
                 match fields with
                 | (Some status, Some v) =>
                     if String.eqb status "extracted"
                     then Ok (dict_set values attr v) else Ok values
                 | _ => Ok values
                 end).
  assert (Hraised : forall l e, fold_left step l (Raise e) = Raise e).
  { induction l as [|[a d] l IH]; intros e; [reflexivity|]. cbn. apply IH. }
  generalize (@nil (string * Loose.Value)).
  induction formatted_data as [|[a d] l IH]; intros values (attr & t & Hin).
  - contradiction.
  - destruct d as [st nv | t0].
    + destruct Hin as [Hin | Hin]; [discriminate Hin|].
      assert (Hstep : exists values', step (Ok values) (a, Loose.Dict st nv)
                                      = Ok values').
      { cbn. destruct st as [st|]; [|eauto].
        destruct nv as [v|]; [|eauto].
        destruct (String.eqb st "extracted"); eauto. }
      destruct Hstep as [values' Hstep].
      cbn [fold_left]. rewrite Hstep.
      destruct (IH values' (ex_intro _ attr (ex_intro _ t Hin)))
        as (attr' & t' & Hin' & Hr).
      exists attr', t'. split; [right; exact Hin' | exact Hr].
    + exists a, t0. split; [left; reflexivity|].
      cbn [fold_left]. cbn. apply Hraised.
Qed.

(** The exceptions, the warnings and the checks that the body leaves on a
    fresh [validation], by cases on the values it reads. *)
Ltac loose_cases formatted_data :=
  unfold Loose._validate_data_consistency, try_block, Loose.validation_body;
  destruct (Loose.numeric_values_of formatted_data) as [values | raised];
  cbn [Loose.attempt];
  [ unfold seq_block, Loose.check_quoted_limit, Loose.check_premium,
      Loose.check_total_insured_value;
    repeat match goal with
           | |- context [dict_get values ?k] =>
               destruct (dict_get values k) as [[?|?]|]
           end;
    cbn [Loose.eqb Loose.dollars Loose.ltb_int Loose.gtb_int Loose.attempt];
    repeat match goal with
           | |- context [Float.eqb ?a ?b] => destruct (Float.eqb a b)
           | |- context [String.eqb ?a ?b] => destruct (String.eqb a b)
           | |- context [Float.ltb ?a ?b] => destruct (Float.ltb a b)
           | |- context [Float.gtb ?a ?b] => destruct (Float.gtb a b)
           end
  | ].

(** C8: on a map of normalised values nothing in the body raises, and the
    final status is [failed] if an error was recorded, else [warnings] if a
    warning was, else [passed].  On any map, normalised or not, the
    validator returns a result and raises nothing: when the body ends
    without an exception the status is [passed] or [warnings] by the
    warnings, and when an operation of the body raises (the status is
    [error] exactly then) the result keeps the warnings and checks recorded
    so far and has the message of the exception, after
    ["Validation error: "], as its only error.  An item that is not a
    dictionary is such a case: the result is then the status [error] with
    the message of the missing [get] and nothing else. *)
Theorem C8_final_status (formatted_data : dict NormalizedValue)
  (any_data : dict Loose.Entry) :
  let fresh :=
    {| validation_status := st_passed; warnings := []; errors := [];
       consistency_checks := [] |} in
  let validation := _validate_data_consistency formatted_data in
  let result := Loose._validate_data_consistency any_data in
  validation_status validation =
    match errors validation, warnings validation with
    | _ :: _, _ => st_failed
    | [], _ :: _ => st_warnings
    | [], [] => st_passed
    end
  /\ (exists validation',
        validation_body formatted_data fresh = (validation', None))
  /\ Loose._validate_data_consistency (Loose.of_map formatted_data)
     = validation
  /\ (forall validation',
        Loose.validation_body any_data fresh = (validation', None) ->
        result = validation'
        /\ errors result = []
        /\ validation_status result =
             match warnings result with
             | _ :: _ => st_warnings
             | [] => st_passed
             end)
  /\ (forall validation' e,
        Loose.validation_body any_data fresh = (validation', Some e) ->
        result =
          {| validation_status := st_error;
             warnings := warnings validation';
             errors := ["Validation error: " ++ exn_str e];
             consistency_checks := consistency_checks validation' |})
  /\ (validation_status result = st_error <->
      exists validation' e,
        Loose.validation_body any_data fresh = (validation', Some e))
  /\ ((exists attr type_name,
         In (attr, Loose.NotDict type_name) any_data) ->
      exists attr type_name,
        In (attr, Loose.NotDict type_name) any_data
        /\ result =
             {| validation_status := st_error;
                warnings := [];
                errors :=
                  ["Validation error: '" ++ type_name
                   ++ "' object has no attribute 'get'"];
                consistency_checks := [] |}).
Proof.
  cbv zeta. split; [|split; [|split; [|split; [|split; [|split]]]]].
  - unfold _validate_data_consistency, validation_body, try_block, seq_block,
      check_quoted_limit, check_premium, check_total_insured_value.
    repeat match goal with
           | |- context [dict_get ?d ?k] => destruct (dict_get d k)
           end;
      repeat match goal with
        | |- context [Float.eqb ?a ?b] => destruct (Float.eqb a b)
        | |- context [Float.ltb ?a ?b] => destruct (Float.ltb a b)
        | |- context [Float.gtb ?a ?b] => destruct (Float.gtb a b)
        end; reflexivity.
  - unfold validation_body, seq_block,
      check_quoted_limit, check_premium, check_total_insured_value.
    repeat match goal with
           | |- context [dict_get ?d ?k] => destruct (dict_get d k)
           end;
      repeat match goal with
        | |- context [Float.eqb ?a ?b] => destruct (Float.eqb a b)
        | |- context [Float.ltb ?a ?b] => destruct (Float.ltb a b)
        | |- context [Float.gtb ?a ?b] => destruct (Float.gtb a b)
        end; cbn; eauto.
  - unfold Loose._validate_data_consistency, _validate_data_consistency,
      try_block. rewrite loose_body_of_map. reflexivity.
  - intros validation'. loose_cases any_data; cbn; intros H;
      inversion H; subst; repeat split.
  - intros validation' e. loose_cases any_data; cbn; intros H;
      inversion H; subst; reflexivity.
  - loose_cases any_data; cbn;
      (split;
       [intros Hs; first [discriminate Hs | do 2 eexists; reflexivity]
       |intros (v' & e' & H); first [discriminate H | reflexivity]]).
  - intros Hnot.
    destruct (loose_values_not_dict any_data Hnot) as (attr & t & Hin & Hr).
    exists attr, t. split; [exact Hin|].
    unfold Loose._validate_data_consistency, try_block, Loose.validation_body.
    rewrite Hr. reflexivity.
Qed.

(** ** The comparison builder *)

Lemma attr_data_of_entries (extractions : list Extraction) (attr : string) :
  attr_data_of extractions attr = entries_from attr 0 extractions.
Proof.
  unfold attr_data_of, enumerate.
  assert (G : forall l start acc,
             fold_left
               (fun attr_data '(i, extraction) =>
                  match extraction_data extraction with
                  | Some d =>
                      match dict_get d attr with
                      | Some data =>
                          (attr_data ++
                           [{| document_index := i;
                               document_name :=
                                 match extraction_pdf_filename extraction with
                                 | Some name => name
                                 | None => "document_" ++ Py.str_of_nat i
                                 end;
                               entry_value := numeric_value data;
                               entry_formatted := formatted_value data;
                               entry_status := status data |}])%list
                      | None => attr_data
                      end
                  | None => attr_data
                  end)
               (combine (seq start (List.length l)) l) acc
             = (acc ++ entries_from attr start l)%list).
  { induction l as [|x l IH]; intros start acc; cbn.
    - rewrite app_nil_r. reflexivity.
    - rewrite IH. unfold entry_of.
      destruct (extraction_data x) as [d|]; [|reflexivity].
      destruct (dict_get d attr); [|reflexivity].
      rewrite <- app_assoc. reflexivity. }
  apply (G extractions 0%nat []).
Qed.

Lemma entries_from_describe (attr : string) (l : list Extraction) :
  forall start en,
    In en (entries_from attr start l) ->
    (start <= document_index en)%nat
    /\ exists extraction d data,
        nth_error l (document_index en - start) = Some extraction
        /\ extraction_data extraction = Some d
        /\ dict_get d attr = Some data
        /\ document_name en =
           match extraction_pdf_filename extraction with
           | Some name => name
           | None => "document_" ++ Py.str_of_nat (document_index en)
           end
        /\ entry_value en = numeric_value data
        /\ entry_formatted en = formatted_value data
        /\ entry_status en = status data.
Proof.
  induction l as [|x l IH]; cbn; intros start en Hin.
  - contradiction.
  - apply in_app_or in Hin. destruct Hin as [Hin | Hin].
    + unfold entry_of in Hin.
      destruct (extraction_data x) as [d|] eqn:Ed; [|contradiction].
      destruct (dict_get d attr) as [data|] eqn:Eg; [|contradiction].
      destruct Hin as [<- | []]. cbn. split; [lia|].
      rewrite Nat.sub_diag. cbn. exists x, d, data. repeat split; auto.
    + destruct (IH _ _ Hin) as [Hle (x' & d & data & Hn & H)].
      split; [lia|]. exists x', d, data. split; [|exact H].
      replace (document_index en - start)%nat
        with (S (document_index en - S start)) by lia.
      exact Hn.
Qed.

Lemma entries_from_sorted (attr : string) (l : list Extraction) :
  forall start,
    StronglySorted lt (map document_index (entries_from attr start l)).
Proof.
  induction l as [|x l IH]; cbn; intros start.
  - constructor.
  - assert (Htail : Forall (lt start)
                      (map document_index (entries_from attr (S start) l))).
    { apply Forall_forall. intros i Hi. apply in_map_iff in Hi.
      destruct Hi as [en [<- Hen]].
      apply entries_from_describe in Hen. lia. }
    unfold entry_of.
    destruct (extraction_data x) as [d|]; [|apply IH].
    destruct (dict_get d attr); [|apply IH].
    cbn. constructor; [apply IH | exact Htail].
Qed.

Lemma entries_from_complete (attr : string) (l : list Extraction) :
  forall start i x,
    nth_error l i = Some x -> has_attribute x attr = true ->
    In (start + i)%nat (map document_index (entries_from attr start l)).
Proof.
  induction l as [|y l IH]; intros start i x Hn Hhas.
  - destruct i; discriminate.
  - cbn. rewrite map_app. apply in_or_app. destruct i as [|i]; cbn in Hn.
    + left. inversion Hn; subst y. unfold entry_of.
      unfold has_attribute, dict_mem in Hhas.
      destruct (extraction_data x) as [d|]; [|discriminate].
      destruct (dict_get d attr); [|discriminate].
      cbn. left. lia.
    + right. replace (start + S i)%nat with (S start + i)%nat by lia.
      eapply IH; eauto.
Qed.

Lemma existsb_eqb_In (k : string) (s : list string) :
  existsb (String.eqb k) s = true <-> In k s.
Proof.
  rewrite existsb_exists. split.
  - intros [x [Hin Heq]]. apply String.eqb_eq in Heq. subst. exact Hin.
  - intros Hin. exists k. split; [exact Hin | apply String.eqb_refl].
Qed.

Lemma In_set_add (s : list string) (a k : string) :
  In k (set_add s a) <-> In k s \/ k = a.
Proof.
  unfold set_add. destruct (existsb (String.eqb a) s) eqn:E.
  - apply existsb_eqb_In in E. split; [tauto|]. intros [H | ->]; assumption.
  - rewrite in_app_iff. cbn. split; intros [H | H]; auto.
    + destruct H as [<- | []]. auto.
Qed.

Lemma NoDup_set_add (s : list string) (a : string) :
  NoDup s -> NoDup (set_add s a).
Proof.
  intros Hnd. unfold set_add. destruct (existsb (String.eqb a) s) eqn:E.
  - exact Hnd.
  - assert (Hnot : ~ In a s).
    { intros Hin. apply existsb_eqb_In in Hin. congruence. }
    clear E. induction Hnd as [|x s Hx Hnd IH]; cbn.
    + constructor; [intros [] | constructor].
    + constructor.
      * rewrite in_app_iff. cbn. cbn in Hnot. intuition congruence.
      * apply IH. cbn in Hnot. tauto.
Qed.

Lemma In_set_update (ks s : list string) (k : string) :
  In k (set_update s ks) <-> In k s \/ In k ks.
Proof.
  unfold set_update. revert s.
  induction ks as [|a ks IH]; cbn; intros s.
  - tauto.
  - rewrite IH, In_set_add. intuition (subst; auto).
Qed.

Lemma NoDup_set_update (ks s : list string) :
  NoDup s -> NoDup (set_update s ks).
Proof.
  unfold set_update. revert s.
  induction ks as [|a ks IH]; cbn; intros s Hnd.
  - exact Hnd.
  - apply IH, NoDup_set_add, Hnd.
Qed.

Lemma all_attributes_spec (extractions : list Extraction) (k : string) :
  NoDup (all_attributes_of extractions)
  /\ (In k (all_attributes_of extractions) <->
      exists x, In x extractions /\ has_attribute x k = true).
Proof.
  unfold all_attributes_of.
  assert (G : forall l acc,
             NoDup acc ->
             let r := fold_left
                        (fun all_attributes extraction =>
                           match extraction_data extraction with
                           | Some d => set_update all_attributes (dict_keys d)
                           | None => all_attributes
                           end) l acc in
             NoDup r
             /\ (In k r <->
                 In k acc \/ exists x, In x l /\ has_attribute x k = true)).
  { induction l as [|x l IH]; cbn; intros acc Hnd.
    - split; [exact Hnd|]. split; [auto|]. intros [H | [x [[] _]]]. exact H.
    - destruct (extraction_data x) as [d|] eqn:Ed.
      + destruct (IH (set_update acc (dict_keys d))
                    (NoDup_set_update _ _ Hnd)) as [Hn Hi].
        split; [exact Hn|]. rewrite Hi, In_set_update.
        assert (Hx : In k (dict_keys d) <-> has_attribute x k = true).
        { unfold has_attribute. rewrite Ed. symmetry. apply dict_mem_In. }
        split.
        * intros [[H | H] | [y [Hy Hh]]]; eauto.
          right. exists x. split; [left; reflexivity | apply Hx, H].
        * intros [H | [y [[<- | Hy] Hh]]]; eauto.
          left. right. apply Hx, Hh.
      + destruct (IH acc Hnd) as [Hn Hi]. split; [exact Hn|]. rewrite Hi.
        split.
        * intros [H | [y [Hy Hh]]]; eauto.
        * intros [H | [y [[<- | Hy] Hh]]]; eauto.
          unfold has_attribute in Hh. rewrite Ed in Hh. discriminate. }
  destruct (G extractions [] (NoDup_nil _)) as [Hn Hi].
  split; [exact Hn|]. rewrite Hi. cbn. tauto.
Qed.

Lemma dict_keys_set {V : Type} (d : dict V) (k : string) (v : V) :
  dict_keys (dict_set d k v) =
  if existsb (String.eqb k) (dict_keys d) then dict_keys d
  else (dict_keys d ++ [k])%list.
Proof.
  unfold dict_keys. induction d as [|[k0 v0] d IH]; cbn.
  - reflexivity.
  - rewrite (String.eqb_sym k k0).
    destruct (String.eqb k0 k); cbn; [reflexivity|].
    rewrite IH. destruct (existsb (String.eqb k) (map fst d)); reflexivity.
Qed.

Lemma dict_set_wf {V : Type} (d : dict V) (k : string) (v : V) :
  dict_wf d -> dict_wf (dict_set d k v).
Proof.
  unfold dict_wf. rewrite dict_keys_set. apply NoDup_set_add.
Qed.

Lemma fold_dict_set {V : Type} (f : string -> V) (l : list string) (k : string) :
  forall acc,
    dict_wf acc ->
    let r := fold_left (fun c a => dict_set c a (f a)) l acc in
    dict_wf r
    /\ dict_get r k = if existsb (String.eqb k) l then Some (f k)
                      else dict_get acc k.
Proof.
  induction l as [|a l IH]; cbn; intros acc Hwf.
  - auto.
  - destruct (IH (dict_set acc a (f a)) (dict_set_wf _ _ _ Hwf)) as [Hw Hg].
    split; [exact Hw|]. rewrite Hg, dict_get_set.
    rewrite (String.eqb_sym k a).
    destruct (existsb (String.eqb k) l); cbn.
    + rewrite orb_true_r. reflexivity.
    + rewrite orb_false_r. destruct (String.eqb a k) eqn:E; [|reflexivity].
      apply String.eqb_eq in E. subst. reflexivity.
Qed.

(** C9: with fewer than two extractions the comparison is a descriptive
    error value; with two or more it gives [total_documents] equal to their
    number and an [attribute_comparison] with one entry for each attribute
    found in the [extracted_data] of at least one extraction, whose list has
    exactly one element for each extraction that has the attribute, by
    ascending document index, each with the index, the document name (or
    [document_i]) and the value, formatted and status fields of the
    attribute. *)
Theorem C9_comparison (now : string) (extractions : list Extraction) :
  ((List.length extractions < 2)%nat ->
   create_comparison_report now extractions
   = ComparisonError "Need at least 2 extractions for comparison")
  /\ ((2 <= List.length extractions)%nat ->
      exists c,
        create_comparison_report now extractions = ComparisonOk c
        /\ total_documents c = List.length extractions
        /\ dict_wf (attribute_comparison c)
        /\ forall attr,
             (dict_get (attribute_comparison c) attr = None <->
              forall x, In x extractions -> has_attribute x attr = false)
             /\ forall l,
                  dict_get (attribute_comparison c) attr = Some l ->
                  StronglySorted lt (map document_index l)
                  /\ (forall i,
                        In i (map document_index l) <->
                        exists x, nth_error extractions i = Some x
                                  /\ has_attribute x attr = true)
                  /\ (forall en, In en l -> describes extractions attr en)).
Proof.
  split; intros Hlen; unfold create_comparison_report.
  - apply Nat.ltb_lt in Hlen. rewrite Hlen. reflexivity.
  - assert (Hge : Nat.ltb (List.length extractions) 2 = false)
      by (apply Nat.ltb_ge; exact Hlen).
    rewrite Hge. cbn. eexists. split; [reflexivity|]. cbn.
    split; [reflexivity|].
    split.
    { apply (fold_dict_set (attr_data_of extractions) _ ""). constructor. }
    intros attr.
    destruct (fold_dict_set (attr_data_of extractions)
                (all_attributes_of extractions) attr []) as [_ Hg];
      [constructor|]. cbn in Hg. rewrite Hg. clear Hg.
    destruct (all_attributes_spec extractions attr) as [_ Hin].
    destruct (existsb (String.eqb attr) (all_attributes_of extractions)) eqn:E.
    + apply existsb_eqb_In in E. apply Hin in E. destruct E as [x [Hx Hh]].
      split.
      * split; [discriminate|]. intros H. rewrite (H x Hx) in Hh. discriminate.
      * intros l Hl. inversion Hl; subst l. clear Hl.
        rewrite attr_data_of_entries. split; [apply entries_from_sorted|].
        split.
        -- intros i. split.
           ++ intros Hi. apply in_map_iff in Hi. destruct Hi as [en [<- Hen]].
              apply entries_from_describe in Hen.
              destruct Hen as [_ (y & d & data & Hn & Hd & Hg & _)].
              rewrite Nat.sub_0_r in Hn. exists y. split; [exact Hn|].
              unfold has_attribute, dict_mem. rewrite Hd, Hg. reflexivity.
           ++ intros [y [Hn Hy]].
              apply (entries_from_complete attr extractions 0%nat i y Hn Hy).
        -- intros en Hen. apply entries_from_describe in Hen.
           destruct Hen as [_ (y & d & data & Hn & H)].
           rewrite Nat.sub_0_r in Hn. exists y, d, data. split; assumption.
    + split.
      * split; [|reflexivity]. intros _ x Hx.
        destruct (has_attribute x attr) eqn:Hh; [|reflexivity].
        assert (In attr (all_attributes_of extractions)) by (apply Hin; eauto).
        apply existsb_eqb_In in H. congruence.
      * intros l Hl. discriminate.
Qed.

(** ** The format of amounts *)

Lemma all_chars_app (p : ascii -> bool) (s t : string) :
  all_chars p (s ++ t) = all_chars p s && all_chars p t.
Proof.
  induction s as [|c s IH]; cbn; [reflexivity|].
  rewrite IH, andb_assoc. reflexivity.
Qed.

Lemma skip_while_app (p : ascii -> bool) (s t : string) :
  all_chars p s = true -> skip_while p (s ++ t) = skip_while p t.
Proof.
  induction s as [|c s IH]; cbn; [reflexivity|].
  intros H. apply andb_prop in H. destruct H as [-> H]. auto.
Qed.

Lemma digit_char_is_digit (d : Z) :
  0 <= d < 10 -> Py.is_digit (Py.digit_char d) = true.
Proof.
  intros H.
  assert (C : d = 0 \/ d = 1 \/ d = 2 \/ d = 3 \/ d = 4 \/ d = 5 \/ d = 6
              \/ d = 7 \/ d = 8 \/ d = 9) by lia.
  repeat (destruct C as [-> | C]; [reflexivity|]). subst. reflexivity.
Qed.

Lemma fixed_digits_digits (p : nat) (n : Z) :
  all_chars Py.is_digit (Float.fixed_digits p n) = true.
Proof.
  revert n. induction p as [|p IH]; intros n; cbn; [reflexivity|].
  rewrite all_chars_app, IH. cbn.
  rewrite digit_char_is_digit; [reflexivity|].
  apply Z.mod_pos_bound. lia.
Qed.

Lemma fixed_digits_two (n : Z) :
  exists d1 d2,
    Float.fixed_digits 2 n = String d1 (String d2 EmptyString)
    /\ Py.is_digit d1 = true /\ Py.is_digit d2 = true.
Proof.
  exists (Py.digit_char ((n / 10) mod 10)), (Py.digit_char (n mod 10)).
  split; [reflexivity|].
  split; apply digit_char_is_digit; apply Z.mod_pos_bound; lia.
Qed.

Lemma string_of_uint_digits (u : Decimal.uint) :
  all_chars Py.is_digit (NilEmpty.string_of_uint u) = true.
Proof.
  induction u; cbn; auto.
Qed.

Lemma str_of_N_digits (n : N) :
  all_chars Py.is_digit (Py.str_of_N n) = true
  /\ Py.str_of_N n <> "".
Proof.
  unfold Py.str_of_N. split; [apply string_of_uint_digits|].
  destruct n as [|p]; cbn; [discriminate|].
  pose proof (DecimalPos.Unsigned.to_uint_nonnil p) as H.
  destruct (Pos.to_uint p); cbn; congruence.
Qed.

Lemma group3_chars (s : string) :
  all_chars Py.is_digit s = true ->
  all_chars digit_or_comma (Float.group3 s) = true.
Proof.
  induction s as [|c s IH]; [reflexivity|].
  intros H. cbn [all_chars] in H. apply andb_prop in H. destruct H as [Hc Hs].
  cbn [Float.group3 all_chars].
  unfold digit_or_comma at 1. rewrite Hc. cbn [orb andb].
  destruct (Nat.ltb 0 (String.length s) && Nat.eqb (String.length s mod 3) 0).
  - cbn [all_chars]. rewrite (IH Hs). reflexivity.
  - apply IH, Hs.
Qed.

Lemma group3_nonempty (s : string) : s <> "" -> Float.group3 s <> "".
Proof. destruct s; cbn; congruence. Qed.

(** An amount with thousands separators and two decimals, after a dollar
    sign, matches the pattern; so it does after [-$]. *)
Lemma money_pattern_fixed (n : Z) :
  money_pattern ("$" ++ Float.fixed_text true 2 n) = true
  /\ money_pattern ("-$" ++ Float.fixed_text true 2 n) = true.
Proof.
  unfold Float.fixed_text.
  set (i := Py.str_of_N (Z.to_N (n / 10 ^ Z.of_nat 2))).
  destruct (str_of_N_digits (Z.to_N (n / 10 ^ Z.of_nat 2))) as [Hd Hne].
  fold i in Hd, Hne.
  pose proof (group3_chars i Hd) as Hg.
  pose proof (group3_nonempty i Hne) as Hgne.
  destruct (fixed_digits_two (n mod 10 ^ Z.of_nat 2)) as (d1 & d2 & -> & H1 & H2).
  assert (G : forall body,
             all_chars digit_or_comma body = true -> body <> "" ->
             money_pattern
               (String "$" (body ++ String "." (String d1 (String d2 ""))))
             = true
             /\ money_pattern
                  (String "-"
                     (String "$" (body ++ String "." (String d1 (String d2 "")))))
                = true).
  { intros body Hb Hbne. destruct body as [|c body]; [congruence|].
    assert (Hc : digit_or_comma c = true)
      by (cbn in Hb; apply andb_prop in Hb; tauto).
    assert (Hneq : Ascii.eqb c "-" = false).
    { destruct (Ascii.eqb c "-") eqn:E; [|reflexivity].
      apply Ascii.eqb_eq in E. subst c. discriminate. }
    assert (Hskip : skip_while digit_or_comma
                      (String c body ++ String "." (String d1 (String d2 "")))
                    = String "." (String d1 (String d2 ""))).
    { rewrite skip_while_app by exact Hb. reflexivity. }
    unfold money_pattern. cbn [append] in *.
    rewrite Hskip, Hc, H1, H2. split; reflexivity. }
  apply (G (Float.group3 i) Hg Hgne).
Qed.

Lemma geb_zero (x : Float.float) :
  Float.geb x (Float.of_int 0) =
  match x with
  | Float.Zero _ => true
  | Float.Inf s | Float.Fin s _ _ => negb s
  | Float.NaN => false
  end.
Proof. destruct x as [[]|[]| |[] m e]; reflexivity. Qed.

Lemma format_currency_pattern (x : Float.float) :
  Float.is_finite x = true -> x <> Float.Zero true ->
  money_pattern (format_currency x) = true.
Proof.
  intros Hfin Hnz. unfold format_currency. rewrite geb_zero.
  destruct x as [[]|s| |[] m e]; try discriminate; try congruence.
  - reflexivity.
  - apply (money_pattern_fixed (Float.to_fixed 2 m e)).
  - apply (money_pattern_fixed (Float.to_fixed 2 m e)).
Qed.

Lemma guard_values (value : Raw) :
  falsy value || is_sentinel value = true ->
  value = RNone \/ value = RStr "" \/ value = RStr "NOT_FOUND"
  \/ value = RStr "ERROR".
Proof.
  destruct value as [|s]; cbn; [auto|].
  intros H. apply orb_prop in H. destruct H as [H | H].
  - apply String.eqb_eq in H. subst. auto.
  - apply orb_prop in H. destruct H as [H | H];
      apply String.eqb_eq in H; subst; auto.
Qed.

Lemma format_currency_sign (x : Float.float) :
  Float.is_finite x = true -> x <> Float.Zero true ->
  format_currency x
  = (if Float.sign_bit x then "-$" else "$")
    ++ Float.format_f true 2 (Float.abs x).
Proof.
  intros Hfin Hnz. unfold format_currency. rewrite geb_zero.
  destruct x as [[]|s| |[] m e]; try discriminate; try congruence; reflexivity.
Qed.

(** C1, as the code has it: when [float] parses the cleaned text of a raw
    value to a finite number other than negative zero, the normalised value
    has that number as numeric value, the currency [USD], the status
    [extracted] and a formatted value that matches
    [-?\$[0-9,]+\.[0-9]{2}]: a [$], after a [-] when the number is negative,
    then the magnitude with thousands separators and two decimals. *)
Theorem C1_extracted_finite (value : Raw) (x : Float.float) :
  Parse.float_of_str (clean value) = Ok x ->
  Float.is_finite x = true ->
  x <> Float.Zero true ->
  _format_value value =
    {| raw_value := value;
       formatted_value := Some (format_currency x);
       numeric_value := Some x;
       currency := Some "USD";
       status := extracted |}
  /\ money_pattern (format_currency x) = true
  /\ format_currency x
     = (if Float.sign_bit x then "-$" else "$")
       ++ Float.format_f true 2 (Float.abs x).
Proof.
  intros Hparse Hfin Hnz.
  split; [|split; [apply format_currency_pattern; assumption
                  |apply format_currency_sign; assumption]].
  destruct (format_value_cases value)
    as [[G _] | [[_ [y [Hy ->]]] | [_ [[msg Hm] _]]]].
  - exfalso. apply guard_values in G.
    destruct G as [-> | [-> | [-> | ->]]]; vm_compute in Hparse; discriminate.
  - rewrite Hparse in Hy. inversion Hy. reflexivity.
  - rewrite Hparse in Hm. discriminate.
Qed.

Lemma C1_extracted_finite_witness :
  _format_value (RStr "$1,234,567.00") =
    {| raw_value := RStr "$1,234,567.00";
       formatted_value := Some "$1,234,567.00";
       numeric_value := Some (Float.Fin false 5302424889720832 (-32));
       currency := Some "USD";
       status := extracted |}
  /\ money_pattern "$1,234,567.00" = true.
Proof.
  destruct (C1_extracted_finite (RStr "$1,234,567.00")
              (Float.Fin false 5302424889720832 (-32))) as (H1 & H2 & _).
  - vm_compute. reflexivity.
  - reflexivity.
  - discriminate.
  - split; [exact H1 | exact H2].
Defined.

(** C1 fails as stated: a decimal number beyond the range of binary64 is
    parsed to infinity and formatted as [$inf]. *)
Lemma C1_counterexample_overflow :
  let value := RStr ("1" ++ zeros 309) in
  signed_decimal (clean value) = true
  /\ status (_format_value value) = extracted
  /\ numeric_value (_format_value value) = Some (Float.Inf false)
  /\ formatted_value (_format_value value) = Some "$inf"
  /\ money_pattern "$inf" = false.
Proof. vm_compute. repeat split. Qed.

(** Negative zero keeps its sign after the dollar sign. *)
Lemma negative_zero_formatted :
  signed_decimal (clean (RStr "-0")) = true
  /\ _format_value (RStr "-0") =
       {| raw_value := RStr "-0";
          formatted_value := Some "$-0.00";
          numeric_value := Some (Float.Zero true);
          currency := Some "USD";
          status := extracted |}
  /\ money_pattern "$-0.00" = false.
Proof. vm_compute. repeat split. Qed.

(** ** Rounding *)

Lemma div_rne_nonneg (a b : Z) : 0 <= a -> 0 < b -> 0 <= Float.div_rne a b.
Proof.
  intros Ha Hb. unfold Float.div_rne.
  assert (0 <= a / b) by (apply Z.div_pos; lia).
  destruct (2 * (a mod b) ?= b); [destruct (Z.even (a / b))| |]; lia.
Qed.

(** Rounding does not cross an integer. *)
Lemma div_rne_le (a b k : Z) : 0 < b -> a <= k * b -> Float.div_rne a b <= k.
Proof.
  intros Hb Hle. unfold Float.div_rne.
  pose proof (Z.div_mod a b ltac:(lia)) as Hdm.
  pose proof (Z.mod_pos_bound a b Hb) as Hm.
  assert (Hq : a / b <= k) by (apply Z.div_le_upper_bound; lia).
  destruct (Z.eq_dec (a / b) k) as [E | E].
  - assert (a mod b = 0) by nia.
    replace (2 * (a mod b) ?= b) with Lt; [lia|].
    symmetry. apply Z.compare_lt_iff. lia.
  - destruct (2 * (a mod b) ?= b); [destruct (Z.even (a / b))| |]; lia.
Qed.

Lemma ilog2_ratio_le (p q : Z) :
  0 < p -> 0 < q -> p <= 2 ^ 52 * q -> Float.ilog2_ratio p q <= 52.
Proof.
  intros Hp Hq Hle. unfold Float.ilog2_ratio.
  assert (Z.log2 p <= 52 + Z.log2 q).
  { rewrite <- Z.log2_mul_pow2 by lia.
    apply Z.log2_le_mono. lia. }
  cbv zeta.
  match goal with |- (if ?c then _ else _) <= _ => destruct c end; lia.
Qed.

Lemma round_ratio_bounded (p q k : Z) :
  0 <= p -> 0 < q -> 0 < k <= 2 ^ 52 -> p <= k * q ->
  bounded_by k (Float.round_ratio false p q).
Proof.
  intros Hp Hq Hk Hle. unfold Float.round_ratio.
  destruct (p <=? 0) eqn:Ep; [reflexivity|].
  apply Z.leb_gt in Ep.
  assert (Hi : Float.ilog2_ratio p q <= 52) by (apply ilog2_ratio_le; nia).
  set (e := Z.max (Float.ilog2_ratio p q - 52) Float.emin).
  assert (He : e <= 0) by (unfold e, Float.emin; lia).
  assert (Hpow : 0 < 2 ^ (- e)) by (apply Z.pow_pos_nonneg; lia).
  set (m := if 0 <=? e then Float.div_rne p (q * 2 ^ e)
            else Float.div_rne (p * 2 ^ (- e)) q).
  assert (Hm : m = Float.div_rne (p * 2 ^ (- e)) q).
  { unfold m. destruct (0 <=? e) eqn:E0; [|reflexivity].
    apply Z.leb_le in E0. replace e with 0 by lia. cbn.
    rewrite !Z.mul_1_r. reflexivity. }
  assert (Hm0 : 0 <= m) by (rewrite Hm; apply div_rne_nonneg; nia).
  assert (Hmk : m <= k * 2 ^ (- e)) by (rewrite Hm; apply div_rne_le; nia).
  clearbody m. clear Hm.
  destruct (m =? 0) eqn:Em0; [reflexivity|].
  apply Z.eqb_neq in Em0.
  destruct (m =? 2 ^ 53) eqn:Em.
  - apply Z.eqb_eq in Em.
    assert (He' : e < 0).
    { destruct (Z.eq_dec e 0) as [E0 | E0]; [|lia].
      rewrite E0 in Hmk. cbn in Hmk. cbn in Hk. lia. }
    replace (Float.emax <? e + 1) with false
      by (symmetry; apply Z.ltb_ge; unfold Float.emax; lia).
    cbn. repeat split; [lia|].
    replace (- e) with (1 + - (e + 1)) in Hmk by lia.
    rewrite Z.pow_add_r in Hmk by lia.
    change (2 ^ 1) with 2 in Hmk.
    change (Z.pow_pos 2 52) with (2 ^ 52).
    change (2 ^ 53) with (2 * 2 ^ 52) in Em. lia.
  - replace (Float.emax <? e) with false
      by (symmetry; apply Z.ltb_ge; unfold Float.emax; lia).
    cbn. repeat split; [exact He|].
    rewrite Z2Pos.id by lia. exact Hmk.
Qed.

Lemma truediv_le (s t : nat) :
  (s <= t)%nat -> (0 < t)%nat ->
  exists q, Float.truediv (Z.of_nat s) (Z.of_nat t) = Ok q /\ bounded_by 1 q.
Proof.
  intros Hle Ht. unfold Float.truediv.
  replace (Z.of_nat t =? 0) with false by (symmetry; apply Z.eqb_neq; lia).
  replace (Z.of_nat s <? 0) with false by (symmetry; apply Z.ltb_ge; lia).
  replace (Z.of_nat t <? 0) with false by (symmetry; apply Z.ltb_ge; lia).
  rewrite !Z.abs_eq by lia. cbn [xorb].
  pose proof (round_ratio_bounded (Z.of_nat s) (Z.of_nat t) 1
                ltac:(lia) ltac:(lia) ltac:(cbn; lia) ltac:(lia)) as Hb.
  destruct (Float.round_ratio false (Z.of_nat s) (Z.of_nat t)) as [z|z| |z m e];
    cbn in Hb; try contradiction; eexists; split; try reflexivity; exact Hb.
Qed.

Lemma mul_100_bounded (q : Float.float) :
  bounded_by 1 q -> bounded_by 100 (Float.mul q (Float.of_int 100)).
Proof.
  change (Float.of_int 100) with (Float.Fin false 7036874417766400 (-46)).
  destruct q as [z|z| |z m e]; cbn [bounded_by]; try contradiction.
  - intros ->. reflexivity.
  - intros (-> & He & Hm). unfold Float.mul. cbn [xorb].
    replace (0 <=? e + -46) with false by (symmetry; apply Z.leb_gt; lia).
    apply round_ratio_bounded.
    + lia.
    + apply Z.pow_pos_nonneg; lia.
    + cbn; lia.
    + replace (- (e + -46)) with (- e + 46) by lia.
      rewrite Z.pow_add_r by lia.
      assert (0 < 2 ^ (- e)) by (apply Z.pow_pos_nonneg; lia).
      change (2 ^ 46) with 70368744177664. nia.
Qed.

Lemma to_fixed_1_bounded (m : positive) (e : Z) :
  bounded_by 100 (Float.Fin false m e) ->
  0 <= Float.to_fixed 1 m e <= 1000.
Proof.
  cbn [bounded_by]. intros (_ & He & Hm). unfold Float.to_fixed.
  change (10 ^ Z.of_nat 1) with 10.
  assert (Hp : 0 < 2 ^ (- e)) by (apply Z.pow_pos_nonneg; lia).
  destruct (0 <=? e) eqn:E.
  - apply Z.leb_le in E. replace e with 0 in * by lia. cbn in Hm. cbn. lia.
  - split.
    + apply div_rne_nonneg; lia.
    + apply div_rne_le; lia.
Qed.

Lemma tenths_print_back :
  forallb tenth_prints_back (seq 0 1001) = true.
Proof. vm_compute. reflexivity. Qed.

Lemma format_round_1 (x : Float.float) :
  bounded_by 100 x ->
  Float.format_f false 1 (Float.round x 1) = Float.format_f false 1 x.
Proof.
  destruct x as [z|z| |z m e]; try reflexivity.
  intros Hb. assert (Hz : z = false) by (destruct Hb; assumption). subst z.
  pose proof (to_fixed_1_bounded m e Hb) as Hn.
  unfold Float.round. change (10 ^ Z.of_nat 1) with 10.
  cbn [Float.format_f Float.sign_text append].
  pose proof tenths_print_back as T.
  rewrite forallb_forall in T.
  specialize (T (Z.to_nat (Float.to_fixed 1 m e))).
  unfold tenth_prints_back in T. rewrite Z2Nat.id in T by lia.
  apply String.eqb_eq. apply T. apply in_seq. lia.
Qed.

(** ** The summary builder *)

Lemma collect_numeric_spec (formatted_data : dict NormalizedValue) :
  collect_numeric formatted_data
  = (count_successful formatted_data, numeric_entries formatted_data).
Proof.
  unfold collect_numeric, count_successful, numeric_entries.
  assert (G : forall l n acc,
             fold_left
               (fun '(total_extracted, numeric_values) '(attr, data) =>
                  match status_eqb (status data) extracted, numeric_value data
                  with
                  | true, Some v =>
                      (S total_extracted,
                       (numeric_values
                        ++ [{| attribute := attr; value := v |}])%list)
                  | _, _ => (total_extracted, numeric_values)
                  end)
               l (n, acc)
             = ((n + List.length
                       (filter (fun kv => is_successful (snd kv)) l))%nat,
                (acc ++ flat_map
                   (fun kv =>
                      match status_eqb (status (snd kv)) extracted,
                            numeric_value (snd kv) with
                      | true, Some v => [{| attribute := fst kv; value := v |}]
                      | _, _ => []
                      end) l)%list)).
  { induction l as [|[a d] l IH]; intros n acc; cbn.
    - rewrite Nat.add_0_r, app_nil_r. reflexivity.
    - unfold is_successful at 1. cbn.
      destruct (status_eqb (status d) extracted), (numeric_value d);
        cbn; rewrite IH; try reflexivity.
      rewrite <- app_assoc. cbn. f_equal. lia. }
  apply (G formatted_data 0%nat []).
Qed.

Lemma count_successful_le (formatted_data : dict NormalizedValue) :
  (count_successful formatted_data <= List.length formatted_data)%nat.
Proof. apply filter_length_le. Qed.

Lemma percentage_returns (s t : nat) :
  (s <= t)%nat -> (0 < t)%nat ->
  exists q,
    Float.truediv (Z.of_nat s) (Z.of_nat t) = Ok q
    /\ percentage s t
       = Ok (Float.format_f false 1
               (Float.round (Float.mul q (Float.of_int 100)) 1) ++ "%").
Proof.
  intros Hle Ht. destruct (truediv_le s t Hle Ht) as [q [Hq Hb]].
  exists q. split; [exact Hq|].
  unfold percentage. rewrite Hq. cbn [bind].
  rewrite format_round_1 by (apply mul_100_bounded, Hb). reflexivity.
Qed.

(** C4: the summary is always built; its extraction rate is ["0%"] for an
    empty map, without any division, and otherwise the text, with one
    decimal and a final [%], of [round(successful / total * 100, 1)], where
    [successful] counts the entries with status [extracted] and a numeric
    value and [total] counts all entries. *)
Theorem C4_extraction_rate (formatted_data : dict NormalizedValue) :
  exists s,
    _create_summary formatted_data = SummaryOk s
    /\ total_attributes_processed s = List.length formatted_data
    /\ successful_extractions s = count_successful formatted_data
    /\ match formatted_data with
       | [] => extraction_rate s = "0%"
       | _ :: _ =>
           exists q,
             Float.truediv (Z.of_nat (count_successful formatted_data))
               (Z.of_nat (List.length formatted_data)) = Ok q
             /\ extraction_rate s
                = Float.format_f false 1
                    (Float.round (Float.mul q (Float.of_int 100)) 1) ++ "%"
       end.
Proof.
  unfold _create_summary, create_summary_body.
  rewrite collect_numeric_spec.
  destruct formatted_data as [|kv l] eqn:E.
  - cbn. eexists. repeat split.
  - rewrite <- E.
    assert (Hlen : (0 < List.length formatted_data)%nat) by (subst; cbn; lia).
    destruct (percentage_returns _ _ (count_successful_le formatted_data) Hlen)
      as [q [Hq Hp]].
    replace (Nat.ltb 0 (List.length formatted_data)) with true
      by (symmetry; apply Nat.ltb_lt; exact Hlen).
    rewrite Hp. cbn [bind]. eexists. split; [reflexivity|]. cbn.
    repeat split. exists q. split; [exact Hq | reflexivity].
Qed.

(** ** Sorting *)

Section StableSort.
Context {A : Type} (lt : A -> A -> bool).

(** The elements the order is consistent on. *)
Variable ok : A -> Prop.

Hypothesis lt_asym : forall a b, lt a b = true -> lt b a = false.
Hypothesis not_lt_trans :
  forall a b c, ok a -> ok b -> ok c ->
                lt a b = false -> lt b c = false -> lt a c = false.

Lemma insert_perm (x : A) (l : list A) : Permutation (x :: l) (insert lt x l).
Proof.
  induction l as [|y l IH]; cbn.
  - apply Permutation_refl.
  - destruct (lt y x).
    + eapply perm_trans; [apply perm_swap|]. apply perm_skip, IH.
    + apply Permutation_refl.
Qed.

Lemma stable_sort_perm (l : list A) : Permutation l (stable_sort lt l).
Proof.
  induction l as [|x l IH]; cbn.
  - apply perm_nil.
  - eapply perm_trans; [apply perm_skip, IH | apply insert_perm].
Qed.

Lemma insert_sorted (x : A) (l : list A) :
  ok x -> Forall ok l ->
  StronglySorted (ascending lt) l ->
  StronglySorted (ascending lt) (insert lt x l).
Proof.
  intros Hx Hok Hs. induction Hs as [|y l Hs IH Hy]; cbn.
  - constructor; constructor.
  - inversion Hok as [|? ? Hoky Hokl]; subst.
    destruct (lt y x) eqn:E.
    + constructor; [apply IH, Hokl|].
      apply Forall_forall. intros z Hz.
      apply (Permutation_in _ (Permutation_sym (insert_perm x l))) in Hz.
      destruct Hz as [<- | Hz].
      * apply lt_asym, E.
      * rewrite Forall_forall in Hy. apply Hy, Hz.
    + constructor; [constructor; assumption|].
      constructor; [exact E|].
      apply Forall_forall. intros z Hz.
      rewrite Forall_forall in Hy, Hokl.
      unfold ascending. apply (not_lt_trans z y x); auto.
      apply Hy, Hz.
Qed.

Lemma stable_sort_sorted (l : list A) :
  Forall ok l -> StronglySorted (ascending lt) (stable_sort lt l).
Proof.
  induction l as [|x l IH]; cbn; intros Hok.
  - constructor.
  - inversion Hok; subst. apply insert_sorted; auto.
    apply Forall_forall. intros z Hz.
    apply (Permutation_in _ (Permutation_sym (stable_sort_perm l))) in Hz.
    rewrite Forall_forall in H2. auto.
Qed.

(** Elements that [p] selects are not ordered among themselves, so sorting
    keeps them in their order. *)
Variable p : A -> bool.
Hypothesis p_unordered : forall a b, p a = true -> p b = true -> lt a b = false.

Lemma insert_filter (x : A) (l : list A) :
  filter p (insert lt x l) = filter p (x :: l).
Proof.
  induction l as [|y l IH]; [reflexivity|].
  cbn [insert]. destruct (lt y x) eqn:E; [|reflexivity].
  cbn [filter] in *. rewrite IH.
  destruct (p x) eqn:Px, (p y) eqn:Py; try reflexivity.
  rewrite (p_unordered y x Py Px) in E. discriminate.
Qed.

Lemma stable_sort_filter (l : list A) :
  filter p (stable_sort lt l) = filter p l.
Proof.
  induction l as [|x l IH]; [reflexivity|].
  cbn [stable_sort]. rewrite insert_filter. cbn [filter]. rewrite IH.
  reflexivity.
Qed.

Lemma sorted_snoc (R : A -> A -> Prop) (l : list A) (a : A) :
  StronglySorted R l -> Forall (fun x => R x a) l ->
  StronglySorted R (l ++ [a]).
Proof.
  induction 1 as [|y l Hs IH Hy]; cbn; intros Ha.
  - constructor; constructor.
  - inversion Ha; subst. constructor; [apply IH; assumption|].
    apply Forall_app. split; [exact Hy | constructor; [assumption|constructor]].
Qed.

Lemma sorted_rev (l : list A) :
  StronglySorted (ascending lt) l -> StronglySorted (descending lt) (rev l).
Proof.
  induction 1 as [|y l Hs IH Hy]; cbn.
  - constructor.
  - apply sorted_snoc; [exact IH|].
    apply Forall_forall. intros z Hz. apply in_rev in Hz.
    rewrite Forall_forall in Hy. apply Hy, Hz.
Qed.

(** [l.sort(reverse=True)]: a permutation, in descending order, that
    keeps the elements selected by [p] in their order. *)
Lemma list_sort_reverse_spec (l : list A) :
  Forall ok l ->
  Permutation l (list_sort lt true l)
  /\ StronglySorted (descending lt) (list_sort lt true l)
  /\ filter p (list_sort lt true l) = filter p l.
Proof.
  intros Hok. unfold list_sort. repeat split.
  - eapply perm_trans; [apply Permutation_rev|].
    eapply perm_trans; [apply stable_sort_perm|]. apply Permutation_rev.
  - apply sorted_rev, stable_sort_sorted.
    apply Forall_forall. intros z Hz. apply in_rev in Hz.
    rewrite Forall_forall in Hok. auto.
  - rewrite filter_rev, stable_sort_filter, filter_rev, rev_involutive.
    reflexivity.
Qed.
End StableSort.

Lemma numeric_entries_In (formatted_data : dict NormalizedValue) (tv : TopValue) :
  In tv (numeric_entries formatted_data) <->
  exists data,
    In (attribute tv, data) formatted_data
    /\ status data = extracted
    /\ numeric_value data = Some (value tv).
Proof.
  unfold numeric_entries. rewrite in_flat_map. split.
  - intros [[a d] [Hin H]]. cbn in H.
    destruct (status d) eqn:Es; cbn in H; try contradiction.
    destruct (numeric_value d) as [v|] eqn:En; [|contradiction].
    destruct H as [<- | []]. cbn. exists d. auto.
  - intros [d (Hin & Hs & Hn)]. exists (attribute tv, d).
    split; [exact Hin|]. cbn. rewrite Hs, Hn. cbn. left.
    destruct tv; reflexivity.
Qed.

Lemma summary_top_values (formatted_data : dict NormalizedValue) :
  exists s,
    _create_summary formatted_data = SummaryOk s
    /\ top_values s
       = firstn 5 (list_sort value_lt true (numeric_entries formatted_data)).
Proof.
  unfold _create_summary, create_summary_body.
  rewrite collect_numeric_spec.
  destruct formatted_data as [|kv l] eqn:E.
  - cbn. eexists. split; reflexivity.
  - rewrite <- E.
    assert (Hlen : (0 < List.length formatted_data)%nat) by (subst; cbn; lia).
    destruct (percentage_returns _ _ (count_successful_le formatted_data) Hlen)
      as [q [Hq Hp]].
    replace (Nat.ltb 0 (List.length formatted_data)) with true
      by (symmetry; apply Nat.ltb_lt; exact Hlen).
    rewrite Hp. cbn [bind]. eexists. split; reflexivity.
Qed.

Lemma equal_values_unordered (v : Float.float) (a b : TopValue) :
  Float.eqb (value a) v = true -> Float.eqb (value b) v = true ->
  value_lt a b = false.
Proof.
  intros Ha Hb. unfold value_lt.
  rewrite (eqb_ltb_l _ _ _ Ha), (eqb_ltb_r _ _ _ Hb). apply ltb_irrefl.
Qed.

(** C5, as the code has it: when no numeric value is a NaN, [top_values] is
    the first five elements of the successful extractions sorted by value in
    descending order, entries of equal value staying in encounter order; it
    has at most five elements, each the attribute and value of an entry with
    status [extracted] and a numeric value. *)
Theorem C5_top_values (formatted_data : dict NormalizedValue) :
  no_nan formatted_data ->
  exists s sorted,
    _create_summary formatted_data = SummaryOk s
    /\ top_values s = firstn 5 sorted
    /\ (List.length (top_values s) <= 5)%nat
    /\ Permutation (numeric_entries formatted_data) sorted
    /\ StronglySorted (descending value_lt) sorted
    /\ (forall v,
          filter (fun a => Float.eqb (value a) v) sorted
          = filter (fun a => Float.eqb (value a) v)
              (numeric_entries formatted_data))
    /\ (forall tv,
          In tv sorted <->
          exists data,
            In (attribute tv, data) formatted_data
            /\ status data = extracted
            /\ numeric_value data = Some (value tv)).
Proof.
  intros Hnan.
  destruct (summary_top_values formatted_data) as [s [Hs Ht]].
  exists s, (list_sort value_lt true (numeric_entries formatted_data)).
  assert (Hok : Forall (fun a => Float.is_nan (value a) = false)
                  (numeric_entries formatted_data)).
  { apply Forall_forall. intros tv Htv. apply numeric_entries_In in Htv.
    destruct Htv as [d (Hin & _ & Hn)].
    destruct (value tv) eqn:Ev; try reflexivity.
    exfalso. apply (Hnan _ _ Hin). exact Hn. }
  assert (Hspec : forall v,
             Permutation (numeric_entries formatted_data)
               (list_sort value_lt true (numeric_entries formatted_data))
             /\ StronglySorted (descending value_lt)
                  (list_sort value_lt true (numeric_entries formatted_data))
             /\ filter (fun a => Float.eqb (value a) v)
                  (list_sort value_lt true (numeric_entries formatted_data))
                = filter (fun a => Float.eqb (value a) v)
                    (numeric_entries formatted_data)).
  { intros v.
    apply (list_sort_reverse_spec value_lt
             (fun a => Float.is_nan (value a) = false)).
    - intros a b. apply ltb_asym.
    - intros a b c Ha Hb Hc. apply not_ltb_trans; assumption.
    - apply equal_values_unordered.
    - exact Hok. }
  destruct (Hspec Float.NaN) as (Hperm & Hsorted & _).
  repeat split; try assumption.
  - rewrite Ht. rewrite length_firstn. lia.
  - intros v. apply (Hspec v).
  - intros Hin. apply numeric_entries_In.
    apply (Permutation_in _ (Permutation_sym Hperm)), Hin.
  - intros Hd. apply (Permutation_in _ Hperm).
    apply numeric_entries_In, Hd.
Qed.

(** C5 fails as stated: a NaN among the values leaves a smaller value
    before a greater one. *)
Lemma C5_counterexample_nan :
  let formatted_data :=
    format_all [("a", RStr "1"); ("b", RStr "nan"); ("c", RStr "2")] in
  exists s,
    _create_summary formatted_data = SummaryOk s
    /\ top_values s
       = [ {| attribute := "a"; value := Float.Fin false 4503599627370496 (-52) |};
           {| attribute := "b"; value := Float.NaN |};
           {| attribute := "c"; value := Float.Fin false 4503599627370496 (-51) |} ]
    /\ ~ StronglySorted (descending value_lt) (top_values s).
Proof.
  eexists. split; [vm_compute; reflexivity|]. split; [reflexivity|].
  cbn [top_values]. intros H.
  inversion H as [|? ? _ Hall]; subst.
  inversion Hall as [|? ? _ Hall']; subst.
  inversion Hall' as [|? ? Hlt _]; subst.
  vm_compute in Hlt. discriminate.
Qed.

(** ** Signed decimal numbers are numbers for [float] *)

Lemma rstrip_by_id (space : ascii -> bool) (s : string) :
  all_chars (fun c => negb (space c)) s = true -> Py.rstrip_by space s = s.
Proof.
  induction s as [|c s IH]; cbn; [reflexivity|].
  intros H. apply andb_prop in H. destruct H as [Hc Hs].
  rewrite (IH Hs). destruct s; [|reflexivity].
  destruct (space c); [discriminate | reflexivity].
Qed.

Lemma lstrip_by_id (space : ascii -> bool) (s : string) :
  all_chars (fun c => negb (space c)) s = true -> Py.lstrip_by space s = s.
Proof.
  destruct s as [|c s]; cbn; [reflexivity|].
  intros H. apply andb_prop in H. destruct H as [Hc _].
  destruct (space c); [discriminate | reflexivity].
Qed.

Lemma del_underscores_id (s : string) :
  forall prev,
    Ascii.eqb prev "_" = false ->
    all_chars (fun c => negb (Ascii.eqb c "_")) s = true ->
    Parse.del_underscores prev s = Some s.
Proof.
  induction s as [|c s IH]; cbn; intros prev Hp H.
  - rewrite Hp. reflexivity.
  - apply andb_prop in H. destruct H as [Hc Hs].
    apply negb_true_iff in Hc. rewrite Hc, Hp. cbn.
    rewrite (IH c Hc Hs). reflexivity.
Qed.

Lemma all_chars_impl (p q : ascii -> bool) (s : string) :
  (forall c, p c = true -> q c = true) ->
  all_chars p s = true -> all_chars q s = true.
Proof.
  intros Hpq. induction s as [|c s IH]; cbn; [reflexivity|].
  intros H. apply andb_prop in H. destruct H as [Hc Hs].
  rewrite (Hpq c Hc), (IH Hs). reflexivity.
Qed.

Lemma skip_while_all (p : ascii -> bool) (s : string) :
  all_chars p s = true -> skip_while p s = "".
Proof.
  induction s as [|c s IH]; cbn; [reflexivity|].
  intros H. apply andb_prop in H. destruct H as [-> Hs]. auto.
Qed.

(** The characters that [skip_while] drops satisfy the predicate. *)
Lemma skip_while_split (p : ascii -> bool) (s : string) :
  exists d, s = d ++ skip_while p s /\ all_chars p d = true.
Proof.
  induction s as [|c s IH]; cbn.
  - exists "". split; reflexivity.
  - destruct (p c) eqn:E.
    + destruct IH as [d [Hd Hp]]. exists (String c d). cbn.
      rewrite E, Hp. split; [congruence | reflexivity].
    + exists "". split; reflexivity.
Qed.

(** [Parse.digits] reads the digits that [skip_while] drops, and counts
    them. *)
Lemma digits_spec (s : string) :
  forall acc n,
    exists acc' k,
      Parse.digits acc n s = (acc', n + k, skip_while Py.is_digit s)
      /\ 0 <= k
      /\ (k = 0 -> skip_while Py.is_digit s = s).
Proof.
  induction s as [|c s IH]; cbn [Parse.digits skip_while]; intros acc n.
  - exists acc, 0. rewrite Z.add_0_r. auto with zarith.
  - destruct (Py.is_digit c) eqn:E.
    + destruct (IH (10 * acc + Py.digit_val c) (n + 1)) as (a & k & H & Hk & _).
      exists a, (1 + k). rewrite H. split; [f_equal; f_equal; lia|].
      split; lia.
    + exists acc, 0. rewrite Z.add_0_r. auto with zarith.
Qed.

Lemma round_ratio_is_number (neg : bool) (p q : Z) :
  Float.is_nan (Float.round_ratio neg p q) = false.
Proof.
  unfold Float.round_ratio.
  repeat match goal with
         | |- context [if ?c then _ else _] => destruct c
         end; reflexivity.
Qed.

Lemma of_decimal_is_number (neg : bool) (m x : Z) :
  Float.is_nan (Parse.of_decimal neg m x) = false.
Proof.
  unfold Parse.of_decimal. destruct (0 <=? x); apply round_ratio_is_number.
Qed.

Lemma digit_or_point_plain (c : ascii) :
  digit_or_point c = true ->
  Parse.is_float_space c = false
  /\ Ascii.eqb c "_" = false
  /\ Py.lower c = c
  /\ Ascii.eqb c "i" = false
  /\ Ascii.eqb c "n" = false.
Proof.
  destruct c as [[] [] [] [] [] [] [] []]; cbn; intros H;
    try discriminate; repeat split.
Qed.

Lemma sign_plain (c : ascii) :
  Ascii.eqb c "-" || Ascii.eqb c "+" = true ->
  Parse.is_float_space c = false /\ Ascii.eqb c "_" = false.
Proof.
  destruct c as [[] [] [] [] [] [] [] []]; cbn; intros H;
    try discriminate; repeat split.
Qed.

Lemma sign_cases (s : string) :
  (exists t, s = String "-" t /\ Parse.sign s = (true, t)
             /\ unsigned_part s = t)
  \/ (exists t, s = String "+" t /\ Parse.sign s = (false, t)
                /\ unsigned_part s = t)
  \/ (Parse.sign s = (false, s) /\ unsigned_part s = s).
Proof.
  destruct s as [|c t]; [right; right; split; reflexivity|].
  destruct c as [[] [] [] [] [] [] [] []];
    try (right; right; split; reflexivity).
  - right. left. exists t. repeat split.
  - left. exists t. repeat split.
Qed.

Lemma unsigned_decimal_chars (u : string) :
  unsigned_decimal u = true ->
  all_chars digit_or_point u = true /\ u <> "".
Proof.
  unfold unsigned_decimal. intros H.
  destruct (skip_while_split Py.is_digit u) as [d [Hu Hd]].
  assert (Hd' : all_chars digit_or_point d = true).
  { apply (all_chars_impl Py.is_digit); [|exact Hd].
    intros c Hc. unfold digit_or_point. rewrite Hc. reflexivity. }
  destruct (skip_while Py.is_digit u) as [|c t] eqn:E.
  - split.
    + rewrite Hu, all_chars_app, Hd'. reflexivity.
    + intros ->. discriminate.
  - destruct (Ascii.eqb c ".") eqn:Ec.
    + apply Ascii.eqb_eq in Ec. subst c.
      apply andb_prop in H. destruct H as [Ht _]. split.
      * rewrite Hu, all_chars_app, Hd'. cbn.
        apply (all_chars_impl Py.is_digit); [|exact Ht].
        intros c Hc. unfold digit_or_point. rewrite Hc. reflexivity.
      * intros ->. discriminate.
    + exfalso. destruct c as [[] [] [] [] [] [] [] []];
        cbn in Ec, H; first [discriminate Ec | discriminate H].
Qed.

Lemma unsigned_decimal_parses (u : string) :
  unsigned_decimal u = true -> exists m x, Parse.decimal u = Some (m, x).
Proof.
  unfold unsigned_decimal, Parse.decimal. intros H.
  destruct (digits_spec u 0 0) as (i & k & -> & Hk & Hk0).
  destruct (skip_while Py.is_digit u) as [|c t] eqn:E.
  - assert (k <> 0).
    { intros ->. rewrite <- (Hk0 eq_refl) in H. discriminate. }
    replace (0 + k + 0 =? 0) with false by (symmetry; apply Z.eqb_neq; lia).
    cbn. eauto.
  - destruct (Ascii.eqb c ".") eqn:Ec.
    + apply Ascii.eqb_eq in Ec. subst c.
      apply andb_prop in H. destruct H as [Ht Hne].
      destruct (digits_spec t i 0) as (m & k2 & -> & Hk2 & Hk20).
      rewrite (skip_while_all _ _ Ht) in *.
      assert (k + k2 <> 0).
      { intros Hz. assert (k = 0) by lia. assert (k2 = 0) by lia.
        rewrite <- (Hk20 H0) in Hk0. rewrite <- (Hk0 H) in Hne.
        discriminate. }
      replace (0 + k + (0 + k2) =? 0) with false
        by (symmetry; apply Z.eqb_neq; lia).
      cbn. eauto.
    + exfalso. destruct c as [[] [] [] [] [] [] [] []];
        cbn in Ec, H; first [discriminate Ec | discriminate H].
Qed.

Lemma lower_plain (u : string) :
  all_chars digit_or_point u = true -> Parse.lower u = u.
Proof.
  induction u as [|c u IH]; cbn; [reflexivity|].
  intros H. apply andb_prop in H. destruct H as [Hc Hu].
  destruct (digit_or_point_plain c Hc) as (_ & _ & -> & _).
  rewrite (IH Hu). reflexivity.
Qed.

Lemma number_of_decimal (s u : string) (neg : bool) :
  Parse.sign s = (neg, u) -> unsigned_decimal u = true ->
  exists m x, Parse.number s = Some (Parse.of_decimal neg m x).
Proof.
  intros Hs H.
  destruct (unsigned_decimal_parses u H) as (m & x & Hd).
  destruct (unsigned_decimal_chars u H) as [Hc Hne].
  exists m, x. unfold Parse.number. rewrite Hs, (lower_plain u Hc), Hd.
  destruct u as [|c u]; [congruence|].
  cbn in Hc. apply andb_prop in Hc. destruct Hc as [Hc _].
  destruct (digit_or_point_plain c Hc) as (_ & _ & _ & Hi & Hn).
  cbn [String.eqb]. rewrite Hi, Hn. reflexivity.
Qed.

Lemma signed_decimal_chars (s : string) :
  signed_decimal s = true ->
  all_chars (fun c => negb (Parse.is_float_space c)) s = true
  /\ all_chars (fun c => negb (Ascii.eqb c "_")) s = true.
Proof.
  unfold signed_decimal. intros H.
  destruct (unsigned_decimal_chars _ H) as [Hc _].
  assert (Hu : all_chars (fun c => negb (Parse.is_float_space c))
                 (unsigned_part s) = true
               /\ all_chars (fun c => negb (Ascii.eqb c "_"))
                    (unsigned_part s) = true).
  { split; apply (all_chars_impl digit_or_point); try exact Hc;
      intros c Hp; destruct (digit_or_point_plain c Hp) as (H1 & H2 & _);
      rewrite ?H1, ?H2; reflexivity. }
  destruct (sign_cases s) as [(t & -> & _ & Ht) | [(t & -> & _ & Ht) | [_ Ht]]];
    rewrite Ht in Hu; [| |exact Hu]; cbn; destruct Hu as [-> ->];
    split; reflexivity.
Qed.

(** Every signed decimal number is a number for [float], and not a NaN. *)
Lemma signed_decimal_parses (s : string) :
  signed_decimal s = true ->
  exists x, Parse.float_of_str s = Ok x /\ Float.is_nan x = false.
Proof.
  intros H. destruct (signed_decimal_chars s H) as [Hsp Hun].
  unfold Parse.float_of_str.
  rewrite (lstrip_by_id _ _ Hsp), (rstrip_by_id _ _ Hsp).
  rewrite (del_underscores_id s zero eq_refl Hun).
  assert (Hn : exists neg m x,
             Parse.number s = Some (Parse.of_decimal neg m x)).
  { unfold signed_decimal in H.
    destruct (sign_cases s)
      as [(t & _ & Hs & Ht) | [(t & _ & Hs & Ht) | [Hs Ht]]];
      rewrite Ht in H;
      destruct (number_of_decimal _ _ _ Hs H) as (m & x & Hm); eauto. }
  destruct Hn as (neg & m & x & ->).
  eexists. split; [reflexivity | apply of_decimal_is_number].
Qed.

(** On the whole of the domain of C1 the normaliser answers [extracted]
    with the parsed number and the currency [USD]; the formatted value
    matches the pattern when the number is finite and not negative zero. *)
Lemma signed_decimal_extracted (value : Raw) :
  signed_decimal (clean value) = true ->
  exists x,
    Parse.float_of_str (clean value) = Ok x
    /\ _format_value value =
         {| raw_value := value;
            formatted_value := Some (format_currency x);
            numeric_value := Some x;
            currency := Some "USD";
            status := extracted |}
    /\ (Float.is_finite x = true -> x <> Float.Zero true ->
        money_pattern (format_currency x) = true).
Proof.
  intros H. destruct (signed_decimal_parses _ H) as [x [Hx _]].
  exists x. split; [exact Hx|]. split.
  - destruct (format_value_cases value)
      as [[G _] | [[_ [y [Hy ->]]] | [_ [[msg Hm] _]]]].
    + exfalso. apply guard_values in G.
      destruct G as [-> | [-> | [-> | ->]]]; vm_compute in Hx; discriminate.
    + rewrite Hx in Hy. inversion Hy. reflexivity.
    + rewrite Hx in Hm. discriminate.
  - apply format_currency_pattern.
Qed.

(** ** Instances on the sample inputs *)

Lemma sample_data_wf : dict_wf sample_data.
Proof.
  unfold dict_wf. vm_compute.
  repeat (constructor; [cbn; intuition discriminate|]). constructor.
Qed.

Lemma sample_data_no_nan : no_nan sample_data.
Proof.
  intros attr data Hin. vm_compute in Hin.
  repeat (destruct Hin as [Hin | Hin]; [inversion Hin; discriminate|]).
  contradiction.
Qed.

Lemma C5_top_values_witness :
  no_nan sample_data
  /\ exists s sorted,
       _create_summary sample_data = SummaryOk s
       /\ top_values s = firstn 5 sorted
       /\ Permutation (numeric_entries sample_data) sorted
       /\ StronglySorted (descending value_lt) sorted.
Proof.
  split; [exact sample_data_no_nan|].
  destruct (C5_top_values sample_data sample_data_no_nan)
    as (s & sorted & H1 & H2 & _ & H4 & H5 & _).
  exists s, sorted. auto.
Defined.

Lemma C6_pair_rules_witness :
  (filter about_quoted_limit
     (warnings (_validate_data_consistency sample_data))
   = ["Quoted Amount ($5,000,000.00) differs from Limit Amount ($4,900,000.00)"]
   /\ validation_status (_validate_data_consistency sample_data) = st_warnings)
  /\ filter (is_check "Premium due vs Annual Premium")
       (consistency_checks (_validate_data_consistency sample_data))
     = [{| check := "Premium due vs Annual Premium";
           check_status := "consistent";
           message := "Premium due equals Annual Premium" |}]
  /\ formatted_value (_format_value (RStr "$5,000,000"))
     = Some "$5,000,000.00".
Proof.
  split; [|split].
  - destruct (C6_pair_rules sample_data
                (_format_value (RStr "$5,000,000"))
                (_format_value (RStr "4900000 USD"))
                (Float.of_int 5000000) (Float.of_int 4900000)
                sample_data_wf eq_refl eq_refl eq_refl eq_refl) as [HA _].
    destruct (HA eq_refl eq_refl) as [_ Hdiff].
    destruct (Hdiff eq_refl) as (Hw & _ & _ & Hst).
    split; [exact Hw | exact Hst].
  - destruct (C6_pair_rules sample_data
                (_format_value (RStr "1200.50"))
                (_format_value (RStr "1,200.5"))
                (Float.round_ratio false 12005 10)
                (Float.round_ratio false 12005 10)
                sample_data_wf eq_refl eq_refl eq_refl eq_refl)
      as [_ [HB _]].
    destruct (HB eq_refl eq_refl) as [Hsame _].
    destruct (Hsame eq_refl) as [Hc _]. exact Hc.
  - destruct (C6_pair_rules sample_data
                (_format_value (RStr "$5,000,000"))
                (_format_value (RStr "4900000 USD"))
                (Float.of_int 5000000) (Float.of_int 4900000)
                sample_data_wf eq_refl eq_refl eq_refl eq_refl)
      as (_ & _ & Hf & _).
    exact (Hf (RStr "$5,000,000") eq_refl eq_refl).
Defined.

Lemma C7_total_insured_value_range_witness :
  filter about_total_insured_value
    (warnings (_validate_data_consistency sample_data))
  = ["Total Insured Value seems low: $500,000.00"].
Proof.
  destruct (C7_total_insured_value_range sample_data
              (_format_value (RStr "500000")) (Float.of_int 500000)
              sample_data_wf eq_refl eq_refl eq_refl) as [Hlow _].
  exact (Hlow eq_refl).
Defined.

Lemma C8_final_status_witness :
  validation_status (_validate_data_consistency sample_data) = st_warnings
  /\ Loose._validate_data_consistency sample_any_data
     = {| validation_status := st_error;
          warnings :=
            ["Quoted Amount ($5,000,000.00) differs from Limit Amount ($4,900,000.00)"];
          errors :=
            ["Validation error: '<' not supported between instances of 'str' and 'int'"];
          consistency_checks := [] |}.
Proof.
  destruct (C8_final_status sample_data sample_any_data)
    as (Hst & _ & _ & _ & Hraised & _).
  split; [exact Hst|].
  exact (Hraised
           {| validation_status := st_passed;
              warnings :=
                ["Quoted Amount ($5,000,000.00) differs from Limit Amount ($4,900,000.00)"];
              errors := [];
              consistency_checks := [] |}
           (TypeError "'<' not supported between instances of 'str' and 'int'")
           eq_refl).
Defined.

Lemma C9_comparison_witness :
  create_comparison_report "2024-01-01T00:00:00" [] =
    ComparisonError "Need at least 2 extractions for comparison"
  /\ exists c,
       create_comparison_report "2024-01-01T00:00:00" sample_extractions
       = ComparisonOk c
       /\ total_documents c = 3%nat
       /\ dict_wf (attribute_comparison c).
Proof.
  split.
  - destruct (C9_comparison "2024-01-01T00:00:00" []) as [Hfew _].
    apply Hfew. cbn. lia.
  - destruct (C9_comparison "2024-01-01T00:00:00" sample_extractions)
      as [_ Hmany].
    destruct (Hmany ltac:(cbn; lia)) as (c & Hc & Ht & Hwf & _).
    exists c. auto.
Defined.

(** ** Key metrics *)

Lemma fold_metrics_other (formatted_data : dict NormalizedValue)
  (l : list (string * string)) (k : string) :
  ~ In k (map snd l) ->
  forall acc,
    dict_get
      (fold_left
         (fun metrics '(original_key, standard_key) =>
            match dict_get formatted_data original_key with
            | Some data =>
                if status_eqb (status data) extracted
                then dict_set metrics standard_key
                       {| metric_value := numeric_value data;
                          metric_formatted := formatted_value data |}
                else metrics
            | None => metrics
            end) l acc) k
    = dict_get acc k.
Proof.
  induction l as [|[o s] l IH]; cbn; intros Hk acc; [reflexivity|].
  rewrite IH by tauto.
  assert (Hne : String.eqb s k = false).
  { apply String.eqb_neq. intros ->. tauto. }
  destruct (dict_get formatted_data o) as [d|]; [|reflexivity].
  destruct (status_eqb (status d) extracted); [|reflexivity].
  rewrite dict_get_set, Hne. reflexivity.
Qed.

Lemma fold_metrics_wf (formatted_data : dict NormalizedValue)
  (l : list (string * string)) :
  forall acc,
    dict_wf acc ->
    dict_wf
      (fold_left
         (fun metrics '(original_key, standard_key) =>
            match dict_get formatted_data original_key with
            | Some data =>
                if status_eqb (status data) extracted
                then dict_set metrics standard_key
                       {| metric_value := numeric_value data;
                          metric_formatted := formatted_value data |}
                else metrics
            | None => metrics
            end) l acc).
Proof.
  induction l as [|[o s] l IH]; cbn; intros acc Hwf; [exact Hwf|].
  apply IH.
  destruct (dict_get formatted_data o) as [d|]; [|exact Hwf].
  destruct (status_eqb (status d) extracted); [|exact Hwf].
  apply dict_set_wf, Hwf.
Qed.

Lemma fold_metrics_get (formatted_data : dict NormalizedValue)
  (l : list (string * string)) :
  NoDup (map snd l) ->
  forall acc,
    (forall s, In s (map snd l) -> dict_get acc s = None) ->
    forall o s,
      In (o, s) l ->
      dict_get
        (fold_left
           (fun metrics '(original_key, standard_key) =>
              match dict_get formatted_data original_key with
              | Some data =>
                  if status_eqb (status data) extracted
                  then dict_set metrics standard_key
                         {| metric_value := numeric_value data;
                            metric_formatted := formatted_value data |}
                  else metrics
              | None => metrics
              end) l acc) s
      = metric_of formatted_data o.
Proof.
  induction l as [|[o1 s1] l IH]; cbn; intros Hnd acc Hacc o s Hin.
  - contradiction.
  - inversion Hnd as [|? ? Hnot Hnd']; subst.
    destruct Hin as [Heq | Hin].
    + inversion Heq; subst o1 s1.
      rewrite fold_metrics_other by exact Hnot.
      unfold metric_of.
      destruct (dict_get formatted_data o) as [d|]; [|apply Hacc; auto].
      destruct (status_eqb (status d) extracted); [|apply Hacc; auto].
      rewrite dict_get_set, String.eqb_refl. reflexivity.
    + apply IH; [exact Hnd'| |exact Hin].
      intros s' Hs'.
      assert (Hne : String.eqb s1 s' = false).
      { apply String.eqb_neq. intros ->. contradiction. }
      destruct (dict_get formatted_data o1) as [d|]; [|apply Hacc; auto].
      destruct (status_eqb (status d) extracted); [|apply Hacc; auto].
      rewrite dict_get_set, Hne. apply Hacc. auto.
Qed.

Lemma key_mappings_distinct : NoDup (map snd key_mappings).
Proof.
  cbn. repeat (constructor; [cbn; intuition discriminate|]). constructor.
Qed.

(** X1: the key metrics hold, under the standard key of each canonical
    label, the numeric and formatted value of the entry with that label
    when the entry is present with status [extracted], and nothing
    otherwise; no other key is ever set, and no key twice. *)
Theorem key_metrics_lookup (formatted_data : dict NormalizedValue) :
  (forall original_key standard_key,
     In (original_key, standard_key) key_mappings ->
     dict_get (_extract_key_metrics formatted_data) standard_key
     = metric_of formatted_data original_key)
  /\ (forall k,
        ~ In k (map snd key_mappings) ->
        dict_get (_extract_key_metrics formatted_data) k = None)
  /\ dict_wf (_extract_key_metrics formatted_data)
  /\ (List.length (_extract_key_metrics formatted_data) <= 9)%nat.
Proof.
  unfold _extract_key_metrics. repeat split.
  - intros o s Hin.
    apply (fold_metrics_get formatted_data key_mappings
             key_mappings_distinct []); [reflexivity | exact Hin].
  - intros k Hk. rewrite fold_metrics_other by exact Hk. reflexivity.
  - apply fold_metrics_wf. constructor.
  - assert (G : forall l acc,
               (List.length
                  (fold_left
                     (fun metrics '(original_key, standard_key) =>
                        match dict_get formatted_data original_key with
                        | Some data =>
                            if status_eqb (status data) extracted
                            then dict_set metrics standard_key
                                   {| metric_value := numeric_value data;
                                      metric_formatted := formatted_value data |}
                            else metrics
                        | None => metrics
                        end) l acc)
                <= List.length acc + List.length l)%nat).
    { induction l as [|[o s] l IH]; cbn; intros acc; [lia|].
      eapply Nat.le_trans; [apply IH|].
      assert (Hset : forall (m : Metric),
                 (List.length (dict_set acc s m) <= S (List.length acc))%nat).
      { intros m. clear. induction acc as [|[k v] acc IHa]; cbn; [lia|].
        destruct (String.eqb k s); cbn; lia. }
      destruct (dict_get formatted_data o) as [d|]; [|lia].
      destruct (status_eqb (status d) extracted); [|lia].
      specialize (Hset {| metric_value := numeric_value d;
                          metric_formatted := formatted_value d |}). lia. }
    apply (G key_mappings []).
Qed.

(** ** The validator on any map *)

Ltac validator_blind :=
  unfold _validate_data_consistency, validation_body, try_block, seq_block,
    check_quoted_limit, check_premium, check_total_insured_value;
  repeat match goal with
         | |- context [dict_get ?d ?k] => destruct (dict_get d k)
         end;
  repeat match goal with
         | |- context [Float.eqb ?a ?b] => destruct (Float.eqb a b)
         | |- context [Float.ltb ?a ?b] => destruct (Float.ltb a b)
         | |- context [Float.gtb ?a ?b] => destruct (Float.gtb a b)
         end.

(** X2: the validator never records an error: its status is [passed] or
    [warnings], never [failed] or [error]; it is [passed] exactly when there
    is no warning; and there are at most three warnings and two consistency
    checks. *)
Theorem validator_never_fails (formatted_data : dict NormalizedValue) :
  let validation := _validate_data_consistency formatted_data in
  errors validation = []
  /\ (validation_status validation = st_passed
      \/ validation_status validation = st_warnings)
  /\ (validation_status validation = st_passed <-> warnings validation = [])
  /\ (List.length (warnings validation) <= 3)%nat
  /\ (List.length (consistency_checks validation) <= 2)%nat.
Proof.
  cbv zeta. validator_blind; cbn;
    repeat split; auto; try discriminate; try lia.
Qed.

(** X3: the validation depends on the map only through the numeric values
    of five attributes: two maps that agree on them are validated alike. *)
Theorem validator_reads_five_attributes
  (formatted_data formatted_data' : dict NormalizedValue) :
  dict_wf formatted_data -> dict_wf formatted_data' ->
  (forall attr,
     In attr ["Quoted Amount"; "Limit Amount"; "Premium due";
              "Annual Premium"; "Total Insured Value"] ->
     numeric_of formatted_data attr = numeric_of formatted_data' attr) ->
  _validate_data_consistency formatted_data
  = _validate_data_consistency formatted_data'.
Proof.
  intros Hwf Hwf' Hsame.
  unfold _validate_data_consistency, validation_body, try_block, seq_block,
    check_quoted_limit, check_premium, check_total_insured_value.
  rewrite !numeric_values_of_get by assumption.
  rewrite !(Hsame _) by (cbn; tauto).
  reflexivity.
Qed.

(** X4: a rule whose attribute is missing, or was not extracted as a
    number, says nothing: no warning and no consistency check of the pair
    rules when one amount of the pair is missing, no range warning when
    "Total Insured Value" is. *)
Theorem validator_silent_on_missing (formatted_data : dict NormalizedValue) :
  dict_wf formatted_data ->
  let validation := _validate_data_consistency formatted_data in
  (numeric_of formatted_data "Quoted Amount" = None
   \/ numeric_of formatted_data "Limit Amount" = None ->
   filter about_quoted_limit (warnings validation) = []
   /\ filter (is_check "Quoted Amount vs Limit Amount")
        (consistency_checks validation) = [])
  /\ (numeric_of formatted_data "Premium due" = None
      \/ numeric_of formatted_data "Annual Premium" = None ->
      filter about_premium (warnings validation) = []
      /\ filter (is_check "Premium due vs Annual Premium")
           (consistency_checks validation) = [])
  /\ (numeric_of formatted_data "Total Insured Value" = None ->
      filter about_total_insured_value (warnings validation) = []).
Proof.
  intros Hwf validation. subst validation. split; [|split].
  - intros [H | H]; validator_cases formatted_data; cbn; auto.
  - intros [H | H]; validator_cases formatted_data; cbn; auto.
  - intros H; validator_cases formatted_data; cbn; auto.
Qed.

(** X5: a NaN is never consistent and never out of range: when either
    amount of a pair is a NaN, whichever of the two and whatever the other,
    the rule gives the warning with both amounts, the NaN written [$nan],
    and no check; a NaN "Total Insured Value" gives no range warning. *)
Theorem validator_on_nan (formatted_data : dict NormalizedValue)
  (x y : Float.float) :
  dict_wf formatted_data ->
  Float.is_nan x || Float.is_nan y = true ->
  let validation := _validate_data_consistency formatted_data in
  (numeric_of formatted_data "Quoted Amount" = Some x ->
   numeric_of formatted_data "Limit Amount" = Some y ->
   filter about_quoted_limit (warnings validation)
   = ["Quoted Amount (" ++ dollars x
      ++ ") differs from Limit Amount (" ++ dollars y ++ ")"]
   /\ filter (is_check "Quoted Amount vs Limit Amount")
        (consistency_checks validation) = [])
  /\ (numeric_of formatted_data "Premium due" = Some x ->
      numeric_of formatted_data "Annual Premium" = Some y ->
      filter about_premium (warnings validation)
      = ["Premium due (" ++ dollars x
         ++ ") differs from Annual Premium (" ++ dollars y ++ ")"]
      /\ filter (is_check "Premium due vs Annual Premium")
           (consistency_checks validation) = [])
  /\ (numeric_of formatted_data "Total Insured Value" = Some Float.NaN ->
      filter about_total_insured_value (warnings validation) = [])
  /\ dollars Float.NaN = "$nan".
Proof.
  intros Hwf Hnan validation. subst validation.
  assert (E1 : Float.eqb x y = false).
  { destruct x, y; cbn in Hnan; try discriminate Hnan; reflexivity. }
  assert (E3 : Float.ltb Float.NaN (Float.of_int 1000000) = false)
    by reflexivity.
  assert (E4 : Float.gtb Float.NaN (Float.of_int 100000000000) = false)
    by reflexivity.
  split; [|split; [|split]].
  - intros H1 H2; validator_cases formatted_data; cbn; auto.
  - intros H1 H2; validator_cases formatted_data; cbn; auto.
  - intros H1; validator_cases formatted_data; cbn; auto.
  - reflexivity.
Qed.

(** ** The normaliser on any value *)

(** X6: the normaliser keeps the raw value as it was given, whatever the
    status; the status is [not_found] exactly for [None], the empty string
    and the two sentinels, and exactly then there is no formatted value. *)
Theorem not_found_iff_empty_or_sentinel (value : Raw) :
  raw_value (_format_value value) = value
  /\ (status (_format_value value) = not_found <->
      value = RNone \/ value = RStr "" \/ value = RStr "NOT_FOUND"
      \/ value = RStr "ERROR")
  /\ (formatted_value (_format_value value) = None <->
      status (_format_value value) = not_found).
Proof.
  destruct (format_value_cases value)
    as [[G ->] | [[G [x [_ ->]]] | [G [_ ->]]]]; cbn.
  - split; [reflexivity|]. split; [|tauto].
    split; [intros _; apply guard_values, G | reflexivity].
  - split; [reflexivity|]. split; split; try discriminate.
    intros [-> | [-> | [-> | ->]]]; discriminate.
  - split; [reflexivity|]. split; split; try discriminate.
    intros [-> | [-> | [-> | ->]]]; discriminate.
Qed.

Lemma replace_from_chars (c : ascii) (old s : string) :
  forall skip,
    Py.contains_char c s = false ->
    Py.contains_char c (Py.replace_from skip old "" s) = false.
Proof.
  induction s as [|d s IH]; intros skip; cbn [Py.replace_from Py.contains_char];
    [reflexivity|].
  intros H. apply orb_false_elim in H. destruct H as [Hd Hs].
  destruct skip as [|k]; [|apply IH, Hs].
  destruct (prefix old (String d s)).
  - cbn [append]. apply IH, Hs.
  - cbn [Py.contains_char]. rewrite Hd. cbn. apply IH, Hs.
Qed.

Lemma replace_char_removes (c : ascii) (s : string) :
  Py.contains_char c (Py.replace s (String c "") "") = false.
Proof.
  unfold Py.replace. induction s as [|d s IH]; [reflexivity|].
  cbn [Py.replace_from prefix String.length Nat.pred].
  destruct (Ascii.ascii_dec c d) as [<- | Hne].
  - replace (prefix "" s) with true by (destruct s; reflexivity).
    cbn [append]. exact IH.
  - cbn [Py.contains_char].
    assert (E : Ascii.eqb c d = false) by (apply Ascii.eqb_neq; exact Hne).
    rewrite E. cbn [orb]. exact IH.
Qed.

Lemma lstrip_by_chars (space : ascii -> bool) (c : ascii) (s : string) :
  Py.contains_char c s = false ->
  Py.contains_char c (Py.lstrip_by space s) = false.
Proof.
  induction s as [|d s IH]; cbn [Py.lstrip_by]; [reflexivity|].
  intros H. destruct (space d); [|exact H].
  cbn in H. apply orb_false_elim in H. apply IH. tauto.
Qed.

Lemma rstrip_by_chars (space : ascii -> bool) (c : ascii) (s : string) :
  Py.contains_char c s = false ->
  Py.contains_char c (Py.rstrip_by space s) = false.
Proof.
  induction s as [|d s IH]; cbn [Py.rstrip_by]; [reflexivity|].
  intros H. cbn in H. apply orb_false_elim in H. destruct H as [Hd Hs].
  specialize (IH Hs).
  destruct (Py.rstrip_by space s) as [|e t].
  - destruct (space d); cbn; [reflexivity|]. rewrite Hd. reflexivity.
  - cbn [Py.contains_char] in *. rewrite Hd. exact IH.
Qed.

Lemma rstrip_by_idem (space : ascii -> bool) (s : string) :
  Py.rstrip_by space (Py.rstrip_by space s) = Py.rstrip_by space s.
Proof.
  induction s as [|d s IH]; cbn [Py.rstrip_by]; [reflexivity|].
  destruct (Py.rstrip_by space s) as [|e t] eqn:E.
  - destruct (space d) eqn:Ed; cbn [Py.rstrip_by]; [reflexivity|].
    rewrite Ed. reflexivity.
  - cbn [Py.rstrip_by]. cbn [Py.rstrip_by] in IH.
    destruct (Py.rstrip_by space t) as [|e' t'].
    + destruct (space e); [discriminate|]. inversion IH; subst. reflexivity.
    + inversion IH; subst. reflexivity.
Qed.

(** Stripping on the right keeps a first character that is not white
    space. *)
Lemma rstrip_by_head (space : ascii -> bool) (d : ascii) (s : string) :
  space d = false ->
  exists t, Py.rstrip_by space (String d s) = String d t.
Proof.
  intros Hd. cbn [Py.rstrip_by].
  destruct (Py.rstrip_by space s) as [|e t]; [rewrite Hd|]; eauto.
Qed.

Lemma lstrip_by_head (space : ascii -> bool) (s : string) :
  Py.lstrip_by space s = ""
  \/ exists d t, Py.lstrip_by space s = String d t /\ space d = false.
Proof.
  induction s as [|d s IH]; cbn [Py.lstrip_by]; [left; reflexivity|].
  destruct (space d) eqn:E; [exact IH|]. right. eauto.
Qed.

Lemma strip_idem (s : string) : Py.strip (Py.strip s) = Py.strip s.
Proof.
  unfold Py.strip.
  destruct (lstrip_by_head Py.is_space s) as [-> | (d & t & -> & Hd)].
  - reflexivity.
  - destruct (rstrip_by_head Py.is_space d t Hd) as [u Hu].
    rewrite Hu. cbn [Py.lstrip_by]. rewrite Hd. rewrite <- Hu.
    apply rstrip_by_idem.
Qed.

(** X7: the cleaned text of a value has no dollar sign and no comma left
    and no white space around it; it is the formatted value of every value
    that is not a number. *)
Theorem clean_has_no_dollar_or_comma (value : Raw) :
  Py.contains_char "$" (clean value) = false
  /\ Py.contains_char "," (clean value) = false
  /\ Py.strip (clean value) = clean value
  /\ (status (_format_value value) = extracted_non_numeric ->
      formatted_value (_format_value value) = Some (clean value)).
Proof.
  unfold clean, Py.strip. repeat split.
  - apply rstrip_by_chars, lstrip_by_chars.
    unfold Py.replace at 1 2 3.
    do 3 apply replace_from_chars. apply replace_char_removes.
  - apply rstrip_by_chars, lstrip_by_chars.
    unfold Py.replace at 1 2.
    do 2 apply replace_from_chars. apply replace_char_removes.
  - apply strip_idem.
  - destruct (format_value_cases value)
      as [[G ->] | [[G [x [_ ->]]] | [G [_ ->]]]]; cbn;
      try discriminate. reflexivity.
Qed.

(** ** Texts that are not numbers *)

Lemma rstrip_by_sub (p q : ascii -> bool) (s : string) :
  (forall c, p c = true -> q c = true) ->
  Py.rstrip_by p (Py.rstrip_by q s) = Py.rstrip_by q s.
Proof.
  intros Hpq. induction s as [|d s IH]; cbn [Py.rstrip_by]; [reflexivity|].
  destruct (Py.rstrip_by q s) as [|e t] eqn:E.
  - destruct (q d) eqn:Ed; cbn [Py.rstrip_by]; [reflexivity|].
    destruct (p d) eqn:Pd; [|reflexivity].
    rewrite (Hpq d Pd) in Ed. discriminate.
  - cbn [Py.rstrip_by]. cbn [Py.rstrip_by] in IH.
    destruct (Py.rstrip_by p t) as [|e' t'].
    + destruct (p e); [discriminate|]. inversion IH; subst. reflexivity.
    + inversion IH; subst. reflexivity.
Qed.

Lemma float_space_is_space (c : ascii) :
  Parse.is_float_space c = true -> Py.is_space c = true.
Proof.
  destruct c as [[] [] [] [] [] [] [] []]; cbn; intros H;
    try discriminate; reflexivity.
Qed.

(** [float] has nothing to strip from a text that [str.strip] stripped. *)
Lemma float_strip_of_stripped (s : string) :
  Py.rstrip_by Parse.is_float_space
    (Py.lstrip_by Parse.is_float_space (Py.strip s)) = Py.strip s.
Proof.
  unfold Py.strip.
  destruct (lstrip_by_head Py.is_space s) as [-> | (d & t & -> & Hd)].
  - reflexivity.
  - destruct (rstrip_by_head Py.is_space d t Hd) as [u Hu].
    assert (Hf : Parse.is_float_space d = false).
    { destruct (Parse.is_float_space d) eqn:E; [|reflexivity].
      apply float_space_is_space in E. congruence. }
    rewrite Hu. cbn [Py.lstrip_by]. rewrite Hf. rewrite <- Hu.
    apply rstrip_by_sub, float_space_is_space.
Qed.

Lemma del_underscores_keeps (c : ascii) (s : string) :
  forall prev u,
    Parse.del_underscores prev s = Some u ->
    Ascii.eqb c "_" = false ->
    Py.contains_char c s = true -> Py.contains_char c u = true.
Proof.
  induction s as [|d s IH]; cbn [Parse.del_underscores Py.contains_char];
    intros prev u Hu Hc Hin; [discriminate|].
  destruct (Ascii.eqb d "_") eqn:Ed.
  - apply Ascii.eqb_eq in Ed. subst d. rewrite Hc in Hin. cbn in Hin.
    destruct (Py.is_digit prev); [|discriminate]. eapply IH; eauto.
  - destruct (Ascii.eqb prev "_" && negb (Py.is_digit d)); [discriminate|].
    destruct (Parse.del_underscores d s) as [u'|] eqn:E; [|discriminate].
    cbn in Hu. inversion Hu; subst u. cbn [Py.contains_char].
    destruct (Ascii.eqb c d); [reflexivity|]. cbn in *. eapply IH; eauto.
Qed.

Lemma all_chars_contains (p : ascii -> bool) (c : ascii) (s : string) :
  all_chars p s = true -> Py.contains_char c s = true -> p c = true.
Proof.
  induction s as [|d s IH]; cbn; [discriminate|].
  intros H Hin. apply andb_prop in H. destruct H as [Hd Hs].
  apply orb_prop in Hin. destruct Hin as [Hin | Hin]; [|auto].
  apply Ascii.eqb_eq in Hin. subst. exact Hd.
Qed.

Lemma digit_is_number_char (c : ascii) :
  Py.is_digit c = true -> number_char c = true.
Proof. intros H. unfold number_char. rewrite H. reflexivity. Qed.

Lemma lower_number_chars (t l : string) :
  Parse.lower t = l ->
  all_chars (fun c => Py.contains_char c "+-._einftya") l = true ->
  all_chars number_char t = true.
Proof.
  revert l. induction t as [|c t IH]; cbn; intros l <- H; [reflexivity|].
  cbn in H. apply andb_prop in H. destruct H as [Hc Ht].
  rewrite (IH _ eq_refl Ht). unfold number_char.
  replace (Py.contains_char (Py.lower c) "+-._einftya") with true
    by (symmetry; exact Hc).
  rewrite orb_true_r. reflexivity.
Qed.

Lemma point_cases {T : Type} (A : string -> T) (B : T) (r : string) :
  (exists t, r = String "." t
             /\ match r with String "." t => A t | _ => B end = A t)
  \/ match r with String "." t => A t | _ => B end = B.
Proof.
  destruct r as [|c t]; [right; reflexivity|].
  destruct c as [[] [] [] [] [] [] [] []]; try (right; reflexivity).
  left. exists t. split; reflexivity.
Qed.

Lemma sign_number_chars (s t : string) (neg : bool) :
  Parse.sign s = (neg, t) ->
  all_chars number_char t = true -> all_chars number_char s = true.
Proof.
  intros Hs Ht.
  destruct (sign_cases s) as [(u & -> & Hu & _) | [(u & -> & Hu & _) | [Hu _]]];
    rewrite Hu in Hs; inversion Hs; subst; cbn [all_chars];
    try rewrite Ht; reflexivity.
Qed.

Lemma exponent_number_chars (r : string) (x : Z) :
  Parse.exponent r = Some x -> all_chars number_char r = true.
Proof.
  unfold Parse.exponent. destruct r as [|c s]; [reflexivity|].
  destruct (Ascii.eqb (Py.lower c) "e") eqn:Ec; [|discriminate].
  apply Ascii.eqb_eq in Ec.
  destruct (Parse.sign s) as [neg t] eqn:Es.
  destruct (digits_spec t 0 0) as (v & k & Hd & _).
  rewrite Hd.
  destruct (skip_while_split Py.is_digit t) as [d [Ht Hdig]].
  destruct (skip_while Py.is_digit t); [|discriminate].
  intros _. cbn [all_chars].
  replace (number_char c) with true
    by (unfold number_char; rewrite Ec; symmetry; apply orb_true_r).
  apply (sign_number_chars s t neg Es).
  rewrite Ht, all_chars_app. cbn [all_chars]. rewrite andb_true_r.
  apply (all_chars_impl Py.is_digit); [apply digit_is_number_char | exact Hdig].
Qed.

Lemma decimal_number_chars (t : string) (m x : Z) :
  Parse.decimal t = Some (m, x) -> all_chars number_char t = true.
Proof.
  unfold Parse.decimal.
  destruct (digits_spec t 0 0) as (i & k & Hd & _). rewrite Hd.
  destruct (skip_while_split Py.is_digit t) as [d1 [Ht Hd1]].
  assert (H1 : all_chars number_char d1 = true)
    by (apply (all_chars_impl Py.is_digit);
        [apply digit_is_number_char | exact Hd1]).
  set (r1 := skip_while Py.is_digit t) in *.
  destruct (point_cases (fun t2 => Parse.digits i 0 t2) (i, 0, r1) r1)
    as [(t2 & Hr1 & ->) | ->].
  - destruct (digits_spec t2 i 0) as (m' & k2 & Hd2 & _). rewrite Hd2.
    destruct (skip_while_split Py.is_digit t2) as [d2 [Ht2 Hdig2]].
    destruct (0 + k + (0 + k2) =? 0); [discriminate|].
    destruct (Parse.exponent (skip_while Py.is_digit t2)) as [e|] eqn:Ee;
      [|discriminate].
    intros _. rewrite Ht, all_chars_app, H1, Hr1. cbn [all_chars andb].
    rewrite Ht2, all_chars_app, (exponent_number_chars _ _ Ee).
    rewrite andb_true_r.
    change (number_char ".") with true. cbn [andb].
    apply (all_chars_impl Py.is_digit);
      [apply digit_is_number_char | exact Hdig2].
  - destruct (0 + k + 0 =? 0); [discriminate|].
    destruct (Parse.exponent r1) as [e|] eqn:Ee; [|discriminate].
    intros _. rewrite Ht, all_chars_app, H1, (exponent_number_chars _ _ Ee).
    reflexivity.
Qed.

Lemma number_number_chars (u : string) (x : Float.float) :
  Parse.number u = Some x -> all_chars number_char u = true.
Proof.
  unfold Parse.number. destruct (Parse.sign u) as [neg t] eqn:Es.
  intros H. apply (sign_number_chars u t neg Es).
  destruct (String.eqb (Parse.lower t) "inf") eqn:E1.
  { apply String.eqb_eq in E1. apply (lower_number_chars t _ E1). reflexivity. }
  destruct (String.eqb (Parse.lower t) "infinity") eqn:E2.
  { apply String.eqb_eq in E2. apply (lower_number_chars t _ E2). reflexivity. }
  destruct (String.eqb (Parse.lower t) "nan") eqn:E3.
  { apply String.eqb_eq in E3. apply (lower_number_chars t _ E3). reflexivity. }
  cbn [orb] in H.
  destruct (Parse.decimal t) as [[m e]|] eqn:Ed; [|discriminate].
  apply (decimal_number_chars t m e Ed).
Qed.

(** X8: a value that is not empty or a sentinel and whose cleaned text has
    a character that no number contains (a blank inside, a letter such as
    [P], a percent sign, ...) is normalised to [extracted_non_numeric], with
    the cleaned text as formatted value and neither number nor currency. *)
Theorem text_with_foreign_character_is_non_numeric (value : Raw) (c : ascii) :
  falsy value || is_sentinel value = false ->
  Py.contains_char c (clean value) = true ->
  number_char c = false ->
  _format_value value =
    {| raw_value := value;
       formatted_value := Some (clean value);
       numeric_value := None;
       currency := None;
       status := extracted_non_numeric |}.
Proof.
  intros G Hin Hc.
  destruct (format_value_cases value)
    as [[G' _] | [[_ [x [Hx _]]] | [_ [_ ->]]]];
    [congruence | exfalso | reflexivity].
  unfold Parse.float_of_str in Hx.
  assert (Hs : Py.rstrip_by Parse.is_float_space
                 (Py.lstrip_by Parse.is_float_space (clean value))
               = clean value)
    by (unfold clean; apply float_strip_of_stripped).
  rewrite Hs in Hx.
  destruct (Parse.del_underscores zero (clean value)) as [u|] eqn:Eu;
    [|discriminate].
  destruct (Parse.number u) as [y|] eqn:En; [|discriminate].
  assert (Hu : Ascii.eqb c "_" = false).
  { destruct (Ascii.eqb c "_") eqn:E; [|reflexivity].
    apply Ascii.eqb_eq in E. subst c. discriminate. }
  pose proof (del_underscores_keeps c _ _ _ Eu Hu Hin) as Hin'.
  pose proof (all_chars_contains _ c u (number_number_chars u y En) Hin').
  congruence.
Qed.

Lemma text_with_foreign_character_witness :
  _format_value (RStr "$ Pending, review ") =
    {| raw_value := RStr "$ Pending, review ";
       formatted_value := Some "Pending review";
       numeric_value := None;
       currency := None;
       status := extracted_non_numeric |}.
Proof.
  apply (text_with_foreign_character_is_non_numeric
           (RStr "$ Pending, review ") " "); reflexivity.
Defined.

(** ** The summary on any map *)

Lemma numeric_entries_length (formatted_data : dict NormalizedValue) :
  List.length (numeric_entries formatted_data) = count_successful formatted_data.
Proof.
  unfold numeric_entries, count_successful.
  induction formatted_data as [|[a d] l IH]; [reflexivity|].
  cbn [flat_map filter snd fst]. unfold is_successful at 1.
  rewrite length_app, IH.
  destruct (status_eqb (status d) extracted), (numeric_value d); reflexivity.
Qed.

(** The summary, field by field. *)
Lemma summary_fields (formatted_data : dict NormalizedValue) :
  exists rate,
    (if Nat.ltb 0 (List.length formatted_data)
     then percentage (count_successful formatted_data)
            (List.length formatted_data)
     else Ok "0%") = Ok rate
    /\ _create_summary formatted_data =
       SummaryOk
         {| total_attributes_processed := List.length formatted_data;
            successful_extractions := count_successful formatted_data;
            extraction_rate := rate;
            top_values :=
              firstn 5
                (list_sort value_lt true (numeric_entries formatted_data));
            key_insurance_metrics := _extract_key_metrics formatted_data |}.
Proof.
  unfold _create_summary, create_summary_body.
  rewrite collect_numeric_spec.
  destruct (Nat.ltb 0 (List.length formatted_data)) eqn:E.
  - apply Nat.ltb_lt in E.
    destruct (percentage_returns _ _ (count_successful_le formatted_data) E)
      as [q [_ Hp]].
    rewrite Hp. cbn [bind]. eexists. split; reflexivity.
  - cbn [bind]. eexists. split; reflexivity.
Qed.

Lemma list_sort_perm {A : Type} (lt : A -> A -> bool) (l : list A) :
  Permutation l (list_sort lt true l).
Proof.
  unfold list_sort.
  eapply perm_trans; [apply Permutation_rev|].
  eapply perm_trans; [apply stable_sort_perm|]. apply Permutation_rev.
Qed.

Lemma sorted_app_cross {T : Type} (R : T -> T -> Prop) (l1 l2 : list T) :
  StronglySorted R (l1 ++ l2) ->
  forall x y, In x l1 -> In y l2 -> R x y.
Proof.
  induction l1 as [|a l1 IH]; cbn; intros Hs x y Hx Hy; [contradiction|].
  inversion Hs as [|? ? Hs' Hall]; subst.
  destruct Hx as [<- | Hx].
  - rewrite Forall_forall in Hall. apply Hall, in_or_app. right. exact Hy.
  - apply (IH Hs' x y Hx Hy).
Qed.

Lemma not_ltb_geb (x y : Float.float) :
  Float.is_nan x = false -> Float.is_nan y = false ->
  Float.ltb x y = false -> Float.geb x y = true.
Proof. float_order2 x y. Qed.

(** X9: on a map none of whose numeric values is a NaN the top values are
    the largest: the summary keeps min(5, successful extractions) of the
    successful extractions, each with the attribute and number of an entry
    with status [extracted], and every successful extraction that is left
    out has a value that is not greater than any value kept.  The successful
    extractions are counted as they are found and are no more than the
    attributes processed, and the key metrics are those of
    [_extract_key_metrics]. *)
Theorem summary_counts (formatted_data : dict NormalizedValue) :
  no_nan formatted_data ->
  exists s left_out,
    _create_summary formatted_data = SummaryOk s
    /\ total_attributes_processed s = List.length formatted_data
    /\ successful_extractions s = count_successful formatted_data
    /\ (successful_extractions s <= total_attributes_processed s)%nat
    /\ List.length (top_values s) = Nat.min 5 (successful_extractions s)
    /\ Permutation (numeric_entries formatted_data)
         (top_values s ++ left_out)
    /\ (forall kept other,
          In kept (top_values s) -> In other left_out ->
          Float.geb (value kept) (value other) = true)
    /\ (forall tv,
          In tv (top_values s) ->
          exists data,
            In (attribute tv, data) formatted_data
            /\ status data = extracted
            /\ numeric_value data = Some (value tv))
    /\ key_insurance_metrics s = _extract_key_metrics formatted_data.
Proof.
  intros Hnan.
  assert (Hok : Forall (fun a => Float.is_nan (value a) = false)
                  (numeric_entries formatted_data)).
  { apply Forall_forall. intros tv Htv. apply numeric_entries_In in Htv.
    destruct Htv as [d (Hin & _ & Hn)].
    destruct (value tv) eqn:Ev; try reflexivity.
    exfalso. apply (Hnan _ _ Hin). exact Hn. }
  assert (Hspec :
            Permutation (numeric_entries formatted_data)
              (list_sort value_lt true (numeric_entries formatted_data))
            /\ StronglySorted (descending value_lt)
                 (list_sort value_lt true (numeric_entries formatted_data))
            /\ filter (fun a => Float.eqb (value a) Float.NaN)
                 (list_sort value_lt true (numeric_entries formatted_data))
               = filter (fun a => Float.eqb (value a) Float.NaN)
                   (numeric_entries formatted_data)).
  { apply (list_sort_reverse_spec value_lt
             (fun a => Float.is_nan (value a) = false)).
    - intros a b. apply ltb_asym.
    - intros a b c Ha Hb Hc. apply not_ltb_trans; assumption.
    - apply equal_values_unordered.
    - exact Hok. }
  destruct Hspec as (Hperm & Hsorted & _).
  destruct (summary_fields formatted_data) as [rate [_ ->]].
  set (sorted := list_sort value_lt true (numeric_entries formatted_data)) in *.
  exists {| total_attributes_processed := List.length formatted_data;
            successful_extractions := count_successful formatted_data;
            extraction_rate := rate;
            top_values := firstn 5 sorted;
            key_insurance_metrics := _extract_key_metrics formatted_data |},
    (skipn 5 sorted).
  cbn [total_attributes_processed successful_extractions top_values
         key_insurance_metrics].
  rewrite (firstn_skipn 5 sorted).
  split; [reflexivity|]. split; [reflexivity|]. split; [reflexivity|].
  split; [apply count_successful_le|].
  split; [|split; [exact Hperm|split; [|split; [|reflexivity]]]].
  - rewrite length_firstn.
    rewrite <- (Permutation_length Hperm).
    rewrite numeric_entries_length. reflexivity.
  - intros kept other Hk Ho.
    rewrite <- (firstn_skipn 5 sorted) in Hsorted.
    pose proof (sorted_app_cross _ _ _ Hsorted kept other Hk Ho) as Hd.
    assert (Hin : forall tv, In tv sorted -> Float.is_nan (value tv) = false).
    { intros tv Htv. rewrite Forall_forall in Hok. apply Hok.
      apply (Permutation_in _ (Permutation_sym Hperm)), Htv. }
    apply not_ltb_geb.
    + apply Hin. rewrite <- (firstn_skipn 5 sorted). apply in_or_app. auto.
    + apply Hin. rewrite <- (firstn_skipn 5 sorted). apply in_or_app. auto.
    + exact Hd.
  - intros tv Htv. apply numeric_entries_In.
    apply (Permutation_in _ (Permutation_sym Hperm)).
    rewrite <- (firstn_skipn 5 sorted). apply in_or_app. left. exact Htv.
Qed.

Lemma percentage_none (t : nat) : (0 < t)%nat -> percentage 0 t = Ok "0.0%".
Proof.
  intros Ht. unfold percentage, Float.truediv.
  replace (Z.of_nat t =? 0) with false by (symmetry; apply Z.eqb_neq; lia).
  replace (Z.of_nat t <? 0) with false by (symmetry; apply Z.ltb_ge; lia).
  reflexivity.
Qed.

Lemma round_ratio_one (t : Z) :
  0 < t -> Float.round_ratio false t t = Float.Fin false 4503599627370496 (-52).
Proof.
  intros Ht. unfold Float.round_ratio.
  replace (t <=? 0) with false by (symmetry; apply Z.leb_gt; lia).
  assert (Hi : Float.ilog2_ratio t t = 0).
  { unfold Float.ilog2_ratio. rewrite Z.sub_diag. cbn.
    replace (t <? t * 1) with false by (symmetry; apply Z.ltb_ge; lia).
    reflexivity. }
  rewrite Hi.
  change (Z.max (0 - 52) Float.emin) with (-52).
  change (0 <=? -52) with false. cbv iota.
  change (2 ^ (- (-52))) with 4503599627370496.
  assert (Hm : Float.div_rne (t * 4503599627370496) t = 4503599627370496).
  { unfold Float.div_rne.
    rewrite (Z.mul_comm t), Z.div_mul, Z.mod_mul by lia.
    replace (2 * 0 ?= t) with Lt by (symmetry; apply Z.compare_lt_iff; lia).
    reflexivity. }
  rewrite Hm. reflexivity.
Qed.

Lemma percentage_all (t : nat) : (0 < t)%nat -> percentage t t = Ok "100.0%".
Proof.
  intros Ht. unfold percentage, Float.truediv.
  replace (Z.of_nat t =? 0) with false by (symmetry; apply Z.eqb_neq; lia).
  replace (Z.of_nat t <? 0) with false by (symmetry; apply Z.ltb_ge; lia).
  rewrite Z.abs_eq by lia. cbn [xorb].
  rewrite round_ratio_one by lia. reflexivity.
Qed.

(** X10: on a map that is not empty the extraction rate is ["0.0%"] when
    no attribute was extracted as a number (not ["0%"], which is for the
    empty map only) and ["100.0%"] when all were. *)
Theorem extraction_rate_ends (formatted_data : dict NormalizedValue) :
  formatted_data <> [] ->
  exists s,
    _create_summary formatted_data = SummaryOk s
    /\ (count_successful formatted_data = 0%nat -> extraction_rate s = "0.0%")
    /\ (count_successful formatted_data = List.length formatted_data ->
        extraction_rate s = "100.0%").
Proof.
  intros Hne.
  assert (Hlen : (0 < List.length formatted_data)%nat)
    by (destruct formatted_data; [congruence | cbn; lia]).
  destruct (summary_fields formatted_data) as [rate [Hr ->]].
  eexists. split; [reflexivity|]. cbn [extraction_rate].
  replace (Nat.ltb 0 (List.length formatted_data)) with true in Hr
    by (symmetry; apply Nat.ltb_lt; exact Hlen).
  split; intros Hc; rewrite Hc in Hr.
  - rewrite percentage_none in Hr by exact Hlen. congruence.
  - rewrite percentage_all in Hr by exact Hlen. congruence.
Qed.

(** ** From raw data to the report and its export *)

Lemma dict_set_fresh {V : Type} (d : dict V) (k : string) (v : V) :
  ~ In k (dict_keys d) -> dict_set d k v = (d ++ [(k, v)])%list.
Proof.
  unfold dict_keys. induction d as [|[k0 v0] d IH]; cbn; intros H.
  - reflexivity.
  - destruct (String.eqb k0 k) eqn:E.
    + apply String.eqb_eq in E. tauto.
    + rewrite IH by tauto. reflexivity.
Qed.

Lemma format_all_map (extracted_data : dict Raw) :
  dict_wf extracted_data ->
  format_all extracted_data
  = map (fun kv => (fst kv, _format_value (snd kv))) extracted_data.
Proof.
  unfold format_all, dict_wf.
  assert (G : forall l (acc : dict NormalizedValue),
             NoDup (dict_keys acc ++ dict_keys l) ->
             fold_left
               (fun formatted_data '(attribute, value) =>
                  dict_set formatted_data attribute (_format_value value))
               l acc
             = (acc ++ map (fun kv => (fst kv, _format_value (snd kv))) l)%list).
  { induction l as [|[a v] l IH]; cbn; intros acc Hnd.
    - rewrite app_nil_r. reflexivity.
    - rewrite dict_set_fresh.
      + rewrite IH.
        * rewrite <- app_assoc. reflexivity.
        * unfold dict_keys in *. rewrite map_app, <- app_assoc. exact Hnd.
      + apply NoDup_remove_2 in Hnd. rewrite in_app_iff in Hnd. tauto. }
  intros Hnd. apply (G extracted_data []). exact Hnd.
Qed.

Lemma dict_get_map {V W : Type} (f : V -> W) (d : dict V) (k : string) :
  dict_get (map (fun kv => (fst kv, f (snd kv))) d) k
  = option_map f (dict_get d k).
Proof.
  induction d as [|[k0 v0] d IH]; cbn; [reflexivity|].
  destruct (String.eqb k0 k); [reflexivity | exact IH].
Qed.

(** X11: formatting raw data always gives a successful report; when the
    attributes are distinct, [extracted_data] has the same attributes in the
    same order, each with the normalisation of its raw value, and the
    summary counts as many attributes as were given. *)
Theorem report_of_raw_data (now : string) (extracted_data : dict Raw)
  (pdf_filename excel_filename : string) :
  dict_wf extracted_data ->
  exists formatted_data s,
    format_extraction_results now extracted_data pdf_filename excel_filename
    = ReportSuccess now pdf_filename excel_filename formatted_data
        (SummaryOk s) (_validate_data_consistency formatted_data)
    /\ dict_keys formatted_data = dict_keys extracted_data
    /\ (forall attr,
          dict_get formatted_data attr
          = option_map _format_value (dict_get extracted_data attr))
    /\ total_attributes_processed s = List.length extracted_data.
Proof.
  intros Hwf. unfold format_extraction_results.
  rewrite (format_all_map _ Hwf).
  set (fd := map (fun kv => (fst kv, _format_value (snd kv))) extracted_data).
  destruct (summary_fields fd) as [rate [_ Hs]].
  rewrite Hs. eexists. eexists. split; [reflexivity|].
  split; [|split].
  - unfold fd, dict_keys. rewrite map_map. reflexivity.
  - intros attr. apply dict_get_map.
  - cbn [total_attributes_processed]. unfold fd. apply length_map.
Qed.

Lemma format_value_raw (value : Raw) :
  raw_value (_format_value value) = value.
Proof.
  destruct (format_value_cases value)
    as [[_ ->] | [[_ [x [_ ->]]] | [_ [_ ->]]]]; reflexivity.
Qed.

(** X12: the export of the report of raw data with distinct attributes has
    one row for each attribute, in the order given, with the raw value as it
    was given and the fields of its normalisation; the file is the one
    named, or [insurance_extraction_<timestamp>.xlsx] when no name or an
    empty one is given.  A failure report gives no rows. *)
Theorem export_of_report (now timestamp : string) (extracted_data : dict Raw)
  (pdf_filename excel_filename : string) (filename : option string) :
  dict_wf extracted_data ->
  export_to_excel timestamp
    (format_extraction_results now extracted_data pdf_filename excel_filename)
    filename
  = (match filename with
     | None | Some EmptyString =>
         "insurance_extraction_" ++ timestamp ++ ".xlsx"
     | Some given => given
     end,
     map (fun kv =>
            {| Excel.Attribute := fst kv;
               Excel.Raw_Value := snd kv;
               Excel.Formatted_Value := formatted_value (_format_value (snd kv));
               Excel.Numeric_Value := numeric_value (_format_value (snd kv));
               Excel.Currency := currency (_format_value (snd kv));
               Excel.Status := status_text (status (_format_value (snd kv))) |})
       extracted_data)
  /\ forall error, export_rows (ReportFailure error now) = [].
Proof.
  intros Hwf. split; [|reflexivity].
  unfold export_to_excel, format_extraction_results. f_equal.
  rewrite (format_all_map _ Hwf). cbn [export_rows].
  assert (G : forall (l : dict Raw) acc,
             fold_left
               (fun export_data '(attr, data) =>
                  (export_data ++
                   [{| Excel.Attribute := attr;
                       Excel.Raw_Value := raw_value data;
                       Excel.Formatted_Value := formatted_value data;
                       Excel.Numeric_Value := numeric_value data;
                       Excel.Currency := currency data;
                       Excel.Status := status_text (status data) |}])%list)
               (map (fun kv => (fst kv, _format_value (snd kv))) l) acc
             = (acc ++
                map (fun kv =>
                       {| Excel.Attribute := fst kv;
                          Excel.Raw_Value := snd kv;
                          Excel.Formatted_Value :=
                            formatted_value (_format_value (snd kv));
                          Excel.Numeric_Value :=
                            numeric_value (_format_value (snd kv));
                          Excel.Currency := currency (_format_value (snd kv));
                          Excel.Status :=
                            status_text (status (_format_value (snd kv))) |})
                  l)%list).
  { induction l as [|[a v] l IH]; cbn; intros acc.
    - rewrite app_nil_r. reflexivity.
    - rewrite IH, <- app_assoc. cbn. rewrite format_value_raw.
      reflexivity. }
  apply (G extracted_data []).
Qed.

(** ** Names of the documents of a comparison *)

Lemma str_of_nat_inj (i j : nat) : Py.str_of_nat i = Py.str_of_nat j -> i = j.
Proof.
  unfold Py.str_of_nat, Py.str_of_N. intros H.
  assert (E : Some (N.to_uint (N.of_nat i)) = Some (N.to_uint (N.of_nat j))).
  { rewrite <- !NilEmpty.usu. rewrite H. reflexivity. }
  inversion E as [E'].
  apply DecimalN.Unsigned.to_uint_inj in E'. lia.
Qed.

Lemma comparison_lookup (now : string) (extractions : list Extraction)
  (c : ComparisonReport) (attr : string) (l : list ComparisonEntry) :
  create_comparison_report now extractions = ComparisonOk c ->
  dict_get (attribute_comparison c) attr = Some l ->
  l = entries_from attr 0 extractions.
Proof.
  unfold create_comparison_report.
  destruct (Nat.ltb (List.length extractions) 2); [discriminate|].
  cbn. intros H. inversion H; subst c. clear H. cbn.
  destruct (fold_dict_set (attr_data_of extractions)
              (all_attributes_of extractions) attr []) as [_ Hg];
    [constructor|]. cbn in Hg. rewrite Hg.
  destruct (existsb (String.eqb attr) (all_attributes_of extractions));
    [|discriminate].
  intros H. inversion H. apply attr_data_of_entries.
Qed.

(** X13: in the list of an attribute, two entries of documents that have
    no file name carry the same generated name only if they are the same
    document. *)
Theorem generated_names_differ (now : string) (extractions : list Extraction)
  (c : ComparisonReport) (attr : string) (l : list ComparisonEntry)
  (e1 e2 : ComparisonEntry) (x1 x2 : Extraction) :
  create_comparison_report now extractions = ComparisonOk c ->
  dict_get (attribute_comparison c) attr = Some l ->
  In e1 l -> In e2 l ->
  nth_error extractions (document_index e1) = Some x1 ->
  nth_error extractions (document_index e2) = Some x2 ->
  extraction_pdf_filename x1 = None ->
  extraction_pdf_filename x2 = None ->
  document_name e1 = document_name e2 ->
  document_index e1 = document_index e2 /\ e1 = e2.
Proof.
  intros Hc Hl H1 H2 Hx1 Hx2 Hn1 Hn2 Hname.
  rewrite (comparison_lookup _ _ _ _ _ Hc Hl) in H1, H2.
  destruct (entries_from_describe _ _ _ _ H1)
    as [_ (y1 & d1 & data1 & Hy1 & Hd1 & Hg1 & Hname1 & Hv1 & Hf1 & Hs1)].
  destruct (entries_from_describe _ _ _ _ H2)
    as [_ (y2 & d2 & data2 & Hy2 & Hd2 & Hg2 & Hname2 & Hv2 & Hf2 & Hs2)].
  rewrite Nat.sub_0_r in Hy1, Hy2.
  rewrite Hx1 in Hy1. rewrite Hx2 in Hy2.
  inversion Hy1; subst y1. inversion Hy2; subst y2.
  rewrite Hn1 in Hname1. rewrite Hn2 in Hname2.
  assert (Hi : document_index e1 = document_index e2).
  { rewrite Hname1, Hname2 in Hname. cbn [append] in Hname.
    injection Hname as Hname. apply str_of_nat_inj, Hname. }
  split; [exact Hi|].
  rewrite Hi in Hx1. rewrite Hx1 in Hx2. inversion Hx2; subst x2.
  rewrite Hd1 in Hd2. inversion Hd2; subst d2.
  rewrite Hg1 in Hg2. inversion Hg2; subst data2.
  destruct e1, e2; cbn in *. congruence.
Qed.

(** ** What the validator records, and in which order *)

(** X14: the validator records nothing but what its three rules say: the
    warnings are those of the pair rule, of the premium rule and of the
    range rule, in this order, and the consistency checks those of the pair
    rule and of the premium rule; each pair rule gives a warning or a check,
    never both, and the range rule one warning at most. *)
Theorem validator_records_rules_in_order
  (formatted_data : dict NormalizedValue) :
  let validation := _validate_data_consistency formatted_data in
  warnings validation
  = (filter about_quoted_limit (warnings validation)
     ++ filter about_premium (warnings validation)
     ++ filter about_total_insured_value (warnings validation))%list
  /\ consistency_checks validation
     = (filter (is_check "Quoted Amount vs Limit Amount")
          (consistency_checks validation)
        ++ filter (is_check "Premium due vs Annual Premium")
             (consistency_checks validation))%list
  /\ (List.length (filter about_quoted_limit (warnings validation))
      + List.length (filter (is_check "Quoted Amount vs Limit Amount")
                       (consistency_checks validation)) <= 1)%nat
  /\ (List.length (filter about_premium (warnings validation))
      + List.length (filter (is_check "Premium due vs Annual Premium")
                       (consistency_checks validation)) <= 1)%nat
  /\ (List.length (filter about_total_insured_value (warnings validation))
      <= 1)%nat.
Proof.
  cbv zeta. validator_blind; cbn; repeat split; auto; lia.
Qed.

(** ** Amounts as the normaliser writes them are amounts it reads *)

Lemma replace_char_spec (c : ascii) (s : string) :
  Py.replace s (String c "") "" = remove_char c s.
Proof.
  unfold Py.replace. induction s as [|d s IH]; [reflexivity|].
  cbn [Py.replace_from prefix String.length Nat.pred remove_char].
  destruct (Ascii.ascii_dec c d) as [<- | Hne].
  - replace (prefix "" s) with true by (destruct s; reflexivity).
    rewrite Ascii.eqb_refl. cbn [append]. exact IH.
  - assert (E : Ascii.eqb c d = false) by (apply Ascii.eqb_neq; exact Hne).
    rewrite E, IH. reflexivity.
Qed.

Lemma replace_absent (c : ascii) (old new s : string) :
  Py.contains_char c s = false -> Py.replace s (String c old) new = s.
Proof.
  unfold Py.replace. induction s as [|d s IH]; [reflexivity|].
  cbn [Py.contains_char Py.replace_from prefix]. intros H.
  apply orb_false_elim in H. destruct H as [Hd Hs].
  apply Ascii.eqb_neq in Hd.
  destruct (Ascii.ascii_dec c d) as [E | _]; [contradiction|].
  rewrite (IH Hs). reflexivity.
Qed.

Lemma remove_char_app (c : ascii) (s t : string) :
  remove_char c (s ++ t) = remove_char c s ++ remove_char c t.
Proof.
  induction s as [|d s IH]; cbn; [reflexivity|].
  destruct (Ascii.eqb c d); cbn; rewrite IH; reflexivity.
Qed.

Lemma remove_char_all (p : ascii -> bool) (c : ascii) (s : string) :
  all_chars p s = true -> all_chars p (remove_char c s) = true.
Proof.
  induction s as [|d s IH]; cbn; [reflexivity|].
  intros H. apply andb_prop in H. destruct H as [Hd Hs].
  destruct (Ascii.eqb c d); cbn; [|rewrite Hd]; auto.
Qed.

Lemma remove_char_absent (p : ascii -> bool) (c : ascii) (s : string) :
  p c = false -> all_chars p s = true -> remove_char c s = s.
Proof.
  intros Hc. induction s as [|d s IH]; cbn; [reflexivity|].
  intros H. apply andb_prop in H. destruct H as [Hd Hs].
  destruct (Ascii.eqb c d) eqn:E.
  - apply Ascii.eqb_eq in E. subst d. congruence.
  - rewrite (IH Hs). reflexivity.
Qed.

Lemma all_chars_absent (p : ascii -> bool) (c : ascii) (s : string) :
  p c = false -> all_chars p s = true -> Py.contains_char c s = false.
Proof.
  intros Hc Hs. destruct (Py.contains_char c s) eqn:E; [|reflexivity].
  rewrite (all_chars_contains p c s Hs E) in Hc. discriminate.
Qed.

Lemma money_char_plain (c : ascii) :
  money_char c = true -> negb (Py.is_space c) = true.
Proof.
  destruct c as [[] [] [] [] [] [] [] []]; cbn; intros H;
    try discriminate; reflexivity.
Qed.

(** On a text of money characters the cleaning only takes the dollar signs
    and the commas away. *)
Lemma clean_money_chars (s : string) :
  all_chars money_char s = true ->
  clean (RStr s) = remove_char "," (remove_char "$" s).
Proof.
  intros H. unfold clean. cbn [str].
  rewrite !replace_char_spec.
  assert (Hm : all_chars money_char (remove_char "," (remove_char "$" s))
               = true) by (do 2 apply remove_char_all; exact H).
  assert (Hu : Py.contains_char "U" (remove_char "," (remove_char "$" s))
               = false)
    by (apply (all_chars_absent money_char); [reflexivity | exact Hm]).
  rewrite (replace_absent "U" "SD" "" _ Hu), (replace_absent "U" "S" "" _ Hu).
  assert (Hsp : all_chars (fun c => negb (Py.is_space c))
                  (remove_char "," (remove_char "$" s)) = true)
    by (apply (all_chars_impl money_char); [apply money_char_plain | exact Hm]).
  unfold Py.strip. rewrite (lstrip_by_id _ _ Hsp). apply rstrip_by_id, Hsp.
Qed.

Lemma digit_or_comma_money (c : ascii) :
  digit_or_comma c = true -> money_char c = true.
Proof. intros H. unfold money_char. rewrite H. reflexivity. Qed.

Lemma is_digit_not_sign (c : ascii) :
  Py.is_digit c = true ->
  Ascii.eqb "$" c = false /\ Ascii.eqb "," c = false
  /\ digit_or_comma c = true.
Proof.
  destruct c as [[] [] [] [] [] [] [] []]; cbn; intros H;
    try discriminate; repeat split.
Qed.

(** The digits of a run of digits and commas. *)
Lemma remove_commas_digits (body : string) :
  all_chars digit_or_comma body = true ->
  all_chars Py.is_digit (remove_char "," body) = true.
Proof.
  induction body as [|c body IH]; cbn [all_chars remove_char]; [reflexivity|].
  intros H. apply andb_prop in H. destruct H as [Hc Hb].
  destruct (Ascii.eqb "," c) eqn:E; [auto|]. cbn [all_chars]. rewrite (IH Hb).
  unfold digit_or_comma in Hc. rewrite Ascii.eqb_sym, E, orb_false_r in Hc.
  rewrite Hc. reflexivity.
Qed.

Lemma unsigned_of_text (a : ascii) (s : string) :
  a <> "-"%char ->
  match String a s with String "-" t => t | _ => String a s end = String a s.
Proof.
  intros Ha. destruct a as [[] [] [] [] [] [] [] []];
    try reflexivity. congruence.
Qed.

Lemma dollar_amount_split (t : string) :
  match t with
  | String "$" (String c _ as body) =>
      digit_or_comma c
      && match skip_while digit_or_comma body with
         | String "." (String d1 (String d2 EmptyString)) =>
             Py.is_digit d1 && Py.is_digit d2
         | _ => false
         end
  | _ => false
  end = true ->
  exists body d1 d2,
    t = String "$" (body ++ String "." (String d1 (String d2 "")))
    /\ all_chars digit_or_comma body = true
    /\ Py.is_digit d1 = true /\ Py.is_digit d2 = true.
Proof.
  intros Ht. destruct t as [|a t]; [discriminate|].
  destruct (Ascii.eqb a "$") eqn:Ea;
    [apply Ascii.eqb_eq in Ea; subst a
    |exfalso; destruct a as [[] [] [] [] [] [] [] []];
     first [discriminate Ea | discriminate Ht]].
  destruct t as [|c t]; [discriminate|].
  apply andb_prop in Ht. destruct Ht as [_ Ht].
  destruct (skip_while_split digit_or_comma (String c t)) as (body & Hb & Hd).
  destruct (skip_while digit_or_comma (String c t)) as [|p r];
    [discriminate|].
  destruct (Ascii.eqb p ".") eqn:Ep;
    [apply Ascii.eqb_eq in Ep; subst p
    |exfalso; destruct p as [[] [] [] [] [] [] [] []];
     first [discriminate Ep | discriminate Ht]].
  destruct r as [|d1 [|d2 [|x r]]]; try discriminate.
  apply andb_prop in Ht. destruct Ht as [H1 H2].
  exists body, d1, d2. rewrite Hb. auto.
Qed.

(** The parts of a text that matches [-?\$[0-9,]+\.[0-9]{2}]. *)
Lemma money_pattern_split (s : string) :
  money_pattern s = true ->
  exists sign body d1 d2,
    s = sign ++ String "$" (body ++ String "." (String d1 (String d2 "")))
    /\ (sign = "" \/ sign = "-")
    /\ all_chars digit_or_comma body = true
    /\ Py.is_digit d1 = true /\ Py.is_digit d2 = true.
Proof.
  unfold money_pattern. cbv zeta. intros H.
  destruct s as [|a s']; [discriminate|].
  destruct (Ascii.ascii_dec a "-") as [-> | Ha].
  - destruct (dollar_amount_split s' H) as (body & d1 & d2 & -> & Hb & H1 & H2).
    exists "-", body, d1, d2. auto.
  - rewrite (unsigned_of_text a s' Ha) in H.
    destruct (dollar_amount_split (String a s') H)
      as (body & d1 & d2 & E & Hb & H1 & H2).
    exists "", body, d1, d2. auto.
Qed.

(** A text that matches [-?\$[0-9,]+\.[0-9]{2}] is cleaned to a signed
    decimal number. *)
Lemma money_pattern_clean (s : string) :
  money_pattern s = true -> signed_decimal (clean (RStr s)) = true.
Proof.
  intros H.
  destruct (money_pattern_split s H)
    as (sign & body & d1 & d2 & -> & Hsign & Hb & H1 & H2).
  destruct (is_digit_not_sign d1 H1) as (A1 & B1 & C1).
  destruct (is_digit_not_sign d2 H2) as (A2 & B2 & C2).
  rewrite clean_money_chars.
  - assert (Hsg : remove_char "," (remove_char "$" sign) = sign)
      by (destruct Hsign as [-> | ->]; reflexivity).
    assert (Ht1 : remove_char "$" (String "." (String d1 (String d2 "")))
                  = String "." (String d1 (String d2 ""))).
    { cbn [remove_char]. rewrite A1, A2.
      change (Ascii.eqb "$" ".") with false. reflexivity. }
    assert (Ht2 : remove_char "," (String "." (String d1 (String d2 "")))
                  = String "." (String d1 (String d2 ""))).
    { cbn [remove_char]. rewrite B1, B2.
      change (Ascii.eqb "," ".") with false. reflexivity. }
    rewrite !remove_char_app, Hsg.
    assert (Hd : forall r, remove_char "$" (String "$" r) = remove_char "$" r)
      by reflexivity.
    rewrite Hd, !remove_char_app, Ht1, Ht2.
    rewrite (remove_char_absent digit_or_comma "$" body eq_refl Hb).
    pose proof (remove_commas_digits body Hb) as Hdig.
    set (ds := remove_char "," body) in *.
    assert (Hu : unsigned_decimal (ds ++ String "." (String d1 (String d2 "")))
                 = true).
    { unfold unsigned_decimal. rewrite (skip_while_app _ _ _ Hdig).
      cbn [skip_while]. replace (Py.is_digit ".") with false by reflexivity.
      cbn [all_chars]. rewrite H1, H2. cbn [andb].
      apply negb_true_iff, String.eqb_neq. intros E.
      destruct ds as [|a [|b ds']]; discriminate E. }
    unfold signed_decimal. destruct Hsign as [-> | ->].
    + cbn [append].
      replace (unsigned_part (ds ++ String "." (String d1 (String d2 ""))))
        with (ds ++ String "." (String d1 (String d2 ""))); [exact Hu|].
      destruct ds as [|a ds']; [reflexivity|].
      cbn [all_chars] in Hdig. apply andb_prop in Hdig. destruct Hdig as [Ha _].
      clear - Ha.
      destruct a as [[] [] [] [] [] [] [] []]; try discriminate Ha;
        reflexivity.
    + cbn [append unsigned_part]. exact Hu.
  - rewrite all_chars_app. cbn [all_chars]. rewrite all_chars_app.
    cbn [all_chars].
    rewrite (all_chars_impl _ _ _ digit_or_comma_money Hb).
    rewrite (digit_or_comma_money _ C1), (digit_or_comma_money _ C2).
    destruct Hsign as [-> | ->]; reflexivity.
Qed.

(** X15: every text of the form [-?\$[0-9,]+\.[0-9]{2}], the form in which
    the normaliser writes finite amounts, is normalised to [extracted] with
    a number that is not a NaN: the commas may stand anywhere, the number
    of digits is not limited. *)
Theorem money_text_is_extracted (s : string) :
  money_pattern s = true ->
  exists x,
    _format_value (RStr s) =
      {| raw_value := RStr s;
         formatted_value := Some (format_currency x);
         numeric_value := Some x;
         currency := Some "USD";
         status := extracted |}
    /\ Float.is_nan x = false.
Proof.
  intros H. pose proof (money_pattern_clean s H) as Hd.
  destruct (signed_decimal_parses _ Hd) as [x [Hx Hn]].
  destruct (signed_decimal_extracted _ Hd) as [y [Hy [Hr _]]].
  rewrite Hx in Hy. inversion Hy; subst y.
  exists x. split; assumption.
Qed.

(** X16: what the normaliser writes it reads: when a value is normalised
    to [extracted], its formatted value is normalised to [extracted] again,
    with the currency [USD], and to a NaN only when the first number was
    one. *)
Theorem formatted_value_is_extracted_again (value : Raw) (x : Float.float)
  (f : string) :
  numeric_value (_format_value value) = Some x ->
  formatted_value (_format_value value) = Some f ->
  exists y,
    _format_value (RStr f) =
      {| raw_value := RStr f;
         formatted_value := Some (format_currency y);
         numeric_value := Some y;
         currency := Some "USD";
         status := extracted |}
    /\ Float.is_nan y = Float.is_nan x.
Proof.
  intros Hx Hf.
  destruct (format_value_cases value)
    as [[_ E] | [[_ [z [_ E]]] | [_ [_ E]]]]; rewrite E in Hx, Hf;
    cbn in Hx, Hf; try discriminate.
  inversion Hx; subst z. inversion Hf; subst f. clear Hx Hf E.
  destruct x as [[]|[]| |s m e];
    [exists (Float.Zero true) | exists (Float.Zero false)
    |exists (Float.Inf true) | exists (Float.Inf false)
    |exists Float.NaN | ].
  1-5: split; [vm_compute; reflexivity | reflexivity].
  assert (Hp : money_pattern (format_currency (Float.Fin s m e)) = true)
    by (apply format_currency_pattern; [reflexivity | discriminate]).
  pose proof (money_pattern_clean _ Hp) as Hd.
  destruct (signed_decimal_parses _ Hd) as [y [Hy Hn]].
  destruct (signed_decimal_extracted _ Hd) as [y' [Hy' [Hr _]]].
  rewrite Hy in Hy'. inversion Hy'; subst y'.
  exists y. split; [exact Hr | exact Hn].
Qed.

(** ** From the raw amounts to the verdict of the validator *)

Lemma format_value_of_number (value : Raw) (x : Float.float) :
  Parse.float_of_str (clean value) = Ok x ->
  _format_value value =
    {| raw_value := value;
       formatted_value := Some (format_currency x);
       numeric_value := Some x;
       currency := Some "USD";
       status := extracted |}.
Proof.
  intros Hparse.
  destruct (format_value_cases value)
    as [[G _] | [[_ [y [Hy ->]]] | [_ [[msg Hm] _]]]].
  - exfalso. apply guard_values in G.
    destruct G as [-> | [-> | [-> | ->]]]; vm_compute in Hparse; discriminate.
  - rewrite Hparse in Hy. inversion Hy. reflexivity.
  - rewrite Hparse in Hm. discriminate.
Qed.

Lemma format_all_wf (extracted_data : dict Raw) :
  dict_wf extracted_data -> dict_wf (format_all extracted_data).
Proof.
  intros Hwf. rewrite (format_all_map _ Hwf).
  unfold dict_wf, dict_keys in *. rewrite map_map. exact Hwf.
Qed.

Lemma numeric_of_format_all (extracted_data : dict Raw) (attr : string)
  (value : Raw) (x : Float.float) :
  dict_wf extracted_data ->
  dict_get extracted_data attr = Some value ->
  Parse.float_of_str (clean value) = Ok x ->
  numeric_of (format_all extracted_data) attr = Some x.
Proof.
  intros Hwf Hget Hparse. unfold numeric_of.
  rewrite (format_all_map _ Hwf), dict_get_map, Hget. cbn [option_map].
  rewrite (format_value_of_number value x Hparse). reflexivity.
Qed.

(** X17: from the raw texts to the verdict: when the raw texts of "Quoted
    Amount" and "Limit Amount" are read as the numbers [x] and [y], the
    validation of the formatted data records the check "consistent" and no
    warning of the pair when [x == y], and the warning with both amounts and
    no check otherwise, whatever dollar signs, commas, [USD] or blanks the
    texts were written with. *)
Theorem raw_amounts_compared_as_numbers (extracted_data : dict Raw)
  (quoted limit : Raw) (x y : Float.float) :
  dict_wf extracted_data ->
  dict_get extracted_data "Quoted Amount" = Some quoted ->
  dict_get extracted_data "Limit Amount" = Some limit ->
  Parse.float_of_str (clean quoted) = Ok x ->
  Parse.float_of_str (clean limit) = Ok y ->
  let validation :=
    _validate_data_consistency (format_all extracted_data) in
  (Float.eqb x y = true ->
   filter (is_check "Quoted Amount vs Limit Amount")
     (consistency_checks validation)
   = [{| check := "Quoted Amount vs Limit Amount";
         check_status := "consistent";
         message := "Quoted Amount equals Limit Amount as expected" |}]
   /\ filter about_quoted_limit (warnings validation) = [])
  /\ (Float.eqb x y = false ->
      filter about_quoted_limit (warnings validation)
      = ["Quoted Amount (" ++ dollars x
         ++ ") differs from Limit Amount (" ++ dollars y ++ ")"]
      /\ filter (is_check "Quoted Amount vs Limit Amount")
           (consistency_checks validation) = []
      /\ validation_status validation = st_warnings).
Proof.
  intros Hwf Hq Hl Hx Hy validation. subst validation.
  pose proof (format_all_wf _ Hwf) as Hwf'.
  pose proof (numeric_of_format_all _ _ _ _ Hwf Hq Hx) as Nq.
  pose proof (numeric_of_format_all _ _ _ _ Hwf Hl Hy) as Nl.
  set (formatted_data := format_all extracted_data) in *.
  clearbody formatted_data. clear Hwf Hq Hl Hx Hy.
  split; intros E; validator_cases formatted_data; cbn; auto.
Qed.

(** ** What the cleaning ignores *)

Lemma contains_char_app (c : ascii) (s t : string) :
  Py.contains_char c (s ++ t) = Py.contains_char c s || Py.contains_char c t.
Proof.
  induction s as [|d s IH]; cbn; [reflexivity|].
  rewrite IH, orb_assoc. reflexivity.
Qed.

Lemma clean_without_separator (a b : string) (c : ascii) :
  c = "$"%char \/ c = ","%char ->
  clean (RStr (a ++ String c b)) = clean (RStr (a ++ b)).
Proof.
  intros Hc. unfold clean. cbn [str]. rewrite !replace_char_spec.
  do 3 f_equal. rewrite !remove_char_app.
  destruct Hc as [-> | ->]; reflexivity.
Qed.

(** X18: a dollar sign or a comma is ignored wherever it stands: a text
    and the same text with one more of them are normalised to the same
    formatted value, number, currency and status, unless the text without
    it is empty or a sentinel (["$"] alone is a text that is not a number,
    not a value that was not found). *)
Theorem separators_are_ignored (a b : string) (c : ascii) :
  c = "$"%char \/ c = ","%char ->
  falsy (RStr (a ++ b)) || is_sentinel (RStr (a ++ b)) = false ->
  formatted_value (_format_value (RStr (a ++ String c b)))
  = formatted_value (_format_value (RStr (a ++ b)))
  /\ numeric_value (_format_value (RStr (a ++ String c b)))
     = numeric_value (_format_value (RStr (a ++ b)))
  /\ currency (_format_value (RStr (a ++ String c b)))
     = currency (_format_value (RStr (a ++ b)))
  /\ status (_format_value (RStr (a ++ String c b)))
     = status (_format_value (RStr (a ++ b))).
Proof.
  intros Hc G.
  assert (G' : falsy (RStr (a ++ String c b))
               || is_sentinel (RStr (a ++ String c b)) = false).
  { assert (Hin : Py.contains_char c (a ++ String c b) = true).
    { rewrite contains_char_app. cbn [Py.contains_char].
      rewrite Ascii.eqb_refl. cbn. apply orb_true_r. }
    cbn [falsy is_sentinel].
    destruct (String.eqb (a ++ String c b) "") eqn:E1;
      [apply String.eqb_eq in E1; rewrite E1 in Hin; discriminate|].
    destruct (String.eqb (a ++ String c b) "NOT_FOUND") eqn:E2;
      [apply String.eqb_eq in E2; rewrite E2 in Hin;
       destruct Hc as [-> | ->]; discriminate|].
    destruct (String.eqb (a ++ String c b) "ERROR") eqn:E3;
      [apply String.eqb_eq in E3; rewrite E3 in Hin;
       destruct Hc as [-> | ->]; discriminate|].
    reflexivity. }
  unfold _format_value. rewrite G, G'. unfold format_value_body.
  cbv zeta. rewrite (clean_without_separator a b c Hc).
  destruct (Parse.float_of_str (clean (RStr (a ++ b)))) as [x | e].
  - repeat split.
  - destruct e; repeat split.
Qed.

(** ** Instances of the further properties *)

Lemma sample_raw_wf : dict_wf sample_raw.
Proof.
  unfold dict_wf. cbn.
  repeat (constructor; [cbn; intuition discriminate|]). constructor.
Qed.

Lemma sample_data_annotated_wf : dict_wf sample_data_annotated.
Proof.
  unfold dict_wf. vm_compute.
  repeat (constructor; [cbn; intuition discriminate|]). constructor.
Qed.

Lemma sample_partial_wf : dict_wf sample_partial.
Proof.
  unfold dict_wf. vm_compute.
  repeat (constructor; [cbn; intuition discriminate|]). constructor.
Qed.

Lemma sample_nan_wf : dict_wf sample_nan.
Proof.
  unfold dict_wf. vm_compute.
  repeat (constructor; [cbn; intuition discriminate|]). constructor.
Qed.

Lemma validator_reads_five_attributes_witness :
  _validate_data_consistency sample_data
  = _validate_data_consistency sample_data_annotated.
Proof.
  apply (validator_reads_five_attributes sample_data sample_data_annotated
           sample_data_wf sample_data_annotated_wf).
  intros attr Hin. cbn [In] in Hin.
  repeat (destruct Hin as [<- | Hin]; [vm_compute; reflexivity|]).
  contradiction.
Defined.

Lemma validator_silent_on_missing_witness :
  (filter about_quoted_limit
     (warnings (_validate_data_consistency sample_partial)) = []
   /\ filter (is_check "Quoted Amount vs Limit Amount")
        (consistency_checks (_validate_data_consistency sample_partial)) = [])
  /\ (filter about_premium
        (warnings (_validate_data_consistency sample_partial)) = []
      /\ filter (is_check "Premium due vs Annual Premium")
           (consistency_checks (_validate_data_consistency sample_partial))
         = [])
  /\ filter about_total_insured_value
       (warnings (_validate_data_consistency sample_partial)) = [].
Proof.
  destruct (validator_silent_on_missing sample_partial sample_partial_wf)
    as (Hpair & Hpremium & Hrange).
  split; [|split].
  - apply Hpair. right. reflexivity.
  - apply Hpremium. left. reflexivity.
  - apply Hrange. reflexivity.
Defined.

Lemma validator_on_nan_witness :
  (filter about_quoted_limit
     (warnings (_validate_data_consistency sample_nan))
   = ["Quoted Amount ($5.00) differs from Limit Amount ($nan)"]
   /\ filter (is_check "Quoted Amount vs Limit Amount")
        (consistency_checks (_validate_data_consistency sample_nan)) = [])
  /\ (filter about_premium
        (warnings (_validate_data_consistency sample_nan))
      = ["Premium due ($nan) differs from Annual Premium ($7.00)"]
      /\ filter (is_check "Premium due vs Annual Premium")
           (consistency_checks (_validate_data_consistency sample_nan)) = [])
  /\ filter about_total_insured_value
       (warnings (_validate_data_consistency sample_nan)) = [].
Proof.
  split; [|split].
  - destruct (validator_on_nan sample_nan (Float.of_int 5) Float.NaN
                sample_nan_wf eq_refl) as (Hpair & _).
    exact (Hpair eq_refl eq_refl).
  - destruct (validator_on_nan sample_nan Float.NaN (Float.of_int 7)
                sample_nan_wf eq_refl) as (_ & Hpremium & _).
    exact (Hpremium eq_refl eq_refl).
  - destruct (validator_on_nan sample_nan Float.NaN Float.NaN
                sample_nan_wf eq_refl) as (_ & _ & Hrange & _).
    exact (Hrange eq_refl).
Defined.

Lemma extraction_rate_ends_witness :
  (exists s,
     _create_summary sample_text_only = SummaryOk s
     /\ extraction_rate s = "0.0%")
  /\ (exists s,
        _create_summary sample_numbers_only = SummaryOk s
        /\ extraction_rate s = "100.0%").
Proof.
  split.
  - destruct (extraction_rate_ends sample_text_only
                ltac:(vm_compute; discriminate)) as (s & Hs & Hnone & _).
    exists s. split; [exact Hs | apply Hnone; reflexivity].
  - destruct (extraction_rate_ends sample_numbers_only
                ltac:(vm_compute; discriminate)) as (s & Hs & _ & Hall).
    exists s. split; [exact Hs | apply Hall; reflexivity].
Defined.

Lemma report_of_raw_data_witness :
  exists formatted_data s,
    format_extraction_results "2024-01-01T00:00:00" sample_raw
      "quote.pdf" "attributes.xlsx"
    = ReportSuccess "2024-01-01T00:00:00" "quote.pdf" "attributes.xlsx"
        formatted_data (SummaryOk s)
        (_validate_data_consistency formatted_data)
    /\ dict_keys formatted_data
       = ["Quoted Amount"; "Limit Amount"; "Broker"; "Deductible"]
    /\ total_attributes_processed s = 4%nat.
Proof.
  destruct (report_of_raw_data "2024-01-01T00:00:00" sample_raw
              "quote.pdf" "attributes.xlsx" sample_raw_wf)
    as (formatted_data & s & Hr & Hk & _ & Ht).
  exists formatted_data, s. auto.
Defined.

Lemma export_of_report_witness :
  fst (export_to_excel "20240101_000000"
         (format_extraction_results "2024-01-01T00:00:00" sample_raw
            "quote.pdf" "attributes.xlsx")
         None)
  = "insurance_extraction_20240101_000000.xlsx"
  /\ map Excel.Attribute
       (snd (export_to_excel "20240101_000000"
               (format_extraction_results "2024-01-01T00:00:00" sample_raw
                  "quote.pdf" "attributes.xlsx")
               None))
     = ["Quoted Amount"; "Limit Amount"; "Broker"; "Deductible"].
Proof.
  destruct (export_of_report "2024-01-01T00:00:00" "20240101_000000"
              sample_raw "quote.pdf" "attributes.xlsx" None sample_raw_wf)
    as [He _].
  rewrite He. split; reflexivity.
Defined.

Lemma generated_names_differ_witness :
  exists c l e,
    create_comparison_report "2024-01-01T00:00:00" sample_extractions
    = ComparisonOk c
    /\ dict_get (attribute_comparison c) "Quoted Amount" = Some l
    /\ In e l
    /\ document_name e = "document_2"
    /\ (document_index e = document_index e /\ e = e).
Proof.
  assert (Hc : exists c,
             create_comparison_report "2024-01-01T00:00:00" sample_extractions
             = ComparisonOk c) by (vm_compute; eexists; reflexivity).
  destruct Hc as [c Hc].
  assert (Hl : exists l,
             dict_get (attribute_comparison c) "Quoted Amount" = Some l).
  { vm_compute in Hc. inversion Hc; subst c. vm_compute.
    eexists; reflexivity. }
  destruct Hl as [l Hl].
  pose (e := {| document_index := 2;
                document_name := "document_2";
                entry_value := Some (Float.of_int 7);
                entry_formatted := Some "$7.00";
                entry_status := extracted |}).
  assert (Hin : In e l).
  { vm_compute in Hc. inversion Hc; subst c. vm_compute in Hl.
    inversion Hl; subst l. right. left. reflexivity. }
  exists c, l, e.
  split; [exact Hc|]. split; [exact Hl|]. split; [exact Hin|].
  split; [reflexivity|].
  exact (generated_names_differ "2024-01-01T00:00:00" sample_extractions
           c "Quoted Amount" l e e
           {| extraction_data :=
                Some (format_all [("Quoted Amount", RStr "7"); ("Broker", RNone)]);
              extraction_pdf_filename := None |}
           {| extraction_data :=
                Some (format_all [("Quoted Amount", RStr "7"); ("Broker", RNone)]);
              extraction_pdf_filename := None |}
           Hc Hl Hin Hin eq_refl eq_refl eq_refl eq_refl eq_refl).
Defined.

Lemma money_text_is_extracted_witness :
  exists x,
    _format_value (RStr "-$1,2,34.50") =
      {| raw_value := RStr "-$1,2,34.50";
         formatted_value := Some (format_currency x);
         numeric_value := Some x;
         currency := Some "USD";
         status := extracted |}
    /\ Float.is_nan x = false.
Proof. apply (money_text_is_extracted "-$1,2,34.50"). reflexivity. Defined.

Lemma formatted_value_is_extracted_again_witness :
  exists y,
    _format_value (RStr "-$0.00") =
      {| raw_value := RStr "-$0.00";
         formatted_value := Some (format_currency y);
         numeric_value := Some y;
         currency := Some "USD";
         status := extracted |}
    /\ Float.is_nan y = false.
Proof.
  apply (formatted_value_is_extracted_again (RStr "-0.001")
           (Float.round_ratio true 1 1000) "-$0.00");
    vm_compute; reflexivity.
Defined.

Lemma sample_raw_same_wf : dict_wf sample_raw_same.
Proof.
  unfold dict_wf. cbn.
  repeat (constructor; [cbn; intuition discriminate|]). constructor.
Qed.

Lemma raw_amounts_compared_as_numbers_witness :
  filter (is_check "Quoted Amount vs Limit Amount")
    (consistency_checks
       (_validate_data_consistency (format_all sample_raw_same)))
  = [{| check := "Quoted Amount vs Limit Amount";
        check_status := "consistent";
        message := "Quoted Amount equals Limit Amount as expected" |}]
  /\ filter about_quoted_limit
       (warnings (_validate_data_consistency (format_all sample_raw_same)))
     = [].
Proof.
  destruct (raw_amounts_compared_as_numbers sample_raw_same
              (RStr "$5,000,000.00") (RStr " 5000000 USD")
              (Float.of_int 5000000) (Float.of_int 5000000)
              sample_raw_same_wf eq_refl eq_refl eq_refl eq_refl)
    as [Hsame _].
  exact (Hsame eq_refl).
Defined.

Lemma separators_are_ignored_witness :
  formatted_value (_format_value (RStr "1,2$00"))
  = formatted_value (_format_value (RStr "1,200"))
  /\ numeric_value (_format_value (RStr "1,2$00"))
     = numeric_value (_format_value (RStr "1,200"))
  /\ currency (_format_value (RStr "1,2$00"))
     = currency (_format_value (RStr "1,200"))
  /\ status (_format_value (RStr "1,2$00"))
     = status (_format_value (RStr "1,200")).
Proof.
  apply (separators_are_ignored "1,2" "00" "$"); [left|]; reflexivity.
Defined.

Lemma summary_counts_witness :
  exists s left_out,
    _create_summary sample_data = SummaryOk s
    /\ total_attributes_processed s = 7%nat
    /\ List.length (top_values s) = Nat.min 5 (successful_extractions s)
    /\ Permutation (numeric_entries sample_data) (top_values s ++ left_out).
Proof.
  destruct (summary_counts sample_data sample_data_no_nan)
    as (s & left_out & Hs & Ht & _ & _ & Hl & Hp & _).
  exists s, left_out. auto.
Defined.
